(** * Bovali design studio: request orchestration and state bookkeeping

    A shallow embedding of [services/geminiService.ts] and of the handlers of
    [App.tsx], with the properties of the studio's specification stated over
    it.  JavaScript strings are modelled as [string] (sequences of 8-bit
    code units, enough for data URLs and base64 text), binary payloads as
    [list byte], [null]/[undefined] as [None], thrown values as the left
    summand of a result type. *)

From Stdlib Require Import List String Ascii Bool Arith NArith ZArith Lia.
From Stdlib Require Import Strings.Byte DecimalString DecimalNat ZifyNat ZifyN.
Import ListNotations.

Local Open Scope string_scope.
Local Open Scope list_scope.

Infix "+++" := String.append (at level 60, right associativity).

(** ** JavaScript primitives used by the sources *)

Module Js.

(** The double quote, which template literals of the sources embed. *)
Definition dq : string := String "034"%char EmptyString.

(** Truthiness of a string: only the empty string is falsy. *)
Definition truthy (s : string) : bool :=
  match s with
  | EmptyString => false
  | String _ _ => true
  end.

(** Truthiness of a [string | null] value. *)
Definition truthy_opt (o : option string) : bool :=
  match o with
  | Some s => truthy s
  | None => false
  end.

(** [`${v}`] for a possibly undefined [v]. *)
Definition interp (o : option string) : string :=
  match o with
  | Some s => s
  | None => "undefined"
  end.

(** [a || b] on strings. *)
Definition or_else (o : option string) (d : string) : string :=
  if truthy_opt o then interp o else d.

(** [s.split(sep)] for a one-character separator: never an empty array. *)
Fixpoint split (sep : ascii) (s : string) : list string :=
  match s with
  | EmptyString => [EmptyString]
  | String c r =>
      if Ascii.eqb c sep then EmptyString :: split sep r
      else match split sep r with
           | p :: ps => String c p :: ps
           | [] => [String c EmptyString]
           end
  end.

(** Line terminators, which [.] of a regular expression does not match. *)
Definition is_line_terminator (c : ascii) : bool :=
  Ascii.eqb c "010"%char || Ascii.eqb c "013"%char.

(** The lazy group [(.*?)] followed by [;]: the shortest run of characters
    other than line terminators that a semicolon follows. *)
Fixpoint lazy_until_semicolon (s : string) : option string :=
  match s with
  | EmptyString => None
  | String c r =>
      if Ascii.eqb c ";"%char then Some EmptyString
      else if is_line_terminator c then None
      else option_map (String c) (lazy_until_semicolon r)
  end.

(** [s.match(/:(.*?);/)]: the first group of the leftmost match, or [None]
    for [null]. *)
Fixpoint match_colon_semicolon (s : string) : option string :=
  match s with
  | EmptyString => None
  | String c r =>
      if Ascii.eqb c ":"%char then
        match lazy_until_semicolon r with
        | Some g => Some g
        | None => match_colon_semicolon r
        end
      else match_colon_semicolon r
  end.

(** [arr.includes(x)] on an array of strings. *)
Definition includes (l : list string) (x : string) : bool :=
  existsb (String.eqb x) l.

(** [new Set(iterable)] keeps the first occurrence of every value, in
    insertion order; spreading the set gives these values back. *)
Definition set_add (seen : list string) (x : string) : list string :=
  if includes seen x then seen else seen ++ [x].

Definition set_of (l : list string) : list string :=
  fold_left set_add l [].

Definition lower (c : ascii) : ascii :=
  let n := nat_of_ascii c in
  if (65 <=? n)%nat && (n <=? 90)%nat then ascii_of_nat (n + 32) else c.

(** [s.toLowerCase()] on ASCII text. *)
Fixpoint toLowerCase (s : string) : string :=
  match s with
  | EmptyString => EmptyString
  | String c r => String (lower c) (toLowerCase r)
  end.

(** White space and line terminators, which [trim] strips and [\s]
    matches. *)
Definition is_whitespace (c : ascii) : bool :=
  Ascii.eqb c "009"%char || Ascii.eqb c "010"%char || Ascii.eqb c "011"%char
  || Ascii.eqb c "012"%char || Ascii.eqb c "013"%char || Ascii.eqb c " "%char
  || Ascii.eqb c "160"%char.

Fixpoint trimStartChars (l : list ascii) : list ascii :=
  match l with
  | [] => []
  | c :: r => if is_whitespace c then trimStartChars r else l
  end.

(** [s.trim()]. *)
Definition trim (s : string) : string :=
  string_of_list_ascii
    (rev (trimStartChars (rev (trimStartChars (list_ascii_of_string s))))).

(** [hay.includes(needle)] on strings. *)
Fixpoint str_includes (needle hay : string) : bool :=
  String.prefix needle hay
  || match hay with
     | EmptyString => false
     | String _ r => str_includes needle r
     end.

(** [String(n)] for a natural number and for an integer. *)
Definition of_nat (n : nat) : string :=
  DecimalString.NilZero.string_of_uint (Nat.to_uint n).

Definition of_Z (z : Z) : string :=
  DecimalString.NilZero.string_of_int (Z.to_int z).

(** [arr.splice(start, 1)]: the removed elements and the array left. *)
Definition splice1 {A} (start : nat) (arr : list A) : list A * list A :=
  (firstn 1 (skipn start arr), firstn start arr ++ skipn (S start) arr).

End Js.

(** ** Base64, as the platform's [FileReader.readAsDataURL] and [atob] do it *)

Module Base64.

Definition alphabet : list ascii :=
  list_ascii_of_string
    "ABCDEFGHIJKLMNOPQRSTUVWXYZabcdefghijklmnopqrstuvwxyz0123456789+/".

Definition pad : ascii := "="%char.

Definition char_of (n : N) : ascii := nth (N.to_nat n) alphabet pad.

Fixpoint find_index (c : ascii) (l : list ascii) (i : N) : option N :=
  match l with
  | [] => None
  | x :: r => if Ascii.eqb c x then Some i else find_index c r (N.succ i)
  end.

Definition index_of (c : ascii) : option N := find_index c alphabet 0%N.

(** The 6-bit groups of a payload; a trailing group of one or two bytes is
    filled with zero bits. *)
Fixpoint sextets (bs : list byte) : list N :=
  match bs with
  | [] => []
  | [a] =>
      let n := (Byte.to_N a * 65536)%N in
      [(n / 262144)%N; ((n / 4096) mod 64)%N]
  | [a; b] =>
      let n := (Byte.to_N a * 65536 + Byte.to_N b * 256)%N in
      [(n / 262144)%N; ((n / 4096) mod 64)%N; ((n / 64) mod 64)%N]
  | a :: b :: c :: rest =>
      let n := (Byte.to_N a * 65536 + Byte.to_N b * 256 + Byte.to_N c)%N in
      (n / 262144)%N :: ((n / 4096) mod 64)%N :: ((n / 64) mod 64)%N
        :: (n mod 64)%N :: sextets rest
  end.

Definition padding (len : nat) : list ascii :=
  repeat pad ((3 - len mod 3) mod 3).

(** Base64 text of a payload, with [=] padding. *)
Definition encode (bs : list byte) : string :=
  string_of_list_ascii (map char_of (sextets bs) ++ padding (List.length bs)).

Definition is_ascii_whitespace (c : ascii) : bool :=
  Ascii.eqb c "009"%char || Ascii.eqb c "010"%char || Ascii.eqb c "012"%char
  || Ascii.eqb c "013"%char || Ascii.eqb c " "%char.

(** Removes one or two trailing padding characters. *)
Definition strip_padding (l : list ascii) : list ascii :=
  match rev l with
  | p1 :: p2 :: r =>
      if Ascii.eqb p1 pad then
        if Ascii.eqb p2 pad then rev r else rev (p2 :: r)
      else l
  | [p1] => if Ascii.eqb p1 pad then [] else l
  | [] => l
  end.

Fixpoint indices (l : list ascii) : option (list N) :=
  match l with
  | [] => Some []
  | c :: r =>
      match index_of c, indices r with
      | Some i, Some ix => Some (i :: ix)
      | _, _ => None
      end
  end.

Definition code (n : N) : ascii := ascii_of_N (n mod 256).

(** Bytes of a sequence of 6-bit groups: 24 bits give three bytes; of a
    trailing 12 bits the last four are dropped, of 18 bits the last two. *)
Fixpoint bytes_of (ss : list N) : list ascii :=
  match ss with
  | s0 :: s1 :: s2 :: s3 :: rest =>
      let n := (s0 * 262144 + s1 * 4096 + s2 * 64 + s3)%N in
      code (n / 65536) :: code (n / 256) :: code n :: bytes_of rest
  | [s0; s1; s2] =>
      let n := ((s0 * 4096 + s1 * 64 + s2) / 4)%N in
      [code (n / 256); code n]
  | [s0; s1] =>
      let n := ((s0 * 64 + s1) / 16)%N in
      [code n]
  | _ => []
  end.

(** [atob]: the forgiving base64 decoding of the HTML standard.  [None]
    stands for the [InvalidCharacterError] it throws. *)
Definition atob (s : string) : option string :=
  let d := filter (fun c => negb (is_ascii_whitespace c)) (list_ascii_of_string s) in
  let d := if (List.length d mod 4 =? 0)%nat then strip_padding d else d in
  if (List.length d mod 4 =? 1)%nat then None
  else option_map (fun ss => string_of_list_ascii (bytes_of ss)) (indices d).

End Base64.

(** ** The generation client: [services/geminiService.ts] *)

Module GeminiService.

(** A browser [File]: name, MIME type and content. *)
Record File := { name : string; type : string; bytes : list byte }.

(** Parts of a request or of a response of the generative backend. *)
Record InlineData := { data : option string; mimeType : option string }.
Record Part := { inlineData : option InlineData; text : option string }.
Record Content := { parts : option (list Part) }.
Record Candidate := { content : option Content }.

(** A [GenerateContentResponse]; [responseText] is its [text] accessor. *)
Record GenerateContentResponse :=
  { candidates : option (list Candidate); responseText : string }.

Definition inlinePart (d : option string) (m : option string) : Part :=
  {| inlineData := Some {| data := d; mimeType := m |}; text := None |}.

Definition textPart (t : string) : Part :=
  {| inlineData := None; text := Some t |}.

(** Thrown values: an [Error] with its message, or anything else. *)
Inductive Thrown :=
| ErrorObject (message : string)
| NonError (description : string).

Definition describe (e : Thrown) : string :=
  match e with
  | ErrorObject m => m
  | NonError d => d
  end.

(** Requests that reach the backend: [ai.models.generateContent] and
    [chat.sendMessage]. *)
Inductive Request :=
| GenerateContent (model : string) (contents : list Part)
| SendMessage (message : string).

Inductive Reply :=
| Rejects (e : Thrown)
| Resolves (r : GenerateContentResponse).

(** The world outside the program: the backend answers its k-th request
    with [backend k]; [requests] logs what was sent, [console] what was
    printed; [clock k] is [Date.now()] once k requests have been sent;
    [objectUrls] are the live object URLs and [minted] counts those ever
    created. *)
Record World := {
  backend : nat -> Reply;
  requests : list Request;
  console : list string;
  clock : nat -> Z;
  objectUrls : list string;
  minted : nat
}.

Definition withRequests (rqs : list Request) (w : World) : World :=
  {| backend := backend w; requests := rqs; console := console w;
     clock := clock w; objectUrls := objectUrls w; minted := minted w |}.

Definition withConsole (c : list string) (w : World) : World :=
  {| backend := backend w; requests := requests w; console := c;
     clock := clock w; objectUrls := objectUrls w; minted := minted w |}.

Definition withObjectUrls (urls : list string) (n : nat) (w : World) : World :=
  {| backend := backend w; requests := requests w; console := console w;
     clock := clock w; objectUrls := urls; minted := n |}.

Definition Result (A : Type) : Type := (Thrown + A)%type.

(** Asynchronous computations: a result or a thrown value, and the world
    after them. *)
Definition M (A : Type) : Type := World -> Result A * World.

Definition ret {A} (a : A) : M A := fun w => (inr a, w).

Definition throw {A} (e : Thrown) : M A := fun w => (inl e, w).

Definition bind {A B} (m : M A) (k : A -> M B) : M B :=
  fun w =>
    match m w with
    | (inr a, w1) => k a w1
    | (inl e, w1) => (inl e, w1)
    end.

Definition try_catch {A} (m : M A) (h : Thrown -> M A) : M A :=
  fun w =>
    match m w with
    | (inr a, w1) => (inr a, w1)
    | (inl e, w1) => h e w1
    end.

Notation "x <- m ;; k" := (bind m (fun x => k))
  (at level 61, m at next level, right associativity).
Notation "m ;;; k" := (bind m (fun _ => k))
  (at level 61, right associativity).

Definition console_write (line : string) : M unit :=
  fun w => (inr tt, withConsole (console w ++ [line]) w).

(** One awaited request to the backend. *)
Definition send (rq : Request) : M GenerateContentResponse :=
  fun w =>
    let w1 := withRequests (requests w ++ [rq]) w in
    match backend w (List.length (requests w)) with
    | Rejects e => (inl e, w1)
    | Resolves r => (inr r, w1)
    end.

(** Every member runs to its own outcome, in index order. *)
Fixpoint settle {A} (ms : list (M A)) (w : World) : list (Result A) * World :=
  match ms with
  | [] => ([], w)
  | m :: rest =>
      let (r, w1) := m w in
      let (rs, w2) := settle rest w1 in
      (r :: rs, w2)
  end.

(** The join of [Promise.all]: the values when all members fulfilled, the
    reason of a rejected member otherwise. *)
Fixpoint join {A} (rs : list (Result A)) : Result (list A) :=
  match rs with
  | [] => inr []
  | inl e :: _ => inl e
  | inr a :: rest =>
      match join rest with
      | inl e => inl e
      | inr l => inr (a :: l)
      end
  end.

(** [await Promise.all(ms)]. *)
Definition promise_all {A} (ms : list (M A)) : M (list A) :=
  fun w => let (rs, w1) := settle ms w in (join rs, w1).

(** The media type under which the platform serialises a file: its
    [type], or [application/octet-stream] when the file has none. *)
Definition mediaType (f : File) : string :=
  match type f with
  | EmptyString => "application/octet-stream"
  | t => t
  end.

(** [reader.readAsDataURL(file)] of the File API. *)
Definition readAsDataURL (f : File) : string :=
  "data:" +++ mediaType f +++ ";base64," +++ Base64.encode (bytes f).

(** The characters U+0020 to U+007E. *)
Definition printable (c : ascii) : bool :=
  let n := nat_of_ascii c in (32 <=? n)%nat && (n <=? 126)%nat.

(** The [type] that [new File(bits, name, { type })] keeps: the given one
    in lower case, or none when it holds a character outside U+0020 to
    U+007E. *)
Definition fileType (t : string) : string :=
  if forallb printable (list_ascii_of_string t) then Js.toLowerCase t
  else EmptyString.

Definition fileToBase64 (file : File) : M (option string) :=
  ret (nth_error (Js.split ","%char (readAsDataURL file)) 1).

Definition image_model : string := "gemini-2.5-flash-image-preview".

Definition nl : string := String "010"%char EmptyString.

(** A template literal, line by line. *)
Definition template (lines : list string) : string := String.concat nl lines.

Definition quoted (s : string) : string := Js.dq +++ s +++ Js.dq.

Definition dataUri (d : InlineData) : string :=
  "data:" +++ Js.interp (mimeType d) +++ ";base64," +++ Js.interp (data d).

(** The loop of [editImageWithPrompt] over the parts of the first
    candidate: every inline part overwrites [imageUrl], every other part
    with a truthy text overwrites [text]. *)
Definition editStep (acc : option string * option string) (part : Part)
  : option string * option string :=
  match inlineData part with
  | Some d => (Some (dataUri d), snd acc)
  | None =>
      if Js.truthy_opt (text part) then (fst acc, text part) else acc
  end.

Definition editParts (ps : list Part) : option string * option string :=
  fold_left editStep ps (None, None).

Definition editResponse (response : GenerateContentResponse)
  : M (option string * option string) :=
  match candidates response with
  | Some (c :: _) =>
      match content c with
      | None =>
          throw (ErrorObject "Cannot read properties of undefined (reading 'parts')")
      | Some ct =>
          match parts ct with
          | None =>
              throw (ErrorObject
                       "response.candidates[0].content.parts is not iterable")
          | Some ps => ret (editParts ps)
          end
      end
  | _ => ret (None, None)
  end.

Definition editPrompt (prompt : string) : string :=
  template
    [ EmptyString;
      "            As an expert AI image editor, edit the provided image based on the following instruction, ensuring the result is photorealistic and maintains the original image's context.";
      "            Instruction: " +++ quoted prompt;
      "        " ].

Definition editImageWithPrompt
  (base64Image : option string) (mimeType : string) (prompt : string)
  : M (option string * option string) :=
  try_catch
    (let fullPrompt := editPrompt prompt in
     response <- send (GenerateContent image_model
                         [inlinePart base64Image (Some mimeType);
                          textPart fullPrompt]) ;;
     r <- editResponse response ;;
     let (imageUrl, text) := (r : option string * option string) in
     if negb (Js.truthy_opt imageUrl) then
       if Js.truthy_opt text then
         throw (ErrorObject
                  ("The AI responded but did not return an image: "
                   +++ quoted (Js.interp text)))
       else
         throw (ErrorObject "The AI did not return an image for your edit request.")
     else ret (imageUrl, text))
    (fun error =>
       console_write ("Error editing image: " +++ describe error) ;;;
       match error with
       | ErrorObject _ => throw error
       | NonError _ =>
           throw (ErrorObject "An unknown error occurred while editing the image.")
       end).

(** The loop of [generateSurfaceDesign]: it stops at the first inline part. *)
Fixpoint firstInline (ps : list Part) : option string :=
  match ps with
  | [] => None
  | part :: rest =>
      match inlineData part with
      | Some d => Some (dataUri d)
      | None => firstInline rest
      end
  end.

Definition surfaceResponse (response : GenerateContentResponse) : option string :=
  match candidates response with
  | Some (c :: _) =>
      match content c with
      | Some ct =>
          match parts ct with
          | Some ps => firstInline ps
          | None => None
          end
      | None => None
      end
  | _ => None
  end.

Definition generateSurfaceDesign (prompt : string) (images : list File)
  : M (option string) :=
  try_catch
    (imageParts <- promise_all
        (map (fun image =>
                base64 <- fileToBase64 image ;;
                ret (inlinePart base64 (Some (type image))))
             images) ;;
     response <- send (GenerateContent image_model
                         (imageParts ++ [textPart prompt])) ;;
     let imageUrl := surfaceResponse response in
     if negb (Js.truthy_opt imageUrl) then
       console_write "AI failed to generate a new image for one variation." ;;;
       ret None
     else ret imageUrl)
    (fun error =>
       console_write ("Error generating surface design: " +++ describe error) ;;;
       throw error).

Definition runBatchGeneration
  (prompt : string) (imageFiles : list File) (numberOfImages : nat)
  : M (list string) :=
  results <- promise_all
      (repeat (generateSurfaceDesign prompt imageFiles) numberOfImages) ;;
  let imageUrls :=
    flat_map (fun r : option string =>
                match r with Some url => [url] | None => [] end) results in
  if (List.length imageUrls =? 0)%nat then
    throw (ErrorObject
      "The AI failed to generate any images. Please try a different combination of images or prompt.")
  else ret imageUrls.

Inductive SurfaceType := Flooring | Walls.

Definition surfaceName (st : SurfaceType) : string :=
  match st with
  | Flooring => "Flooring"
  | Walls => "Walls"
  end.

Inductive ExtractionType := ExtractPattern | ExtractMaterial.

Definition extractionName (t : ExtractionType) : string :=
  match t with
  | ExtractPattern => "Pattern"
  | ExtractMaterial => "Material"
  end.

Definition tileInstruction (tileDimensions : option string) : string :=
  if Js.truthy_opt tileDimensions then
    "The " +++ quoted "Pattern Image"
    +++ " represents a single tile with the dimensions "
    +++ Js.interp tileDimensions
    +++ ". Use this information to accurately scale the pattern on the surface."
  else EmptyString.

Definition extractAndProcessImage
  (sourceImage : File) (extractionType : ExtractionType)
  (dimensions : option string) : M (option string) :=
  let dimensionInstruction :=
    if Js.truthy_opt dimensions then
      "The user has specified that the subject in the photo has real-world dimensions of "
      +++ Js.interp dimensions
      +++ ". Ensure the output image accurately reflects this scale."
    else EmptyString in
  let prompt := template
    [ EmptyString;
      "        You are an expert AI assistant specializing in creating professional, catalogue-ready images for the luxury design brand Bovali.";
      "        Your task is to process the user-submitted photograph and extract a specific element.";
      "        Analyze the image and correct for any perspective distortion, angled views, uneven lighting, and color inconsistencies.";
      "        The final result must be a clean, seamless, front-facing, high-resolution image of the requested element, suitable for a professional design catalogue.";
      EmptyString;
      "        Extraction Type: Extract the " +++ extractionName extractionType +++ ".";
      "        - If 'Pattern', isolate the primary repeating pattern.";
      "        - If 'Material', isolate the material's texture, color, and finish, ignoring distinct patterns unless they are part of the material itself (like wood grain).";
      "        ";
      "        " +++ dimensionInstruction;
      EmptyString;
      "        Output only the processed image. Do not add text or other artifacts. The image is provided after this prompt.";
      "    " ] in
  generateSurfaceDesign prompt [sourceImage].

Definition applyPatternAndMaterial
  (renderShot pattern : File) (materials : list File)
  (surfaceType : SurfaceType) (numberOfImages : nat)
  (tileDimensions : option string) : M (list string) :=
  let dimensionInstruction := tileInstruction tileDimensions in
  let materialPromptPart :=
    if (1 <? List.length materials)%nat then
      "Then, apply the textures, material properties (like gloss, reflection, texture), and color palettes from the "
      +++ quoted "Material Images"
      +++ " to the same surface. Blend them creatively as guided by the pattern."
    else
      "Then, apply the texture, material properties (like gloss, reflection, texture), and color palette from the "
      +++ quoted "Material Image" +++ " to the same surface." in
  let surface := Js.toLowerCase (surfaceName surfaceType) in
  let prompt := template
    [ EmptyString;
      "        You are an AI assistant for Bovali, a luxury interior design brand.";
      "        Your task is to modify the primary " +++ quoted "Render Shot" +++ " image.";
      "        Identify the " +++ surface +++ " in the " +++ quoted "Render Shot" +++ ".";
      "        Apply the visual pattern from the " +++ quoted "Pattern Image"
        +++ " to the " +++ surface +++ ".";
      "        " +++ materialPromptPart;
      "        " +++ dimensionInstruction;
      "        The final result must be a single, photorealistic image that seamlessly integrates the new pattern and material(s) onto the specified surface in the original render shot, maintaining realistic lighting, shadows, and perspective.";
      "        Do not add any text or other artifacts to the image. Output only the modified image.";
      "        The images are provided after this prompt.";
      "    " ] in
  let imageFiles := [renderShot; pattern] ++ materials in
  runBatchGeneration prompt imageFiles numberOfImages.

Definition applyPatternOnly
  (renderShot pattern : File) (surfaceType : SurfaceType)
  (numberOfImages : nat) (tileDimensions : option string) : M (list string) :=
  let dimensionInstruction := tileInstruction tileDimensions in
  let surface := Js.toLowerCase (surfaceName surfaceType) in
  let prompt := template
    [ EmptyString;
      "        You are an AI assistant for Bovali, a luxury interior design brand.";
      "        Your task is to modify the primary " +++ quoted "Render Shot" +++ " image.";
      "        Identify the " +++ surface +++ " in the " +++ quoted "Render Shot" +++ ".";
      "        Apply ONLY the visual pattern from the " +++ quoted "Pattern Image"
        +++ " to the " +++ surface +++ ".";
      "        " +++ dimensionInstruction;
      "        The original material, texture, lighting, and colors of the surface in the "
        +++ quoted "Render Shot" +++ " should be preserved as much as possible.";
      "        The final result must be a single, photorealistic image that seamlessly integrates the new pattern onto the specified surface in the original render shot, maintaining realistic lighting, shadows, and perspective.";
      "        Do not add any text or other artifacts to the image. Output only the modified image.";
      "        The images are provided after this prompt.";
      "    " ] in
  let imageFiles := [renderShot; pattern] in
  runBatchGeneration prompt imageFiles numberOfImages.

Definition applyMaterialOnly
  (renderShot : File) (materials : list File) (surfaceType : SurfaceType)
  (numberOfImages : nat) : M (list string) :=
  let materialPromptPart :=
    if (1 <? List.length materials)%nat then
      "Apply ONLY the textures, material properties (like gloss, reflection, texture), and color palettes from the "
      +++ quoted "Material Images"
      +++ " to the surface. Blend them creatively to create a cohesive new material finish."
    else
      "Apply ONLY the texture, material properties (like gloss, reflection, texture), and color palette from the "
      +++ quoted "Material Image" +++ " to the surface." in
  let surface := Js.toLowerCase (surfaceName surfaceType) in
  let prompt := template
    [ EmptyString;
      "        You are an AI assistant for Bovali, a luxury interior design brand.";
      "        Your task is to modify the primary " +++ quoted "Render Shot" +++ " image.";
      "        Identify the " +++ surface +++ " in the " +++ quoted "Render Shot" +++ ".";
      "        " +++ materialPromptPart;
      "        If the original surface had a pattern, it should be preserved if possible, but rendered with the new material properties.";
      "        The final result must be a single, photorealistic image that seamlessly integrates the new material(s) onto the specified surface in the original render shot, maintaining realistic lighting, shadows, and perspective.";
      "        Do not add any text or other artifacts to the image. Output only the modified image.";
      "        The images are provided after this prompt.";
      "    " ] in
  let imageFiles := [renderShot] ++ materials in
  runBatchGeneration prompt imageFiles numberOfImages.

Definition createFromOutline
  (outline : File) (materials : list File) (reference : option File)
  (prompt : string) : M (option string) :=
  let fullPrompt := template
    [ EmptyString;
      "        You are an AI assistant for Bovali, a luxury interior design brand.";
      "        Your task is to create a new surface design based on the provided images.";
      EmptyString;
      "        You have received:";
      "        - A " +++ quoted "Pattern Outline"
        +++ " image, which will be the first image provided. This image acts as a stencil or mask for the final design.";
      "        - One or more " +++ quoted "Material Images"
        +++ " following the outline. These provide the textures, colors, and properties for the design.";
      "        - An optional " +++ quoted "Reference Image"
        +++ " provided last, for overall style and lighting inspiration.";
      EmptyString;
      "        Your instructions are:";
      "        1. Use the " +++ quoted "Pattern Outline"
        +++ " to define the shape of the new design. The design should only appear within the solid areas of the outline.";
      "        2. Apply the textures and properties from the " +++ quoted "Material Images"
        +++ " to fill the shape defined by the outline.";
      "        3. Follow the user prompt to determine how to combine the different materials. For example, "
        +++ quoted "use the marble for the main area and the gold for the edges."
        +++ " If no prompt is provided, use your design expertise to combine them artfully.";
      "        4. If a " +++ quoted "Reference Image"
        +++ " is provided, use it to guide the final aesthetic, lighting, and photorealism.";
      "        5. The final output must be a single, photorealistic, catalogue-quality image of the generated pattern on a neutral background. Do not add text.";
      EmptyString;
      "        User Prompt: " +++ quoted prompt;
      EmptyString;
      "        The images are provided after this prompt.";
      "    " ] in
  let imageFiles :=
    [outline] ++ materials
    ++ match reference with Some r => [r] | None => [] end in
  generateSurfaceDesign fullPrompt imageFiles.

End GeminiService.
(** ** The application state and its handlers: [App.tsx] *)

Module App.

Import GeminiService.

(** Modelled from the spec: the declaration of [ImageState] (imported from
    [./types]) is not among the sources.  A slot holds at most one image
    and, optionally, a locally addressable preview reference; [App.tsx]
    builds and reads it as [{ file, previewUrl }], both possibly [null]. *)
Record ImageState := { file : option File; previewUrl : option string }.

Definition noImage : ImageState := {| file := None; previewUrl := None |}.

Inductive Sender := user | bot.

Record Message := { id : Z; text : string; sender : Sender }.

Inductive GenerationMode := PatternAndMaterial | PatternOnly | MaterialOnly.
Inductive TileUnit := cm | inches.
Inductive ActiveTab := TabGenerator | TabExtractor | TabPattern.
Inductive HistoryType := HistRenderShot | HistPattern | HistMaterial.

Definition unitName (u : TileUnit) : string :=
  match u with
  | cm => "cm"
  | inches => "inches"
  end.

Definition tab_eqb (a b : ActiveTab) : bool :=
  match a, b with
  | TabGenerator, TabGenerator => true
  | TabExtractor, TabExtractor => true
  | TabPattern, TabPattern => true
  | _, _ => false
  end.

(** Generator state. *)
Record GeneratorState := {
  surfaceType : SurfaceType;
  generationMode : GenerationMode;
  renderShot : ImageState;
  pattern : ImageState;
  materials : list ImageState;
  outputImages : option (list string);
  loading : bool;
  error : option string;
  tileWidth : string;
  tileHeight : string;
  tileUnit : TileUnit;
  numberOfVariations : nat
}.

(** Extractor state. *)
Record ExtractorState := {
  sourceImage : ImageState;
  extractionType : ExtractionType;
  processedImage : option string;
  isProcessing : bool;
  processingError : option string;
  sourceWidth : string;
  sourceHeight : string;
  sourceUnit : TileUnit
}.

(** Pattern Studio state. *)
Record PatternState := {
  patternOutline : ImageState;
  patternMaterials : list ImageState;
  patternReference : ImageState;
  patternPrompt : string;
  patternOutput : option string;
  isPatternGenerating : bool;
  patternError : option string
}.

(** Chat state; [chatRef] tells whether the dialogue session exists. *)
Record ChatState := {
  isChatOpen : bool;
  isBotTyping : bool;
  messages : list Message;
  chatRef : bool
}.

(** History state. *)
Record HistoryState := {
  renderShotHistory : list string;
  patternHistory : list string;
  materialHistory : list string;
  isHistoryModalOpen : bool;
  activeHistoryType : option HistoryType
}.

(** Export gallery state. *)
Record ExportState := {
  exportedImages : list string;
  isExportGalleryOpen : bool;
  isZipping : bool
}.

(** The state of the [App] component: one field per group of [useState]
    hooks. *)
Record AppState := {
  activeTab : ActiveTab;
  apiKeyError : option string;
  generatorSt : GeneratorState;
  extractorSt : ExtractorState;
  patternSt : PatternState;
  chatSt : ChatState;
  historySt : HistoryState;
  exportSt : ExportState
}.

(** The setters of the hooks. *)
Definition setActiveTab v (s : AppState) : AppState :=
  {| activeTab := v;
     apiKeyError := apiKeyError s;
     generatorSt := generatorSt s;
     extractorSt := extractorSt s;
     patternSt := patternSt s;
     chatSt := chatSt s;
     historySt := historySt s;
     exportSt := exportSt s |}.

Definition with_generatorSt v (s : AppState) : AppState :=
  {| activeTab := activeTab s;
     apiKeyError := apiKeyError s;
     generatorSt := v;
     extractorSt := extractorSt s;
     patternSt := patternSt s;
     chatSt := chatSt s;
     historySt := historySt s;
     exportSt := exportSt s |}.

Definition setGenerationMode (v : GenerationMode) (s : AppState) : AppState :=
  let g := generatorSt s in
  with_generatorSt
    {| surfaceType := surfaceType g;
          generationMode := v;
          renderShot := renderShot g;
          pattern := pattern g;
          materials := materials g;
          outputImages := outputImages g;
          loading := loading g;
          error := error g;
          tileWidth := tileWidth g;
          tileHeight := tileHeight g;
          tileUnit := tileUnit g;
          numberOfVariations := numberOfVariations g |} s.

Definition setRenderShot (v : ImageState) (s : AppState) : AppState :=
  let g := generatorSt s in
  with_generatorSt
    {| surfaceType := surfaceType g;
          generationMode := generationMode g;
          renderShot := v;
          pattern := pattern g;
          materials := materials g;
          outputImages := outputImages g;
          loading := loading g;
          error := error g;
          tileWidth := tileWidth g;
          tileHeight := tileHeight g;
          tileUnit := tileUnit g;
          numberOfVariations := numberOfVariations g |} s.

Definition setPattern (v : ImageState) (s : AppState) : AppState :=
  let g := generatorSt s in
  with_generatorSt
    {| surfaceType := surfaceType g;
          generationMode := generationMode g;
          renderShot := renderShot g;
          pattern := v;
          materials := materials g;
          outputImages := outputImages g;
          loading := loading g;
          error := error g;
          tileWidth := tileWidth g;
          tileHeight := tileHeight g;
          tileUnit := tileUnit g;
          numberOfVariations := numberOfVariations g |} s.

Definition setMaterials (v : list ImageState) (s : AppState) : AppState :=
  let g := generatorSt s in
  with_generatorSt
    {| surfaceType := surfaceType g;
          generationMode := generationMode g;
          renderShot := renderShot g;
          pattern := pattern g;
          materials := v;
          outputImages := outputImages g;
          loading := loading g;
          error := error g;
          tileWidth := tileWidth g;
          tileHeight := tileHeight g;
          tileUnit := tileUnit g;
          numberOfVariations := numberOfVariations g |} s.

Definition setOutputImages (v : option (list string)) (s : AppState) : AppState :=
  let g := generatorSt s in
  with_generatorSt
    {| surfaceType := surfaceType g;
          generationMode := generationMode g;
          renderShot := renderShot g;
          pattern := pattern g;
          materials := materials g;
          outputImages := v;
          loading := loading g;
          error := error g;
          tileWidth := tileWidth g;
          tileHeight := tileHeight g;
          tileUnit := tileUnit g;
          numberOfVariations := numberOfVariations g |} s.

Definition setLoading (v : bool) (s : AppState) : AppState :=
  let g := generatorSt s in
  with_generatorSt
    {| surfaceType := surfaceType g;
          generationMode := generationMode g;
          renderShot := renderShot g;
          pattern := pattern g;
          materials := materials g;
          outputImages := outputImages g;
          loading := v;
          error := error g;
          tileWidth := tileWidth g;
          tileHeight := tileHeight g;
          tileUnit := tileUnit g;
          numberOfVariations := numberOfVariations g |} s.

Definition setError (v : option string) (s : AppState) : AppState :=
  let g := generatorSt s in
  with_generatorSt
    {| surfaceType := surfaceType g;
          generationMode := generationMode g;
          renderShot := renderShot g;
          pattern := pattern g;
          materials := materials g;
          outputImages := outputImages g;
          loading := loading g;
          error := v;
          tileWidth := tileWidth g;
          tileHeight := tileHeight g;
          tileUnit := tileUnit g;
          numberOfVariations := numberOfVariations g |} s.

Definition setTileWidth (v : string) (s : AppState) : AppState :=
  let g := generatorSt s in
  with_generatorSt
    {| surfaceType := surfaceType g;
          generationMode := generationMode g;
          renderShot := renderShot g;
          pattern := pattern g;
          materials := materials g;
          outputImages := outputImages g;
          loading := loading g;
          error := error g;
          tileWidth := v;
          tileHeight := tileHeight g;
          tileUnit := tileUnit g;
          numberOfVariations := numberOfVariations g |} s.

Definition setTileHeight (v : string) (s : AppState) : AppState :=
  let g := generatorSt s in
  with_generatorSt
    {| surfaceType := surfaceType g;
          generationMode := generationMode g;
          renderShot := renderShot g;
          pattern := pattern g;
          materials := materials g;
          outputImages := outputImages g;
          loading := loading g;
          error := error g;
          tileWidth := tileWidth g;
          tileHeight := v;
          tileUnit := tileUnit g;
          numberOfVariations := numberOfVariations g |} s.

Definition with_extractorSt v (s : AppState) : AppState :=
  {| activeTab := activeTab s;
     apiKeyError := apiKeyError s;
     generatorSt := generatorSt s;
     extractorSt := v;
     patternSt := patternSt s;
     chatSt := chatSt s;
     historySt := historySt s;
     exportSt := exportSt s |}.

Definition setSourceImage (v : ImageState) (s : AppState) : AppState :=
  let g := extractorSt s in
  with_extractorSt
    {| sourceImage := v;
          extractionType := extractionType g;
          processedImage := processedImage g;
          isProcessing := isProcessing g;
          processingError := processingError g;
          sourceWidth := sourceWidth g;
          sourceHeight := sourceHeight g;
          sourceUnit := sourceUnit g |} s.

Definition setProcessedImage (v : option string) (s : AppState) : AppState :=
  let g := extractorSt s in
  with_extractorSt
    {| sourceImage := sourceImage g;
          extractionType := extractionType g;
          processedImage := v;
          isProcessing := isProcessing g;
          processingError := processingError g;
          sourceWidth := sourceWidth g;
          sourceHeight := sourceHeight g;
          sourceUnit := sourceUnit g |} s.

Definition setIsProcessing (v : bool) (s : AppState) : AppState :=
  let g := extractorSt s in
  with_extractorSt
    {| sourceImage := sourceImage g;
          extractionType := extractionType g;
          processedImage := processedImage g;
          isProcessing := v;
          processingError := processingError g;
          sourceWidth := sourceWidth g;
          sourceHeight := sourceHeight g;
          sourceUnit := sourceUnit g |} s.

Definition setProcessingError (v : option string) (s : AppState) : AppState :=
  let g := extractorSt s in
  with_extractorSt
    {| sourceImage := sourceImage g;
          extractionType := extractionType g;
          processedImage := processedImage g;
          isProcessing := isProcessing g;
          processingError := v;
          sourceWidth := sourceWidth g;
          sourceHeight := sourceHeight g;
          sourceUnit := sourceUnit g |} s.

Definition setSourceWidth (v : string) (s : AppState) : AppState :=
  let g := extractorSt s in
  with_extractorSt
    {| sourceImage := sourceImage g;
          extractionType := extractionType g;
          processedImage := processedImage g;
          isProcessing := isProcessing g;
          processingError := processingError g;
          sourceWidth := v;
          sourceHeight := sourceHeight g;
          sourceUnit := sourceUnit g |} s.

Definition setSourceHeight (v : string) (s : AppState) : AppState :=
  let g := extractorSt s in
  with_extractorSt
    {| sourceImage := sourceImage g;
          extractionType := extractionType g;
          processedImage := processedImage g;
          isProcessing := isProcessing g;
          processingError := processingError g;
          sourceWidth := sourceWidth g;
          sourceHeight := v;
          sourceUnit := sourceUnit g |} s.

Definition with_patternSt v (s : AppState) : AppState :=
  {| activeTab := activeTab s;
     apiKeyError := apiKeyError s;
     generatorSt := generatorSt s;
     extractorSt := extractorSt s;
     patternSt := v;
     chatSt := chatSt s;
     historySt := historySt s;
     exportSt := exportSt s |}.

Definition setPatternOutline (v : ImageState) (s : AppState) : AppState :=
  let g := patternSt s in
  with_patternSt
    {| patternOutline := v;
          patternMaterials := patternMaterials g;
          patternReference := patternReference g;
          patternPrompt := patternPrompt g;
          patternOutput := patternOutput g;
          isPatternGenerating := isPatternGenerating g;
          patternError := patternError g |} s.

Definition setPatternMaterials (v : list ImageState) (s : AppState) : AppState :=
  let g := patternSt s in
  with_patternSt
    {| patternOutline := patternOutline g;
          patternMaterials := v;
          patternReference := patternReference g;
          patternPrompt := patternPrompt g;
          patternOutput := patternOutput g;
          isPatternGenerating := isPatternGenerating g;
          patternError := patternError g |} s.

Definition setPatternReference (v : ImageState) (s : AppState) : AppState :=
  let g := patternSt s in
  with_patternSt
    {| patternOutline := patternOutline g;
          patternMaterials := patternMaterials g;
          patternReference := v;
          patternPrompt := patternPrompt g;
          patternOutput := patternOutput g;
          isPatternGenerating := isPatternGenerating g;
          patternError := patternError g |} s.

Definition setPatternPrompt (v : string) (s : AppState) : AppState :=
  let g := patternSt s in
  with_patternSt
    {| patternOutline := patternOutline g;
          patternMaterials := patternMaterials g;
          patternReference := patternReference g;
          patternPrompt := v;
          patternOutput := patternOutput g;
          isPatternGenerating := isPatternGenerating g;
          patternError := patternError g |} s.

Definition setPatternOutput (v : option string) (s : AppState) : AppState :=
  let g := patternSt s in
  with_patternSt
    {| patternOutline := patternOutline g;
          patternMaterials := patternMaterials g;
          patternReference := patternReference g;
          patternPrompt := patternPrompt g;
          patternOutput := v;
          isPatternGenerating := isPatternGenerating g;
          patternError := patternError g |} s.

Definition setIsPatternGenerating (v : bool) (s : AppState) : AppState :=
  let g := patternSt s in
  with_patternSt
    {| patternOutline := patternOutline g;
          patternMaterials := patternMaterials g;
          patternReference := patternReference g;
          patternPrompt := patternPrompt g;
          patternOutput := patternOutput g;
          isPatternGenerating := v;
          patternError := patternError g |} s.

Definition setPatternError (v : option string) (s : AppState) : AppState :=
  let g := patternSt s in
  with_patternSt
    {| patternOutline := patternOutline g;
          patternMaterials := patternMaterials g;
          patternReference := patternReference g;
          patternPrompt := patternPrompt g;
          patternOutput := patternOutput g;
          isPatternGenerating := isPatternGenerating g;
          patternError := v |} s.

Definition with_chatSt v (s : AppState) : AppState :=
  {| activeTab := activeTab s;
     apiKeyError := apiKeyError s;
     generatorSt := generatorSt s;
     extractorSt := extractorSt s;
     patternSt := patternSt s;
     chatSt := v;
     historySt := historySt s;
     exportSt := exportSt s |}.

Definition setIsBotTyping (v : bool) (s : AppState) : AppState :=
  let g := chatSt s in
  with_chatSt
    {| isChatOpen := isChatOpen g;
          isBotTyping := v;
          messages := messages g;
          chatRef := chatRef g |} s.

Definition setMessages (v : list Message) (s : AppState) : AppState :=
  let g := chatSt s in
  with_chatSt
    {| isChatOpen := isChatOpen g;
          isBotTyping := isBotTyping g;
          messages := v;
          chatRef := chatRef g |} s.

Definition with_historySt v (s : AppState) : AppState :=
  {| activeTab := activeTab s;
     apiKeyError := apiKeyError s;
     generatorSt := generatorSt s;
     extractorSt := extractorSt s;
     patternSt := patternSt s;
     chatSt := chatSt s;
     historySt := v;
     exportSt := exportSt s |}.

Definition setRenderShotHistory (v : list string) (s : AppState) : AppState :=
  let g := historySt s in
  with_historySt
    {| renderShotHistory := v;
          patternHistory := patternHistory g;
          materialHistory := materialHistory g;
          isHistoryModalOpen := isHistoryModalOpen g;
          activeHistoryType := activeHistoryType g |} s.

Definition setPatternHistory (v : list string) (s : AppState) : AppState :=
  let g := historySt s in
  with_historySt
    {| renderShotHistory := renderShotHistory g;
          patternHistory := v;
          materialHistory := materialHistory g;
          isHistoryModalOpen := isHistoryModalOpen g;
          activeHistoryType := activeHistoryType g |} s.

Definition setMaterialHistory (v : list string) (s : AppState) : AppState :=
  let g := historySt s in
  with_historySt
    {| renderShotHistory := renderShotHistory g;
          patternHistory := patternHistory g;
          materialHistory := v;
          isHistoryModalOpen := isHistoryModalOpen g;
          activeHistoryType := activeHistoryType g |} s.

Definition with_exportSt v (s : AppState) : AppState :=
  {| activeTab := activeTab s;
     apiKeyError := apiKeyError s;
     generatorSt := generatorSt s;
     extractorSt := extractorSt s;
     patternSt := patternSt s;
     chatSt := chatSt s;
     historySt := historySt s;
     exportSt := v |}.

Definition setExportedImages (v : list string) (s : AppState) : AppState :=
  let g := exportSt s in
  with_exportSt
    {| exportedImages := v;
          isExportGalleryOpen := isExportGalleryOpen g;
          isZipping := isZipping g |} s.

(** The state after mounting with a configured API key: the initial values
    of the hooks, and the dialogue session created. *)
Definition initialState : AppState :=
  {| activeTab := TabGenerator;
     apiKeyError := None;
     generatorSt :=
       {| surfaceType := Flooring; generationMode := PatternAndMaterial;
          renderShot := noImage; pattern := noImage; materials := [];
          outputImages := None; loading := false; error := None;
          tileWidth := EmptyString; tileHeight := EmptyString; tileUnit := cm;
          numberOfVariations := 1 |};
     extractorSt :=
       {| sourceImage := noImage; extractionType := ExtractPattern;
          processedImage := None; isProcessing := false;
          processingError := None; sourceWidth := EmptyString; sourceHeight := EmptyString;
          sourceUnit := cm |};
     patternSt :=
       {| patternOutline := noImage; patternMaterials := [];
          patternReference := noImage; patternPrompt := EmptyString;
          patternOutput := None; isPatternGenerating := false;
          patternError := None |};
     chatSt :=
       {| isChatOpen := false; isBotTyping := false;
          messages :=
            [ {| id := 1%Z;
                 text := "Hello! How can I assist you with your Bovali design today?";
                 sender := bot |} ];
          chatRef := true |};
     historySt :=
       {| renderShotHistory := []; patternHistory := []; materialHistory := [];
          isHistoryModalOpen := false; activeHistoryType := None |};
     exportSt :=
       {| exportedImages := []; isExportGalleryOpen := false;
          isZipping := false |} |}.

(** The handlers run between two renderings: from the state they were
    created in and the world, they give the next state and world. *)
Definition Handler : Type := AppState -> World -> AppState * World.

(** [Date.now()]. *)
Definition now (w : World) : Z := clock w (List.length (requests w)).

Definition decimal (n : nat) : string :=
  DecimalString.NilZero.string_of_uint (Nat.to_uint n).

(** [URL.createObjectURL(file)]: a fresh [blob:] URL, live until revoked. *)
Definition createObjectURL (w : World) : string * World :=
  let url := "blob:" +++ decimal (minted w) in
  (url, withObjectUrls (url :: objectUrls w) (S (minted w)) w).

(** [URL.revokeObjectURL(url)]. *)
Definition revokeObjectURL (url : string) (w : World) : World :=
  withObjectUrls
    (filter (fun u => negb (String.eqb u url)) (objectUrls w)) (minted w) w.

Definition addMessage (m : Message) (s : AppState) : AppState :=
  setMessages (messages (chatSt s) ++ [m]) s.

(** The updater [prev => [...new Set([dataUrl, ...prev])]] of the three
    history caches. *)
Definition historyInsert (dataUrl : string) (prev : list string) : list string :=
  Js.set_of (dataUrl :: prev).

(** The history caches a session can hold: empty at start, then only
    changed by [historyInsert]. *)
Inductive HistoryCache : list string -> Prop :=
| cache_empty : HistoryCache []
| cache_insert dataUrl prev :
    HistoryCache prev -> HistoryCache (historyInsert dataUrl prev).

(** The reset of inactive tabs, run after [activeTab] has changed. *)
Definition activeTabEffect (s : AppState) : AppState :=
  let s :=
    if negb (tab_eqb (activeTab s) TabGenerator) then
      setTileHeight EmptyString (setTileWidth EmptyString (setError None (setOutputImages None
        (setMaterials [] (setPattern noImage (setRenderShot noImage s))))))
    else s in
  let s :=
    if negb (tab_eqb (activeTab s) TabExtractor) then
      setSourceHeight EmptyString (setSourceWidth EmptyString (setProcessingError None
        (setProcessedImage None (setSourceImage noImage s))))
    else s in
  if negb (tab_eqb (activeTab s) TabPattern) then
    setPatternError None (setPatternOutput None (setPatternPrompt EmptyString
      (setPatternReference noImage (setPatternMaterials []
        (setPatternOutline noImage s)))))
  else s.

(** [setActiveTab(tab)] and the effect it triggers; setting the tab that is
    already active renders nothing anew. *)
Definition switchTab (tab : ActiveTab) (s : AppState) : AppState :=
  if tab_eqb tab (activeTab s) then s
  else activeTabEffect (setActiveTab tab s).

(** The reset run after [generationMode] has changed. *)
Definition generationModeEffect (s : AppState) : AppState :=
  setOutputImages None (setError None (setTileHeight EmptyString (setTileWidth EmptyString
    (setMaterials [] (setPattern noImage (setRenderShot noImage s)))))).

Definition fileToDataURL (file : File) : M string :=
  ret (readAsDataURL file).

Definition parseDataUrl (dataUrl : string) : Result (string * option string) :=
  let parts := Js.split ","%char dataUrl in
  match Js.match_colon_semicolon (hd EmptyString parts) with
  | None => inl (ErrorObject "Invalid data URL format")
  | Some mimeType => inr (mimeType, nth_error parts 1)
  end.

Definition handleEdit
  (message currentImage : string)
  (setImageCallback : string -> AppState -> AppState)
  (successMessage : string) : Handler :=
  fun s w =>
    let attempt : M (AppState -> AppState) :=
      parsed <- (fun w0 => (parseDataUrl currentImage, w0)) ;;
      r <- editImageWithPrompt (snd parsed) (fst parsed) message ;;
      let imageUrl := fst r in
      if Js.truthy_opt imageUrl then
        fun w1 =>
          let botMessage :=
            {| id := (now w1 + 1)%Z;
               text := Js.or_else (snd r) successMessage;
               sender := bot |} in
          (inr (fun st => addMessage botMessage
                            (setImageCallback (Js.interp imageUrl) st)), w1)
      else
        throw (ErrorObject "The AI did not return a new image for your edit request.") in
    let (s1, w1) :=
      match attempt w with
      | (inr update, w1) => (update s, w1)
      | (inl e, w1) =>
          let w2 := snd (console_write ("Chat edit error: " +++ describe e) w1) in
          let errorMessageText :=
            match e with
            | ErrorObject m => m
            | NonError _ =>
                "Sorry, I couldn't edit the image. Please try a different instruction."
            end in
          (addMessage {| id := (now w2 + 1)%Z; text := errorMessageText;
                         sender := bot |} s, w2)
      end in
    (setIsBotTyping false s1, w1).

(** [outputImages && outputImages.length > 0]. *)
Definition hasImages (o : option (list string)) : bool :=
  match o with
  | Some l => (0 <? List.length l)%nat
  | None => false
  end.

Definition handleSendMessage (message : string) : Handler :=
  fun s w =>
    if Js.truthy_opt (apiKeyError s) then (s, w)
    else
      let newUserMessage := {| id := now w; text := message; sender := user |} in
      let s1 := setIsBotTyping true (addMessage newUserMessage s) in
      let outputImages := outputImages (generatorSt s) in
      let patternOutput := patternOutput (patternSt s) in
      if tab_eqb (activeTab s) TabGenerator && hasImages outputImages then
        handleEdit message
          (Js.interp (nth_error (match outputImages with Some l => l | None => [] end) 0))
          (fun newUrl => setOutputImages (Some [newUrl]))
          "Of course. Here is the updated design." s1 w
      else if tab_eqb (activeTab s) TabPattern && Js.truthy_opt patternOutput then
        handleEdit message (Js.interp patternOutput)
          (fun newUrl => setPatternOutput (Some newUrl))
          "Of course. Here is the updated pattern." s1 w
      else if chatRef (chatSt s) then
        match send (SendMessage message) w with
        | (inr response, w1) =>
            let newBotMessage :=
              {| id := (now w1 + 1)%Z; text := responseText response;
                 sender := bot |} in
            (setIsBotTyping false (addMessage newBotMessage s1), w1)
        | (inl e, w1) =>
            let w2 := snd (console_write ("Chat error: " +++ describe e) w1) in
            let errorMessage :=
              {| id := (now w2 + 1)%Z;
                 text := "I'm sorry, I encountered an error. Please try again.";
                 sender := bot |} in
            (setIsBotTyping false (addMessage errorMessage s1), w2)
        end
      else (s1, w).

(** The state setters that [handleImageSelect] and [handleImageRemove] are
    called with. *)
Inductive ImageSlot :=
| SlotRenderShot | SlotPattern | SlotSourceImage
| SlotPatternOutline | SlotPatternReference.

Definition getSlot (slot : ImageSlot) (s : AppState) : ImageState :=
  match slot with
  | SlotRenderShot => renderShot (generatorSt s)
  | SlotPattern => pattern (generatorSt s)
  | SlotSourceImage => sourceImage (extractorSt s)
  | SlotPatternOutline => patternOutline (patternSt s)
  | SlotPatternReference => patternReference (patternSt s)
  end.

Definition setSlot (slot : ImageSlot) (v : ImageState) : AppState -> AppState :=
  match slot with
  | SlotRenderShot => setRenderShot v
  | SlotPattern => setPattern v
  | SlotSourceImage => setSourceImage v
  | SlotPatternOutline => setPatternOutline v
  | SlotPatternReference => setPatternReference v
  end.

Definition getHistory (t : HistoryType) (s : AppState) : list string :=
  match t with
  | HistRenderShot => renderShotHistory (historySt s)
  | HistPattern => patternHistory (historySt s)
  | HistMaterial => materialHistory (historySt s)
  end.

Definition setHistory (t : HistoryType) (v : list string) : AppState -> AppState :=
  match t with
  | HistRenderShot => setRenderShotHistory v
  | HistPattern => setPatternHistory v
  | HistMaterial => setMaterialHistory v
  end.

(** Releases the preview of a slot when it is an object URL. *)
Definition releasePreview (prevState : ImageState) (w : World) : World :=
  match previewUrl prevState with
  | Some url =>
      if Js.truthy url && String.prefix "blob:" url then revokeObjectURL url w
      else w
  | None => w
  end.

Definition resetOutputs (s : AppState) : AppState :=
  setPatternError None (setPatternOutput None (setProcessingError None
    (setProcessedImage None (setError None (setOutputImages None s))))).

Definition handleImageSelect
  (file : File) (slot : ImageSlot) (historyType : option HistoryType) : Handler :=
  fun s w =>
    let w1 := releasePreview (getSlot slot s) w in
    let (url, w2) := createObjectURL w1 in
    let s1 := setSlot slot {| file := Some file; previewUrl := Some url |} s in
    let s2 := resetOutputs s1 in
    match historyType with
    | Some t =>
        match fileToDataURL file w2 with
        | (inr dataUrl, w3) =>
            (setHistory t (historyInsert dataUrl (getHistory t s2)) s2, w3)
        | (inl _, w3) => (s2, w3)
        end
    | None => (s2, w2)
    end.

Definition handleGeneratorMaterialSelect (file : File) : Handler :=
  fun s w =>
    let (url, w1) := createObjectURL w in
    let newMaterial := {| file := Some file; previewUrl := Some url |} in
    let s1 := setMaterials (materials (generatorSt s) ++ [newMaterial]) s in
    match fileToDataURL file w1 with
    | (inr dataUrl, w2) =>
        (setMaterialHistory
           (historyInsert dataUrl (materialHistory (historySt s1))) s1, w2)
    | (inl _, w2) => (s1, w2)
    end.

Definition handlePatternMaterialSelect (file : File) : Handler :=
  fun s w =>
    let (url, w1) := createObjectURL w in
    let newMaterial := {| file := Some file; previewUrl := Some url |} in
    let s1 :=
      setPatternMaterials (patternMaterials (patternSt s) ++ [newMaterial]) s in
    match fileToDataURL file w1 with
    | (inr dataUrl, w2) =>
        (setMaterialHistory
           (historyInsert dataUrl (materialHistory (historySt s1))) s1, w2)
    | (inl _, w2) => (s1, w2)
    end.

(** All three history caches of a state are ones a session can hold. *)
Definition historiesReachable (s : AppState) : Prop :=
  forall t, HistoryCache (getHistory t s).

(** A handler step leaves a history cache alone or inserts into it. *)
Definition historyStep (s s' : AppState) : Prop :=
  forall t,
    getHistory t s' = getHistory t s
    \/ exists dataUrl, getHistory t s' = historyInsert dataUrl (getHistory t s).

Definition handleImageRemove (slot : ImageSlot) : Handler :=
  fun s w =>
    let w1 := releasePreview (getSlot slot s) w in
    (resetOutputs (setSlot slot noImage s), w1).

(** [materials.map(m => m.file).filter(f => f !== null)]. *)
Definition filesOf (ms : list ImageState) : list File :=
  flat_map (fun m => match file m with Some f => [f] | None => [] end) ms.

(** [`${width} x ${height} ${unit}`] when both sizes are given. *)
Definition dimensionsOf (width height : string) (unit : TileUnit) : option string :=
  if Js.truthy width && Js.truthy height then
    Some (width +++ " x " +++ height +++ " " +++ unitName unit)
  else None.

(** The body of the [try] block of [handleGeneratorSubmit] up to the
    awaited service call. *)
Definition generatorRequest (s : AppState) : M (list string) :=
  let g := generatorSt s in
  let materialFiles := filesOf (materials g) in
  let tileDimensions := dimensionsOf (tileWidth g) (tileHeight g) (tileUnit g) in
  match generationMode g with
  | PatternAndMaterial =>
      match file (renderShot g), file (pattern g), materialFiles with
      | Some r, Some p, _ :: _ =>
          applyPatternAndMaterial r p materialFiles (surfaceType g)
            (numberOfVariations g) tileDimensions
      | _, _, _ =>
          throw (ErrorObject
            "Please upload a Render Shot, a Pattern, and at least one Material image.")
      end
  | PatternOnly =>
      match file (renderShot g), file (pattern g) with
      | Some r, Some p =>
          applyPatternOnly r p (surfaceType g) (numberOfVariations g) tileDimensions
      | _, _ =>
          throw (ErrorObject
            "Please upload a Render Shot and a Pattern Image for this mode.")
      end
  | MaterialOnly =>
      match file (renderShot g), materialFiles with
      | Some r, _ :: _ =>
          applyMaterialOnly r materialFiles (surfaceType g) (numberOfVariations g)
      | _, _ =>
          throw (ErrorObject
            "Please upload a Render Shot and at least one Material Image for this mode.")
      end
  end.

Definition handleGeneratorSubmit : Handler :=
  fun s w =>
    if Js.truthy_opt (apiKeyError s) then (s, w)
    else
      let s1 := setOutputImages None (setError None (setLoading true s)) in
      let (s2, w1) :=
        match generatorRequest s w with
        | (inr imageUrls, w1) =>
            if (0 <? List.length imageUrls)%nat then
              (setOutputImages (Some imageUrls) s1, w1)
            else
              (setError
                 (Some "Failed to generate image. The AI did not return any images.")
                 s1, w1)
        | (inl (ErrorObject m), w1) => (setError (Some m) s1, w1)
        | (inl (NonError _), w1) =>
            (setError (Some "An unknown error occurred.") s1, w1)
        end in
      (setLoading false s2, w1).

Definition handleProcessImage : Handler :=
  fun s w =>
    if Js.truthy_opt (apiKeyError s) then (s, w)
    else
      let e := extractorSt s in
      match file (sourceImage e) with
      | None => (setProcessingError (Some "Please upload an image to process.") s, w)
      | Some source =>
          let s1 :=
            setProcessedImage None (setProcessingError None (setIsProcessing true s)) in
          let dimensions :=
            dimensionsOf (sourceWidth e) (sourceHeight e) (sourceUnit e) in
          let (s2, w1) :=
            match extractAndProcessImage source (extractionType e) dimensions w with
            | (inr imageUrl, w1) =>
                if Js.truthy_opt imageUrl then
                  let url := Js.interp imageUrl in
                  let s2 := setProcessedImage (Some url) s1 in
                  match extractionType e with
                  | ExtractPattern =>
                      (setPatternHistory
                         (historyInsert url (patternHistory (historySt s2))) s2, w1)
                  | ExtractMaterial =>
                      (setMaterialHistory
                         (historyInsert url (materialHistory (historySt s2))) s2, w1)
                  end
                else
                  (setProcessingError
                     (Some "Failed to process image. The AI did not return an image.")
                     s1, w1)
            | (inl (ErrorObject m), w1) => (setProcessingError (Some m) s1, w1)
            | (inl (NonError _), w1) =>
                (setProcessingError
                   (Some "An unknown error occurred during processing.") s1, w1)
            end in
          (setIsProcessing false s2, w1)
      end.

Definition handlePatternSubmit : Handler :=
  fun s w =>
    if Js.truthy_opt (apiKeyError s) then (s, w)
    else
      let p := patternSt s in
      match file (patternOutline p), patternMaterials p with
      | Some outline, _ :: _ =>
          let s1 :=
            setPatternOutput None
              (setPatternError None (setIsPatternGenerating true s)) in
          let materialFiles := filesOf (patternMaterials p) in
          let referenceFile := file (patternReference p) in
          let (s2, w1) :=
            match createFromOutline outline materialFiles referenceFile
                    (patternPrompt p) w with
            | (inr imageUrl, w1) =>
                if Js.truthy_opt imageUrl then
                  let url := Js.interp imageUrl in
                  let s2 := setPatternOutput (Some url) s1 in
                  (setPatternHistory
                     (historyInsert url (patternHistory (historySt s2))) s2, w1)
                else
                  (setPatternError
                     (Some "The AI failed to generate a pattern. Please try again.")
                     s1, w1)
            | (inl (ErrorObject m), w1) => (setPatternError (Some m) s1, w1)
            | (inl (NonError _), w1) =>
                (setPatternError
                   (Some "An unknown error occurred during pattern generation.")
                   s1, w1)
            end in
          (setIsPatternGenerating false s2, w1)
      | _, _ =>
          (setPatternError
             (Some "Please provide a Pattern Outline and at least one Material Image.")
             s, w)
      end.

(** [arr[i] = v] on a typed array: nothing happens out of range. *)
Fixpoint assign (i : nat) (v : byte) (arr : list byte) : list byte :=
  match arr, i with
  | [], _ => []
  | _ :: rest, O => v :: rest
  | x :: rest, S j => x :: assign j v rest
  end.

(** The loop [while (n--) u8arr[n] = bstr.charCodeAt(n)]. *)
Fixpoint fillBytes (n : nat) (bstr : list ascii) (u8arr : list byte) : list byte :=
  match n with
  | O => u8arr
  | S m =>
      fillBytes m bstr (assign m (byte_of_ascii (nth m bstr zero)) u8arr)
  end.

Definition dataURLtoFile (dataurl filename : string) : Result File :=
  let arr := Js.split ","%char dataurl in
  match Js.match_colon_semicolon (hd EmptyString arr) with
  | None => inl (ErrorObject "Invalid data URL")
  | Some mime =>
      match Base64.atob (Js.interp (nth_error arr 1)) with
      | None => inl (ErrorObject "The string to be decoded is not correctly encoded.")
      | Some bstr =>
          let chars := list_ascii_of_string bstr in
          let n := List.length chars in
          let u8arr := fillBytes n chars (repeat x00 n) in
          inr {| name := filename; type := fileType mime; bytes := u8arr |}
      end
  end.

(** The updater of [handleExportImage]. *)
Definition exportInsert (imageUrl : string) (prev : list string) : list string :=
  if Js.includes prev imageUrl then prev else imageUrl :: prev.

Definition handleExportImage (imageUrl : string) (s : AppState) : AppState :=
  setExportedImages (exportInsert imageUrl (exportedImages (exportSt s))) s.

(** [prev.filter((_, index) => index !== indexToDelete)]. *)
Fixpoint removeAt (indexToDelete : nat) (prev : list string) : list string :=
  match prev, indexToDelete with
  | [], _ => []
  | _ :: rest, O => rest
  | x :: rest, S i => x :: removeAt i rest
  end.

Definition handleDeleteExportedImage (indexToDelete : nat) (s : AppState) : AppState :=
  setExportedImages (removeAt indexToDelete (exportedImages (exportSt s))) s.

Definition setIsHistoryModalOpen (v : bool) (s : AppState) : AppState :=
  let h := historySt s in
  with_historySt
    {| renderShotHistory := renderShotHistory h;
       patternHistory := patternHistory h;
       materialHistory := materialHistory h;
       isHistoryModalOpen := v;
       activeHistoryType := activeHistoryType h |} s.

Definition setActiveHistoryType (v : option HistoryType) (s : AppState) : AppState :=
  let h := historySt s in
  with_historySt
    {| renderShotHistory := renderShotHistory h;
       patternHistory := patternHistory h;
       materialHistory := materialHistory h;
       isHistoryModalOpen := isHistoryModalOpen h;
       activeHistoryType := v |} s.

Definition slot_eqb (a b : ImageSlot) : bool :=
  match a, b with
  | SlotRenderShot, SlotRenderShot => true
  | SlotPattern, SlotPattern => true
  | SlotSourceImage, SlotSourceImage => true
  | SlotPatternOutline, SlotPatternOutline => true
  | SlotPatternReference, SlotPatternReference => true
  | _, _ => false
  end.

(** [!x] for a [File | null]. *)
Definition missing {A} (o : option A) : bool :=
  match o with
  | Some _ => false
  | None => true
  end.

Definition getIsGeneratorButtonDisabled (s : AppState) : bool :=
  let g := generatorSt s in
  if loading g || Js.truthy_opt (apiKeyError s) then true
  else
    match generationMode g with
    | PatternAndMaterial =>
        missing (file (renderShot g)) || missing (file (pattern g))
        || (List.length (materials g) =? 0)%nat
    | PatternOnly => missing (file (renderShot g)) || missing (file (pattern g))
    | MaterialOnly =>
        missing (file (renderShot g)) || (List.length (materials g) =? 0)%nat
    end.

Definition getIsExtractorButtonDisabled (s : AppState) : bool :=
  isProcessing (extractorSt s) || missing (file (sourceImage (extractorSt s)))
  || Js.truthy_opt (apiKeyError s).

Definition getIsPatternButtonDisabled (s : AppState) : bool :=
  isPatternGenerating (patternSt s)
  || missing (file (patternOutline (patternSt s)))
  || (List.length (patternMaterials (patternSt s)) =? 0)%nat
  || Js.truthy_opt (apiKeyError s).

(** Handlers that can throw out of the event: nothing is caught. *)
Definition ThrowingHandler : Type :=
  AppState -> World -> Result (AppState * World).

(** Reading [removed[0].previewUrl] when nothing was removed. *)
Definition noPreviewError : Thrown :=
  ErrorObject "Cannot read properties of undefined (reading 'previewUrl')".

Definition handleGeneratorMaterialRemove (index : nat) : ThrowingHandler :=
  fun s w =>
    let (removed, newMaterials) := Js.splice1 index (materials (generatorSt s)) in
    match nth_error removed 0 with
    | None => inl noPreviewError
    | Some first => inr (setMaterials newMaterials s, releasePreview first w)
    end.

Definition handlePatternMaterialRemove (index : nat) : ThrowingHandler :=
  fun s w =>
    let (removed, newMaterials) :=
      Js.splice1 index (patternMaterials (patternSt s)) in
    match nth_error removed 0 with
    | None => inl noPreviewError
    | Some first =>
        let w1 :=
          if Js.truthy_opt (previewUrl first)
          then revokeObjectURL (Js.interp (previewUrl first)) w
          else w in
        inr (setPatternMaterials newMaterials s, w1)
    end.

Definition handleSendToGenerator
  (imageUrl : option string) (type : ExtractionType) : ThrowingHandler :=
  fun s w =>
    if negb (Js.truthy_opt imageUrl) then inr (s, w)
    else
      let url := Js.interp imageUrl in
      let filename :=
        "processed_" +++ Js.toLowerCase (extractionName type) +++ "_"
        +++ Js.of_Z (now w) +++ ".png" in
      match dataURLtoFile url filename with
      | inl e => inl e
      | inr imageFile =>
          let s1 := setActiveTab TabGenerator s in
          let sent := {| file := Some imageFile; previewUrl := Some url |} in
          match type with
          | ExtractPattern =>
              inr (setMaterials []
                     (setGenerationMode PatternOnly (setPattern sent s1)), w)
          | ExtractMaterial =>
              inr (setPattern noImage
                     (setGenerationMode MaterialOnly (setMaterials [sent] s1)), w)
          end
      end.

(** The call of [handleImageSelect] is not awaited: its history insertion
    lands after the two setters, which do not touch the history caches. *)
Definition handleSendPatternToGenerator (imageUrl : option string) : ThrowingHandler :=
  fun s w =>
    if negb (Js.truthy_opt imageUrl) then inr (s, w)
    else
      let url := Js.interp imageUrl in
      let filename := "pattern_studio_" +++ Js.of_Z (now w) +++ ".png" in
      match dataURLtoFile url filename with
      | inl e => inl e
      | inr imageFile =>
          let (s1, w1) :=
            handleImageSelect imageFile SlotPattern (Some HistPattern) s w in
          inr (setGenerationMode PatternOnly (setActiveTab TabGenerator s1), w1)
      end.

Definition mode_eqb (a b : GenerationMode) : bool :=
  match a, b with
  | PatternAndMaterial, PatternAndMaterial => true
  | PatternOnly, PatternOnly => true
  | MaterialOnly, MaterialOnly => true
  | _, _ => false
  end.

(** The effects that depend on [activeTab] and on [generationMode], run in
    the order they are declared after a rendering in which the value they
    depend on has changed. *)
Definition runEffects (before after : AppState) : AppState :=
  let s :=
    if tab_eqb (activeTab after) (activeTab before) then after
    else activeTabEffect after in
  if mode_eqb (generationMode (generatorSt after))
       (generationMode (generatorSt before))
  then s
  else generationModeEffect s.

Definition openHistoryModal (type : HistoryType) (s : AppState) : AppState :=
  setIsHistoryModalOpen true (setActiveHistoryType (Some type) s).

Definition historyTypeName (t : HistoryType) : string :=
  match t with
  | HistRenderShot => "renderShot"
  | HistPattern => "pattern"
  | HistMaterial => "material"
  end.

Definition handleHistorySelect (dataUrl : string) : ThrowingHandler :=
  fun s w =>
    match activeHistoryType (historySt s) with
    | None => inr (s, w)
    | Some t =>
        let filename :=
          historyTypeName t +++ "_from_history_" +++ Js.of_Z (now w) +++ ".png" in
        match dataURLtoFile dataUrl filename with
        | inl e => inl e
        | inr file =>
            let imageState := {| file := Some file; previewUrl := Some dataUrl |} in
            let toPatternStudio :=
              setPatternMaterials
                (patternMaterials (patternSt s) ++ [imageState]) s in
            let (s1, w1) :=
              match t with
              | HistRenderShot => (setRenderShot imageState s, w)
              | HistPattern =>
                  if tab_eqb (activeTab s) TabPattern then (toPatternStudio, w)
                  else (setPattern imageState s, w)
              | HistMaterial =>
                  if tab_eqb (activeTab s) TabPattern then (toPatternStudio, w)
                  else handleGeneratorMaterialSelect file s w
              end in
            inr (setError None (setOutputImages None
                   (setActiveHistoryType None (setIsHistoryModalOpen false s1))),
                 w1)
        end
    end.

Definition getActiveHistory (s : AppState) : string * list string :=
  match activeHistoryType (historySt s) with
  | Some HistRenderShot => ("Render Shot History", renderShotHistory (historySt s))
  | Some HistPattern => ("Pattern History", patternHistory (historySt s))
  | Some HistMaterial => ("Material History", materialHistory (historySt s))
  | None => (EmptyString, [])
  end.

(** [handleSubmit] of the [Chatbot] component: the message handed to
    [onSendMessage], if any, and the content of the input box afterwards. *)
Definition chatbotSubmit (input : string) : option string * string :=
  if Js.truthy (Js.trim input) then (Some (Js.trim input), EmptyString)
  else (None, input).

End App.

(** ** The Drive service: [services/googleDriveService.ts] *)

Module Drive.

Import GeminiService.

Record ErrorInfo := { message : option string }.

(** The JSON bodies the service reads: an [error] object or anything
    else, kept as text. *)
Record JsonBody := { error : option ErrorInfo; data : string }.

(** A [Response] of [fetch]; [json] is [None] when the body is not JSON, in
    which case [response.json()] rejects. *)
Record Response := {
  ok : bool;
  status : nat;
  statusText : string;
  json : option JsonBody
}.

Definition apiDisabledMessage : string :=
  "The Google Drive API is not enabled for your API key. Please enable it in your Google Cloud project console.".

Definition handleDriveApiResponse (response : Response) : M JsonBody :=
  if negb (ok response) then
    let errorBody :=
      match json response with
      | Some body => body
      | None =>
          {| error := Some {| message := Some "An unknown error occurred." |};
             data := EmptyString |}
      end in
    let errorMessage :=
      Js.or_else
        (match error errorBody with
         | Some info => message info
         | None => None
         end)
        ("Google Drive API request failed with status: "
         +++ Js.of_nat (status response)) in
    if Js.str_includes "API has not been used" errorMessage
       || Js.str_includes "is disabled" errorMessage
    then throw (ErrorObject apiDisabledMessage)
    else
      console_write ("Google Drive API Error: " +++ errorMessage) ;;;
      throw (ErrorObject errorMessage)
  else
    match json response with
    | Some body => ret body
    | None => throw (ErrorObject "Unexpected end of JSON input")
    end.

End Drive.

(** ** The catalogue browser: [components/DriveCatalogueModal.tsx] *)

Module Catalogue.

Record DriveFolder := { id : string; name : string }.

Record DriveFile := {
  fileId : string;
  fileName : string;
  thumbnailLink : string;
  mimeType : string
}.

Definition ROOT_FOLDER_ID : string := "1xMiHtJHZj5TB1q-68Bu0-AxwbW6AfElI".
Definition ROOT_FOLDER_NAME : string := "Bovali Catalogue".

Definition rootFolder : DriveFolder :=
  {| id := ROOT_FOLDER_ID; name := ROOT_FOLDER_NAME |}.

Record ModalState := {
  folders : list DriveFolder;
  files : list DriveFile;
  folderStack : list DriveFolder;
  isLoading : bool;
  error : option string;
  selectedFileId : option string
}.

Definition closed : ModalState :=
  {| folders := []; files := []; folderStack := []; isLoading := false;
     error := None; selectedFileId := None |}.

Definition setFolderStack (v : list DriveFolder) (m : ModalState) : ModalState :=
  {| folders := folders m; files := files m; folderStack := v;
     isLoading := isLoading m; error := error m;
     selectedFileId := selectedFileId m |}.

(** The effect on [isOpen]. *)
Definition openEffect (isOpen : bool) (m : ModalState) : ModalState :=
  if isOpen then
    if negb (Js.truthy ROOT_FOLDER_ID) then
      {| folders := folders m; files := files m; folderStack := folderStack m;
         isLoading := false;
         error := Some "Google Drive Folder ID is not configured.";
         selectedFileId := selectedFileId m |}
    else setFolderStack [rootFolder] m
  else
    {| folders := []; files := []; folderStack := []; isLoading := false;
       error := None; selectedFileId := selectedFileId m |}.

Definition handleFolderClick (folder : DriveFolder) (m : ModalState) : ModalState :=
  setFolderStack (folderStack m ++ [folder]) m.

(** [prevStack.slice(0, index + 1)]. *)
Definition handleBreadcrumbClick (index : nat) (m : ModalState) : ModalState :=
  setFolderStack (firstn (index + 1) (folderStack m)) m.

(** The folder whose content the fetch effect loads:
    [folderStack[folderStack.length - 1]]. *)
Definition currentFolder (m : ModalState) : option DriveFolder :=
  nth_error (folderStack m) (List.length (folderStack m) - 1).

Inductive Click :=
| OnFolder (folder : DriveFolder)
| OnBreadcrumb (index : nat).

Definition click (c : Click) : ModalState -> ModalState :=
  match c with
  | OnFolder folder => handleFolderClick folder
  | OnBreadcrumb index => handleBreadcrumbClick index
  end.

(** A sequence of clicks in the open modal. *)
Definition navigate (clicks : list Click) (m : ModalState) : ModalState :=
  fold_left (fun st c => click c st) clicks m.

End Catalogue.

(** ** The service worker *)

Module ServiceWorker.

Definition CACHE_NAME : string := "bovali-studio-cache-v1".

(** A cache maps request URLs to responses; the cache storage keeps its
    caches by name, in creation order. *)
Definition Cache : Type := list (string * string).
Definition CacheStorage : Type := list (string * Cache).

(** [caches.keys()]. *)
Definition keys (storage : CacheStorage) : list string := map fst storage.

(** [caches.delete(cacheName)]. *)
Definition delete (cacheName : string) (storage : CacheStorage) : CacheStorage :=
  filter (fun entry => negb (String.eqb (fst entry) cacheName)) storage.

(** [arr.indexOf(x) === -1]. *)
Definition absent (arr : list string) (x : string) : bool :=
  negb (existsb (String.eqb x) arr).

(** The [activate] handler. *)
Definition activate (storage : CacheStorage) : CacheStorage :=
  let cacheWhitelist := [CACHE_NAME] in
  fold_left
    (fun st cacheName =>
       if absent cacheWhitelist cacheName then delete cacheName st else st)
    (keys storage) storage.

Fixpoint lookup (url : string) (cache : Cache) : option string :=
  match cache with
  | [] => None
  | (u, response) :: rest =>
      if String.eqb u url then Some response else lookup url rest
  end.

(** [caches.match(request)]: the first match over the caches, in creation
    order. *)
Fixpoint cachesMatch (url : string) (storage : CacheStorage) : option string :=
  match storage with
  | [] => None
  | (_, cache) :: rest =>
      match lookup url cache with
      | Some response => Some response
      | None => cachesMatch url rest
      end
  end.

(** The [fetch] handler: the response, the requests that went to the
    network, and the cache storage afterwards. *)
Definition onFetch
  (network : string -> string) (url : string) (storage : CacheStorage)
  : string * list string * CacheStorage :=
  match cachesMatch url storage with
  | Some response => (response, [], storage)
  | None => (network url, [url], storage)
  end.

End ServiceWorker.

(** ** Outcomes of single calls, as the backend's reply decides them *)

Module Outcome.

Import GeminiService.

(** What one [generateSurfaceDesign] call settles to, given the reply the
    backend gives to its request. *)
Definition ofMember (reply : Reply) : Result (option string) :=
  match reply with
  | Rejects e => inl e
  | Resolves r => inr (surfaceResponse r)
  end.

(** The images of the members that produced one, in member order. *)
Definition images (results : list (option string)) : list string :=
  flat_map (fun r : option string =>
              match r with Some url => [url] | None => [] end) results.

(** A world in which the backend gives the listed replies, in order, and
    rejects every later request. *)
Definition scripted (replies : list Reply) : World :=
  {| backend := fun k => nth k replies (Rejects (NonError "no more replies"));
     requests := []; console := []; clock := fun k => Z.of_nat (1000 + k);
     objectUrls := []; minted := 0 |}.

(** A response whose first candidate carries the given parts. *)
Definition responseOf (ps : list Part) : GenerateContentResponse :=
  {| candidates := Some [ {| content := Some {| parts := Some ps |} |} ];
     responseText := EmptyString |}.

End Outcome.

(** ** MIME types that pass through a data URL *)

Module Mime.

Fixpoint every (f : ascii -> bool) (s : string) : bool :=
  match s with
  | EmptyString => true
  | String c r => f c && every f r
  end.

(** Neither a comma, nor a semicolon, nor a line break. *)
Definition plainChar (c : ascii) : bool :=
  negb (Ascii.eqb c ","%char) && negb (Ascii.eqb c ";"%char)
  && negb (Js.is_line_terminator c).

Definition plain (mime : string) : bool := every plainChar mime.

End Mime.

(** ** Shapes of requests and of the world, for the statements below *)

Module Shape.

Import GeminiService.

(** The request part that carries a file: its base64 payload and its MIME
    type. *)
Definition inlineOf (f : File) : Part :=
  inlinePart (Some (Base64.encode (bytes f))) (Some (type f)).

(** The request of one generation call. *)
Definition surfaceRequest (prompt : string) (images : list File) : Request :=
  GenerateContent image_model (map inlineOf images ++ [textPart prompt]).

(** Every live object URL was handed out by [createObjectURL] earlier. *)
Definition urlsMinted (w : World) : Prop :=
  Forall (fun url => exists k, k < minted w /\ url = "blob:" +++ Js.of_nat k)
    (objectUrls w).

(** The parts of the first candidate of a response, when it has them. *)
Definition firstParts (r : GenerateContentResponse) : option (list Part) :=
  match candidates r with
  | Some (c :: _) =>
      match content c with
      | Some ct => parts ct
      | None => None
      end
  | _ => None
  end.

(** [d] is the inline data of the first part of [ps] that carries any. *)
Definition firstImage (ps : list Part) (d : InlineData) : Prop :=
  exists pre p post,
    ps = pre ++ p :: post
    /\ Forall (fun q => inlineData q = None) pre
    /\ inlineData p = Some d.

(** [d] is the inline data of the last part of [ps] that carries any. *)
Definition lastImage (ps : list Part) (d : InlineData) : Prop :=
  exists pre p post,
    ps = pre ++ p :: post
    /\ inlineData p = Some d
    /\ Forall (fun q => inlineData q = None) post.

(** A text that holds [part] somewhere. *)
Definition contains (text part : string) : Prop :=
  exists before after, text = before +++ part +++ after.

End Shape.

(** * Properties *)

Import GeminiService App.

(** ** The primitives on small inputs *)

Example encode_Man : Base64.encode [x4d; x61; x6e] = "TWFu".
Proof. reflexivity. Qed.

Example encode_Ma : Base64.encode [x4d; x61] = "TWE=".
Proof. reflexivity. Qed.

Example encode_M : Base64.encode [x4d] = "TQ==".
Proof. reflexivity. Qed.

Example atob_TWE : Base64.atob "TWE=" = Some "Ma".
Proof. reflexivity. Qed.

Example atob_undefined : Base64.atob "undefined" = None.
Proof. reflexivity. Qed.

Example split_data_url :
  Js.split ","%char "data:image/png;base64,AAAA"
  = ["data:image/png;base64"; "AAAA"].
Proof. reflexivity. Qed.

Example match_mime_png :
  Js.match_colon_semicolon "data:image/png;base64" = Some "image/png".
Proof. reflexivity. Qed.

Example set_of_first_occurrences :
  Js.set_of ["b"; "a"; "b"; "c"; "a"] = ["b"; "a"; "c"].
Proof. reflexivity. Qed.

(** ** Arrays and sets of strings *)

Section SetOfStrings.

Lemma includes_In (l : list string) (x : string) :
  Js.includes l x = true <-> In x l.
Proof.
  unfold Js.includes. rewrite existsb_exists. split.
  - intros [y [Hy He]]. apply String.eqb_eq in He. now subst.
  - intros Hx. exists x. split; [assumption | apply String.eqb_refl].
Qed.

Lemma includes_not_In (l : list string) (x : string) :
  Js.includes l x = false <-> ~ In x l.
Proof.
  rewrite <- includes_In. destruct (Js.includes l x); split; intros H;
    try reflexivity; try discriminate; try (intros H1; discriminate).
  exfalso. now apply H.
Qed.

Lemma includes_app (a b : list string) (x : string) :
  Js.includes (a ++ b) x = Js.includes a x || Js.includes b x.
Proof. unfold Js.includes. apply existsb_app. Qed.

(** Folding [set_add] over values that are new and distinct appends them
    all, the others are skipped. *)
Lemma fold_set_add (l acc : list string) :
  NoDup l ->
  fold_left Js.set_add l acc
  = acc ++ filter (fun y => negb (Js.includes acc y)) l.
Proof.
  revert acc. induction l as [|y r IH]; intros acc Hnd; simpl.
  - now rewrite app_nil_r.
  - inversion Hnd as [|y' r' Hy Hr]; subst.
    unfold Js.set_add at 2. destruct (Js.includes acc y) eqn:E; simpl.
    + now apply IH.
    + rewrite IH by assumption. rewrite <- app_assoc. simpl. do 2 f_equal.
      apply filter_ext_in. intros z Hz. rewrite includes_app. simpl.
      destruct (String.eqb z y) eqn:Ez.
      * apply String.eqb_eq in Ez. subst. contradiction.
      * now rewrite orb_false_r.
Qed.

Lemma fold_set_add_NoDup (l acc : list string) :
  NoDup acc -> NoDup (fold_left Js.set_add l acc).
Proof.
  revert acc. induction l as [|y r IH]; intros acc Hacc; simpl.
  - assumption.
  - apply IH. unfold Js.set_add. destruct (Js.includes acc y) eqn:E.
    + assumption.
    + apply includes_not_In in E.
      apply NoDup_app; [assumption | repeat constructor; intros [] | ].
      intros z Hz [Hzy|[]]. subst. contradiction.
Qed.

Lemma set_of_NoDup (l : list string) : NoDup (Js.set_of l).
Proof. apply fold_set_add_NoDup. constructor. Qed.

Lemma filter_other_absent (x : string) (h : list string) :
  ~ In x h -> filter (fun y => negb (String.eqb y x)) h = h.
Proof.
  intros Hx. induction h as [|y r IH]; [reflexivity|]. simpl.
  destruct (String.eqb y x) eqn:E.
  - apply String.eqb_eq in E. subst. exfalso. apply Hx. now left.
  - simpl. f_equal. apply IH. intros H. apply Hx. now right.
Qed.

Lemma filter_other_length (x : string) (h : list string) :
  NoDup h -> In x h ->
  S (List.length (filter (fun y => negb (String.eqb y x)) h)) = List.length h.
Proof.
  induction h as [|y r IH]; intros Hnd Hin; [destruct Hin|].
  inversion Hnd as [|y' r' Hy Hr]; subst. simpl.
  destruct (String.eqb y x) eqn:E; simpl.
  - apply String.eqb_eq in E. subst. f_equal.
    now rewrite filter_other_absent.
  - f_equal. apply IH; [assumption|]. destruct Hin as [->|Hin]; [|assumption].
    rewrite String.eqb_refl in E. discriminate.
Qed.

End SetOfStrings.

(** ** History caches *)

Lemma historyInsert_NoDup (x : string) (h : list string) :
  NoDup (historyInsert x h).
Proof. apply set_of_NoDup. Qed.

Lemma HistoryCache_NoDup (h : list string) : HistoryCache h -> NoDup h.
Proof. intros [|x prev _]; [constructor | apply historyInsert_NoDup]. Qed.

(** On a cache without duplicates the inserted value comes first and the
    other entries keep their order. *)
Lemma historyInsert_front (x : string) (h : list string) :
  NoDup h ->
  historyInsert x h = x :: filter (fun y => negb (String.eqb y x)) h.
Proof.
  intros Hnd. unfold historyInsert, Js.set_of. simpl.
  change (Js.set_add [] x) with [x].
  rewrite fold_set_add by assumption. simpl. f_equal.
  apply filter_ext. intros y. unfold Js.includes. simpl.
  now rewrite orb_false_r.
Qed.

(** C6: on every history cache, inserting an encoded asset that the cache
    already holds moves it to the front and keeps the length (no
    duplicate), inserting a new one prepends it; so inserting the same asset
    twice changes nothing more than inserting it once, and the asset is at
    the front. *)
Theorem history_insert_dedup (h : list string) (x : string) :
  HistoryCache h ->
  (In x h ->
     historyInsert x h = x :: filter (fun y => negb (String.eqb y x)) h
     /\ List.length (historyInsert x h) = List.length h)
  /\ (~ In x h -> historyInsert x h = x :: h)
  /\ NoDup (historyInsert x h)
  /\ historyInsert x (historyInsert x h) = historyInsert x h
  /\ List.length (historyInsert x (historyInsert x h))
     = List.length (historyInsert x h)
  /\ hd_error (historyInsert x (historyInsert x h)) = Some x.
Proof.
  intros Hc. pose proof (HistoryCache_NoDup h Hc) as Hnd.
  assert (Htwice : historyInsert x (historyInsert x h) = historyInsert x h).
  { rewrite (historyInsert_front x (historyInsert x h))
      by apply historyInsert_NoDup.
    pose proof (historyInsert_NoDup x h) as Hn.
    rewrite (historyInsert_front x h Hnd) in *. simpl.
    rewrite String.eqb_refl. simpl. f_equal.
    apply filter_other_absent. now inversion Hn. }
  repeat split.
  - now apply historyInsert_front.
  - rewrite historyInsert_front by assumption. simpl.
    now apply filter_other_length.
  - intros Hx. rewrite historyInsert_front by assumption.
    now rewrite filter_other_absent.
  - apply historyInsert_NoDup.
  - exact Htwice.
  - now rewrite Htwice.
  - rewrite Htwice. now rewrite historyInsert_front.
Qed.

Lemma history_insert_dedup_witness :
  historyInsert "data:a" ["data:b"; "data:a"] = ["data:a"; "data:b"]
  /\ historyInsert "data:a" (historyInsert "data:a" ["data:b"; "data:a"])
     = ["data:a"; "data:b"].
Proof.
  assert (Hc : HistoryCache ["data:b"; "data:a"])
    by exact (cache_insert "data:b" _ (cache_insert "data:a" _ cache_empty)).
  destruct (history_insert_dedup ["data:b"; "data:a"] "data:a" Hc)
    as [Hin [_ [_ [Htwice _]]]].
  split.
  - apply Hin. simpl. right. left. reflexivity.
  - rewrite Htwice. apply Hin. simpl. right. left. reflexivity.
Defined.

Lemma historyStep_reachable (s s' : AppState) :
  historyStep s s' -> historiesReachable s -> historiesReachable s'.
Proof.
  intros Hstep Hs t. destruct (Hstep t) as [->|[x ->]].
  - apply Hs.
  - apply cache_insert, Hs.
Qed.

Lemma initialState_reachable : historiesReachable initialState.
Proof. intros []; apply cache_empty. Qed.

Lemma handleImageSelect_history
  (f : File) (slot : ImageSlot) (t : HistoryType) (s : AppState) (w : World) :
  getHistory t (fst (handleImageSelect f slot (Some t) s w))
  = historyInsert (readAsDataURL f) (getHistory t s).
Proof. destruct s, slot, t; reflexivity. Qed.

Lemma handleImageSelect_step
  (f : File) (slot : ImageSlot) (o : option HistoryType) (s : AppState) (w : World) :
  historyStep s (fst (handleImageSelect f slot o s w)).
Proof.
  intros t. destruct s, slot, o as [[]|], t;
    (left; reflexivity) || (right; eexists; reflexivity).
Qed.

Lemma handleGeneratorMaterialSelect_step (f : File) (s : AppState) (w : World) :
  historyStep s (fst (handleGeneratorMaterialSelect f s w)).
Proof.
  intros t. destruct s, t;
    (left; reflexivity) || (right; eexists; reflexivity).
Qed.

Lemma handlePatternMaterialSelect_step (f : File) (s : AppState) (w : World) :
  historyStep s (fst (handlePatternMaterialSelect f s w)).
Proof.
  intros t. destruct s, t;
    (left; reflexivity) || (right; eexists; reflexivity).
Qed.

Lemma handleProcessImage_step (s : AppState) (w : World) :
  historyStep s (fst (handleProcessImage s w)).
Proof.
  intros t. unfold handleProcessImage.
  destruct (Js.truthy_opt (apiKeyError s)); [now left|].
  destruct (file (sourceImage (extractorSt s))) as [source|].
  - destruct (extractAndProcessImage source (extractionType (extractorSt s))
                (dimensionsOf (sourceWidth (extractorSt s))
                   (sourceHeight (extractorSt s)) (sourceUnit (extractorSt s))) w)
      as [[[m|d]|u] w1].
    + destruct s, t; left; reflexivity.
    + destruct s, t; left; reflexivity.
    + destruct (Js.truthy_opt u).
      * destruct (extractionType (extractorSt s)); destruct s, t; cbn;
          (left; reflexivity) || (right; eexists; reflexivity).
      * destruct s, t; left; reflexivity.
  - destruct s, t; left; reflexivity.
Qed.

Lemma handlePatternSubmit_step (s : AppState) (w : World) :
  historyStep s (fst (handlePatternSubmit s w)).
Proof.
  intros t. unfold handlePatternSubmit.
  destruct (Js.truthy_opt (apiKeyError s)); [now left|].
  destruct (file (patternOutline (patternSt s))) as [outline|];
    [destruct (patternMaterials (patternSt s)) as [|m ms] eqn:Em|].
  - destruct s, t; left; reflexivity.
  - rewrite <- Em.
    destruct (createFromOutline outline (filesOf (patternMaterials (patternSt s)))
                (file (patternReference (patternSt s)))
                (patternPrompt (patternSt s)) w) as [[[e|d]|u] w1].
    + destruct s, t; left; reflexivity.
    + destruct s, t; left; reflexivity.
    + destruct (Js.truthy_opt u); destruct s, t; cbn;
        (left; reflexivity) || (right; eexists; reflexivity).
  - destruct s, t; left; reflexivity.
Qed.

(** Every modelled handler that writes a history cache keeps the three
    caches among those a session can hold. *)
Corollary handlers_keep_histories (s : AppState) (w : World) :
  historiesReachable s ->
  (forall f slot o, historiesReachable (fst (handleImageSelect f slot o s w)))
  /\ (forall f, historiesReachable (fst (handleGeneratorMaterialSelect f s w)))
  /\ (forall f, historiesReachable (fst (handlePatternMaterialSelect f s w)))
  /\ historiesReachable (fst (handleProcessImage s w))
  /\ historiesReachable (fst (handlePatternSubmit s w)).
Proof.
  intros Hs. repeat split; intros;
    eapply historyStep_reachable; try exact Hs.
  - apply handleImageSelect_step.
  - apply handleGeneratorMaterialSelect_step.
  - apply handlePatternMaterialSelect_step.
  - apply handleProcessImage_step.
  - apply handlePatternSubmit_step.
Qed.

(** ** The export gallery *)

(** C7, as stated, fails: an image the gallery already holds is left where
    it is, not moved to the front. *)
Lemma export_front_counterexample :
  let s := handleExportImage "data:b" (handleExportImage "data:a" initialState) in
  exportedImages (exportSt s) = ["data:b"; "data:a"]
  /\ In "data:a" (exportedImages (exportSt s))
  /\ hd_error (exportedImages (exportSt (handleExportImage "data:a" s)))
     <> Some "data:a".
Proof.
  simpl. split; [reflexivity|]. split; [right; left; reflexivity|].
  discriminate.
Qed.

(** C7, amended: exporting an image the gallery already holds leaves the
    gallery as it is (same entries, same order); exporting a new image
    prepends it; exporting the same image twice is the same as exporting it
    once, and from an empty gallery gives a gallery of length 1. *)
Theorem export_insert_stable (s : AppState) (x : string) :
  let prev := exportedImages (exportSt s) in
  let next := exportedImages (exportSt (handleExportImage x s)) in
  (In x prev -> next = prev)
  /\ (~ In x prev -> next = x :: prev)
  /\ exportedImages (exportSt (handleExportImage x (handleExportImage x s))) = next
  /\ (prev = [] ->
      exportedImages (exportSt (handleExportImage x (handleExportImage x s))) = [x]).
Proof.
  simpl. unfold exportInsert.
  destruct (Js.includes (exportedImages (exportSt s)) x) eqn:E.
  - rewrite E. pose proof (proj1 (includes_In _ _) E) as Hin.
    repeat split; try reflexivity.
    + intros Hn. contradiction.
    + intros He. rewrite He in Hin. destruct Hin.
  - pose proof (proj1 (includes_not_In _ _) E) as Hn.
    assert (E2 : Js.includes (x :: exportedImages (exportSt s)) x = true)
      by (apply includes_In; now left).
    rewrite E2. repeat split; try reflexivity.
    + intros Hin. contradiction.
    + intros He. now rewrite He.
Qed.

Lemma export_insert_stable_witness :
  exportedImages (exportSt (handleExportImage "data:a"
     (handleExportImage "data:a" initialState))) = ["data:a"].
Proof.
  apply (export_insert_stable initialState "data:a"). reflexivity.
Defined.

(** ** Switching the active workflow *)

(** C8: switching from one workflow to another clears every upload slot,
    output slot and error flag of the two workflows that are then inactive,
    leaves the state of the workflow switched to as it was, and leaves the
    three history caches and the export cache unchanged. *)
Theorem switch_tab_clears_inactive (s : AppState) (tab : ActiveTab) :
  activeTab s <> tab ->
  let s' := switchTab tab s in
  activeTab s' = tab
  /\ (tab <> TabGenerator ->
      renderShot (generatorSt s') = noImage
      /\ pattern (generatorSt s') = noImage
      /\ materials (generatorSt s') = []
      /\ outputImages (generatorSt s') = None
      /\ error (generatorSt s') = None)
  /\ (tab <> TabExtractor ->
      sourceImage (extractorSt s') = noImage
      /\ processedImage (extractorSt s') = None
      /\ processingError (extractorSt s') = None)
  /\ (tab <> TabPattern ->
      patternOutline (patternSt s') = noImage
      /\ patternMaterials (patternSt s') = []
      /\ patternReference (patternSt s') = noImage
      /\ patternOutput (patternSt s') = None
      /\ patternError (patternSt s') = None)
  /\ (tab = TabGenerator -> generatorSt s' = generatorSt s)
  /\ (tab = TabExtractor -> extractorSt s' = extractorSt s)
  /\ (tab = TabPattern -> patternSt s' = patternSt s)
  /\ historySt s' = historySt s
  /\ exportSt s' = exportSt s.
Proof.
  intros Hne. unfold switchTab.
  destruct s as [active key g e p c h x]. simpl in Hne.
  destruct tab, active; try (exfalso; apply Hne; reflexivity); simpl;
    repeat split; intros; try reflexivity; try discriminate;
    try (exfalso; congruence).
Qed.

Lemma switch_tab_clears_inactive_witness :
  let s := setProcessedImage (Some "data:image/png;base64,AAAA")
             (setActiveTab TabExtractor initialState) in
  processedImage (extractorSt (switchTab TabPattern s)) = None
  /\ patternSt (switchTab TabPattern s) = patternSt s.
Proof.
  intro s.
  assert (Hne : activeTab s <> TabPattern) by (intros H; discriminate H).
  destruct (switch_tab_clears_inactive s TabPattern Hne)
    as [_ [_ [Hext [_ [_ [_ [Hpat _]]]]]]].
  split.
  - apply Hext. intros H; discriminate H.
  - apply Hpat. reflexivity.
Defined.

(** ** Validation before any request *)

Lemma guarded_handlers (s : AppState) (w : World) :
  Js.truthy_opt (apiKeyError s) = true ->
  handleProcessImage s w = (s, w)
  /\ handleGeneratorSubmit s w = (s, w)
  /\ handlePatternSubmit s w = (s, w).
Proof.
  intros H. unfold handleProcessImage, handleGeneratorSubmit, handlePatternSubmit.
  rewrite H. repeat split.
Qed.

(** C9, as stated, fails twice: with a configuration error the submit
    handler returns at once and produces no message at all; and without
    one, the message of the Extractor ends with a full stop, so it is not
    exactly the text that the specification quotes. *)
Lemma validation_message_counterexample :
  let w := {| backend := fun _ => Rejects (ErrorObject "offline");
              requests := []; console := []; clock := fun _ => 0%Z;
              objectUrls := []; minted := 0 |} in
  let broken :=
    {| activeTab := TabExtractor;
       apiKeyError := Some "Configuration Error: The Google API Key is missing.";
       generatorSt := generatorSt initialState;
       extractorSt := extractorSt initialState;
       patternSt := patternSt initialState;
       chatSt := chatSt initialState;
       historySt := historySt initialState;
       exportSt := exportSt initialState |} in
  file (sourceImage (extractorSt broken)) = None
  /\ processingError (extractorSt (fst (handleProcessImage broken w))) = None
  /\ file (sourceImage (extractorSt initialState)) = None
  /\ processingError (extractorSt (fst (handleProcessImage initialState w)))
     <> Some "Please upload an image to process".
Proof.
  simpl. repeat split; try reflexivity. discriminate.
Qed.

(** C9, amended: when no configuration error is shown, submitting a
    workflow while a required upload slot is empty sends no request and
    sets the validation message of that workflow; for the Extractor with no
    source image the message is "Please upload an image to process." (with
    its full stop).  When a configuration error is shown, the submit
    handlers do nothing: no request and no message. *)
Theorem submit_with_empty_slot (s : AppState) (w : World) :
  (Js.truthy_opt (apiKeyError s) = false ->
   (file (sourceImage (extractorSt s)) = None ->
    snd (handleProcessImage s w) = w
    /\ processingError (extractorSt (fst (handleProcessImage s w)))
       = Some "Please upload an image to process.")
   /\ (match generationMode (generatorSt s) with
       | PatternAndMaterial =>
           file (renderShot (generatorSt s)) = None
           \/ file (pattern (generatorSt s)) = None
           \/ filesOf (materials (generatorSt s)) = []
       | PatternOnly =>
           file (renderShot (generatorSt s)) = None
           \/ file (pattern (generatorSt s)) = None
       | MaterialOnly =>
           file (renderShot (generatorSt s)) = None
           \/ filesOf (materials (generatorSt s)) = []
       end ->
       snd (handleGeneratorSubmit s w) = w
       /\ error (generatorSt (fst (handleGeneratorSubmit s w)))
          = Some
              match generationMode (generatorSt s) with
              | PatternAndMaterial =>
                  "Please upload a Render Shot, a Pattern, and at least one Material image."
              | PatternOnly =>
                  "Please upload a Render Shot and a Pattern Image for this mode."
              | MaterialOnly =>
                  "Please upload a Render Shot and at least one Material Image for this mode."
              end)
   /\ (file (patternOutline (patternSt s)) = None
       \/ patternMaterials (patternSt s) = [] ->
       snd (handlePatternSubmit s w) = w
       /\ patternError (patternSt (fst (handlePatternSubmit s w)))
          = Some "Please provide a Pattern Outline and at least one Material Image."))
  /\ (Js.truthy_opt (apiKeyError s) = true ->
      handleProcessImage s w = (s, w)
      /\ handleGeneratorSubmit s w = (s, w)
      /\ handlePatternSubmit s w = (s, w)).
Proof.
  split; [intros Hkey | apply guarded_handlers].
  split; [|split].
  - intros Hsrc. unfold handleProcessImage. rewrite Hkey, Hsrc. split; reflexivity.
  - intros Hmiss. unfold handleGeneratorSubmit. rewrite Hkey.
    unfold generatorRequest.
    destruct (generationMode (generatorSt s)).
    + destruct (file (renderShot (generatorSt s))) as [r|];
      [destruct (file (pattern (generatorSt s))) as [p|];
       [destruct (filesOf (materials (generatorSt s))) as [|m ms] eqn:Em|]|];
      try (split; reflexivity).
      exfalso. destruct Hmiss as [H|[H|H]]; discriminate.
    + destruct (file (renderShot (generatorSt s))) as [r|];
      [destruct (file (pattern (generatorSt s))) as [p|]|];
      try (split; reflexivity).
      exfalso. destruct Hmiss as [H|H]; discriminate.
    + destruct (file (renderShot (generatorSt s))) as [r|];
      [destruct (filesOf (materials (generatorSt s))) as [|m ms] eqn:Em|];
      try (split; reflexivity).
      exfalso. destruct Hmiss as [H|H]; discriminate.
  - intros Hmiss. unfold handlePatternSubmit. rewrite Hkey.
    destruct (file (patternOutline (patternSt s))) as [o|];
      [destruct (patternMaterials (patternSt s)) as [|m ms] eqn:Em|];
      try (split; reflexivity).
    exfalso. destruct Hmiss as [H|H]; discriminate.
Qed.

Lemma submit_with_empty_slot_witness :
  let w := {| backend := fun _ => Rejects (ErrorObject "offline");
              requests := []; console := []; clock := fun _ => 0%Z;
              objectUrls := []; minted := 0 |} in
  requests (snd (handleProcessImage initialState w)) = []
  /\ processingError (extractorSt (fst (handleProcessImage initialState w)))
     = Some "Please upload an image to process.".
Proof.
  intro w.
  destruct (submit_with_empty_slot initialState w) as [H _].
  destruct (H eq_refl) as [Hx _].
  destruct (Hx eq_refl) as [Hw Hm].
  split; [rewrite Hw; reflexivity | exact Hm].
Defined.

(** ** Parsing the parts of a response *)

Lemma dataUri_truthy (d : InlineData) : Js.truthy (dataUri d) = true.
Proof. reflexivity. Qed.

Lemma firstInline_truthy (ps : list Part) (u : string) :
  firstInline ps = Some u -> Js.truthy u = true.
Proof.
  induction ps as [|p r IH]; simpl; [discriminate|].
  destruct (inlineData p) as [d|]; [|exact IH].
  intros H. injection H as <-. apply dataUri_truthy.
Qed.

Lemma surfaceResponse_truthy (r : GenerateContentResponse) (u : string) :
  surfaceResponse r = Some u -> Js.truthy u = true.
Proof.
  unfold surfaceResponse.
  destruct (candidates r) as [[|c cs]|]; try discriminate.
  destruct (content c) as [ct|]; try discriminate.
  destruct (parts ct) as [ps|]; try discriminate.
  apply firstInline_truthy.
Qed.

(** The generation loop returns the first inline part, whatever follows. *)
Lemma firstInline_first (pre post : list Part) (p : Part) (d : InlineData) :
  Forall (fun q => inlineData q = None) pre ->
  inlineData p = Some d ->
  firstInline (pre ++ p :: post) = Some (dataUri d).
Proof.
  intros Hpre Hp. induction Hpre as [|q pre Hq _ IH]; simpl.
  - now rewrite Hp.
  - now rewrite Hq.
Qed.

Lemma editParts_app (ps qs : list Part) :
  editParts (ps ++ qs) = fold_left editStep qs (editParts ps).
Proof. unfold editParts. apply fold_left_app. Qed.

Lemma edit_fold_no_inline (ps : list Part) (acc : option string * option string) :
  Forall (fun q => inlineData q = None) ps ->
  fst (fold_left editStep ps acc) = fst acc.
Proof.
  intros H. revert acc. induction H as [|q ps Hq _ IH]; intros acc; simpl.
  - reflexivity.
  - rewrite IH. unfold editStep. rewrite Hq.
    now destruct (Js.truthy_opt (GeminiService.text q)).
Qed.

Lemma edit_fold_no_text (ps : list Part) (acc : option string * option string) :
  Forall (fun q => inlineData q = None /\ Js.truthy_opt (GeminiService.text q) = false) ps ->
  fold_left editStep ps acc = acc.
Proof.
  intros H. revert acc. induction H as [|q ps [Hq Ht] _ IH]; intros acc; simpl.
  - reflexivity.
  - rewrite IH. unfold editStep. now rewrite Hq, Ht.
Qed.

(** The edit loop keeps the last inline part: later ones overwrite it. *)
Lemma editParts_last (pre post : list Part) (p : Part) (d : InlineData) :
  inlineData p = Some d ->
  Forall (fun q => inlineData q = None) post ->
  fst (editParts (pre ++ p :: post)) = Some (dataUri d).
Proof.
  intros Hp Hpost. rewrite editParts_app. simpl.
  rewrite edit_fold_no_inline by assumption.
  unfold editStep. now rewrite Hp.
Qed.

(** C3 on the code: a response with two image parts, given to the edit
    call, yields the second image, while the generation call yields the
    first. *)
Theorem edit_keeps_last_image_part :
  let response :=
    Outcome.responseOf
      [ inlinePart (Some "AAAA") (Some "image/png");
        inlinePart (Some "BBBB") (Some "image/png") ] in
  let w := Outcome.scripted [Resolves response] in
  fst (editImageWithPrompt (Some "QUJD") "image/png" "make it darker" w)
  = inr (Some "data:image/png;base64,BBBB", None)
  /\ fst (generateSurfaceDesign "a prompt" [] w)
     = inr (Some "data:image/png;base64,AAAA").
Proof. split; reflexivity. Qed.

(** ** The batch orchestrator *)

Section Batch.

Variables (prompt : string) (images : list File).

(** The request every member of a batch sends. *)
Let memberRequest : Request :=
  GenerateContent image_model
    (map (fun image =>
            inlinePart (nth_error (Js.split ","%char (readAsDataURL image)) 1)
              (Some (type image))) images
     ++ [textPart prompt]).

Lemma join_fulfilled {A} (l : list A) : join (map inr l) = inr l.
Proof.
  induction l as [|a l IH]; simpl; [reflexivity|]. now rewrite IH.
Qed.

Lemma join_rejected {A} (rs : list (Result A)) (i : nat) (e : Thrown) :
  nth_error rs i = Some (inl e) -> exists e', join rs = inl e'.
Proof.
  revert i. induction rs as [|r rs IH]; intros [|i] H; simpl in H;
    try discriminate.
  - injection H as ->. simpl. now exists e.
  - destruct r as [e0|a]; simpl; [now exists e0|].
    destruct (IH i H) as [e' ->]. now exists e'.
Qed.

Lemma settle_readers (files : list File) (w : World) :
  settle
    (map (fun image =>
            base64 <- fileToBase64 image ;;
            ret (inlinePart base64 (Some (type image)))) files) w
  = (map (fun image =>
            inr (inlinePart
                   (nth_error (Js.split ","%char (readAsDataURL image)) 1)
                   (Some (type image)))) files, w).
Proof.
  induction files as [|f files IH]; simpl; [reflexivity|].
  now rewrite IH.
Qed.

(** One member sends one request and settles as the reply decides. *)
Lemma generateSurfaceDesign_run (w : World) :
  let r := generateSurfaceDesign prompt images w in
  fst r = Outcome.ofMember (backend w (List.length (requests w)))
  /\ requests (snd r) = requests w ++ [memberRequest]
  /\ backend (snd r) = backend w.
Proof.
  unfold generateSurfaceDesign, try_catch, bind, promise_all.
  rewrite settle_readers.
  rewrite <- (map_map _ inr), join_fulfilled.
  unfold send.
  destruct (backend w (List.length (requests w))) as [e|resp]; simpl.
  - repeat split.
  - destruct (surfaceResponse resp) as [u|] eqn:E; simpl.
    + rewrite (surfaceResponse_truthy _ _ E). simpl. repeat split.
    + repeat split.
Qed.

Lemma settle_batch (n : nat) (w : World) :
  fst (settle (repeat (generateSurfaceDesign prompt images) n) w)
  = map (fun i => Outcome.ofMember (backend w (List.length (requests w) + i)))
      (seq 0 n).
Proof.
  revert w. induction n as [|n IH]; intros w; [reflexivity|].
  cbn [repeat settle].
  destruct (generateSurfaceDesign_run w) as [Hr [Hq Hb]].
  destruct (generateSurfaceDesign prompt images w) as [r w1]. simpl in Hr, Hq, Hb.
  specialize (IH w1).
  destruct (settle (repeat (generateSurfaceDesign prompt images) n) w1) as [rs w2].
  simpl in IH. cbn [fst seq map]. f_equal.
  - now rewrite Hr, Nat.add_0_r.
  - rewrite IH, <- seq_shift, map_map. apply map_ext. intros i.
    rewrite Hb, Hq, length_app. simpl.
    now replace (List.length (requests w) + 1 + i)
      with (List.length (requests w) + S i) by lia.
Qed.

Lemma runBatchGeneration_run (n : nat) (w : World) :
  fst (runBatchGeneration prompt images n w)
  = match join (fst (settle (repeat (generateSurfaceDesign prompt images) n) w)) with
    | inl e => inl e
    | inr results =>
        if (List.length (Outcome.images results) =? 0)%nat then
          inl (ErrorObject
            "The AI failed to generate any images. Please try a different combination of images or prompt.")
        else inr (Outcome.images results)
    end.
Proof.
  unfold runBatchGeneration, bind, promise_all.
  destruct (settle (repeat (generateSurfaceDesign prompt images) n) w) as [rs w1].
  simpl. destruct (join rs) as [e|results]; [reflexivity|].
  fold (Outcome.images results).
  now destruct (List.length (Outcome.images results) =? 0)%nat.
Qed.

Lemma replies_resolved (responses : list GenerateContentResponse) (f : nat -> Reply) :
  (forall i r, nth_error responses i = Some r -> f i = Resolves r) ->
  map f (seq 0 (List.length responses)) = map Resolves responses.
Proof.
  revert f. induction responses as [|r rs IH]; intros f H; [reflexivity|].
  cbn [List.length seq map]. f_equal.
  - apply (H 0). reflexivity.
  - rewrite <- seq_shift, map_map. apply IH.
    intros i r' Hi. apply (H (S i)). exact Hi.
Qed.

End Batch.

(** C1, as stated, fails: a member that throws makes the whole batch fail,
    also when another member produced an image. *)
Lemma batch_thrown_member_counterexample :
  let image :=
    Outcome.responseOf [inlinePart (Some "AAAA") (Some "image/png")] in
  let w := Outcome.scripted [Resolves image; Rejects (ErrorObject "503")] in
  fst (generateSurfaceDesign "a prompt" [] w)
  = inr (Some "data:image/png;base64,AAAA")
  /\ fst (runBatchGeneration "a prompt" [] 2 w) = inl (ErrorObject "503").
Proof. split; reflexivity. Qed.

(** C1, amended: for every count, when no member call throws, the batch
    fails exactly when none of the calls produced an image, and otherwise
    returns the non-empty list of the images of the successful members, in
    member order, the members without an image being dropped; when a
    member call throws, the batch fails. *)
Theorem batch_outcome (prompt : string) (images : list File) (n : nat) (w : World) :
  let base := List.length (requests w) in
  let batch := fst (runBatchGeneration prompt images n w) in
  (forall responses : list GenerateContentResponse,
      List.length responses = n ->
      (forall i r, nth_error responses i = Some r ->
                   backend w (base + i) = Resolves r) ->
      let urls := Outcome.images (map surfaceResponse responses) in
      (urls <> [] -> batch = inr urls)
      /\ (urls = [] ->
          batch = inl (ErrorObject
            "The AI failed to generate any images. Please try a different combination of images or prompt.")))
  /\ (forall i e, i < n -> backend w (base + i) = Rejects e ->
                  exists e', batch = inl e').
Proof.
  intros base batch. subst batch. rewrite runBatchGeneration_run, settle_batch.
  fold base. split.
  - intros responses Hlen Hres urls. subst n.
    rewrite <- (map_map (fun i => backend w (base + i)) Outcome.ofMember).
    rewrite (replies_resolved responses _ Hres), map_map.
    replace (map (fun x => Outcome.ofMember (Resolves x)) responses)
      with (map (@inr Thrown _) (map surfaceResponse responses))
      by (now rewrite map_map).
    rewrite join_fulfilled.
    fold urls. destruct urls as [|u us]; simpl.
    + split; [intros H; now contradiction H | reflexivity].
    + split; [reflexivity | discriminate].
  - intros i e Hi He.
    assert (Hnth : nth_error
              (map (fun i => Outcome.ofMember (backend w (base + i))) (seq 0 n)) i
            = Some (inl e)).
    { rewrite nth_error_map, nth_error_seq.
      destruct (Nat.ltb_spec i n) as [_|Hge]; [|lia]. simpl. now rewrite He. }
    destruct (join_rejected _ _ _ Hnth) as [e' ->]. now exists e'.
Qed.

Lemma batch_outcome_witness :
  let image :=
    Outcome.responseOf [inlinePart (Some "AAAA") (Some "image/png")] in
  let words := Outcome.responseOf [textPart "I cannot draw this."] in
  let w := Outcome.scripted [Resolves image; Resolves words] in
  fst (runBatchGeneration "a prompt" [] 2 w) = inr ["data:image/png;base64,AAAA"].
Proof.
  intros image words w.
  destruct (batch_outcome "a prompt" [] 2 w) as [H _].
  apply (H [image; words] eq_refl).
  - intros [|[|i]] r Hr; simpl in Hr; try (injection Hr as <-; reflexivity).
    destruct i; discriminate.
  - discriminate.
Defined.

(** ** The edit call *)

Section EditCall.

Variables (base64Image : option string) (mimeType prompt : string) (w : World).

Let editRequest : Request :=
  GenerateContent image_model
    [inlinePart base64Image (Some mimeType); textPart (editPrompt prompt)].

(** The edit call sends exactly one request, whatever comes back. *)
Lemma editImageWithPrompt_requests :
  requests (snd (editImageWithPrompt base64Image mimeType prompt w))
  = requests w ++ [editRequest].
Proof.
  unfold editImageWithPrompt, try_catch, bind, send.
  destruct (backend w (List.length (requests w))) as [[m|d]|resp]; simpl;
    try reflexivity.
  unfold editResponse.
  destruct (candidates resp) as [[|c cs]|]; simpl; try reflexivity.
  destruct (content c) as [ct|]; simpl; try reflexivity.
  destruct (parts ct) as [ps|]; simpl; try reflexivity.
  destruct (editParts ps) as [[u|] [t|]]; simpl;
    repeat match goal with
           | |- context [Js.truthy ?x] => destruct (Js.truthy x); simpl
           end; reflexivity.
Qed.

(** It returns only with a truthy image URL. *)
Lemma editImageWithPrompt_image (imageUrl text : option string) :
  fst (editImageWithPrompt base64Image mimeType prompt w) = inr (imageUrl, text) ->
  Js.truthy_opt imageUrl = true.
Proof.
  unfold editImageWithPrompt, try_catch, bind, send.
  destruct (backend w (List.length (requests w))) as [[m|d]|resp]; simpl;
    try discriminate.
  unfold editResponse.
  destruct (candidates resp) as [[|c cs]|]; simpl; try discriminate.
  destruct (content c) as [ct|]; simpl; try discriminate.
  destruct (parts ct) as [ps|]; simpl; try discriminate.
  destruct (editParts ps) as [[u|] [t|]]; simpl;
    repeat match goal with
           | |- context [Js.truthy ?x] => destruct (Js.truthy x) eqn:?; simpl
           end; try discriminate;
    intros H; injection H as <- _; assumption.
Qed.


End EditCall.

(** ** Chat turns *)

Section EditTurn.

Variables (message currentImage : string).
Variable setImageCallback : string -> AppState -> AppState.
Variables (successMessage : string) (s : AppState) (w : World).
Variables (mimeType : string) (base64 : option string).

Hypothesis parsed : parseDataUrl currentImage = inr (mimeType, base64).

Lemma handleEdit_requests :
  requests (snd (handleEdit message currentImage setImageCallback successMessage s w))
  = requests w
    ++ [GenerateContent image_model
          [inlinePart base64 (Some mimeType); textPart (editPrompt message)]].
Proof.
  pose proof (editImageWithPrompt_requests base64 mimeType message w) as Hq.
  unfold handleEdit, bind. rewrite parsed. cbn [fst snd].
  destruct (editImageWithPrompt base64 mimeType message w) as [[e|r] w1];
    cbn [snd] in Hq.
  - cbn. exact Hq.
  - destruct (Js.truthy_opt (fst r)); cbn; exact Hq.
Qed.


Lemma handleEdit_success (imageUrl : string) (text : option string) :
  fst (editImageWithPrompt base64 mimeType message w) = inr (Some imageUrl, text) ->
  exists i,
    fst (handleEdit message currentImage setImageCallback successMessage s w)
    = setIsBotTyping false
        (addMessage {| id := i; text := Js.or_else text successMessage;
                       sender := bot |}
           (setImageCallback imageUrl s)).
Proof.
  intros H.
  pose proof (editImageWithPrompt_image _ _ _ _ _ _ H) as Ht.
  unfold handleEdit, bind. rewrite parsed. cbn [fst snd].
  destruct (editImageWithPrompt base64 mimeType message w) as [r w1].
  cbn [fst] in H. subst r. cbn [fst snd]. rewrite Ht. cbn.
  eexists. reflexivity.
Qed.

End EditTurn.

Lemma handleEdit_unparsed
  (message currentImage : string) (cb : string -> AppState -> AppState)
  (successMessage : string) (s : AppState) (w : World) (e : Thrown) :
  parseDataUrl currentImage = inl e ->
  requests (snd (handleEdit message currentImage cb successMessage s w))
  = requests w.
Proof.
  intros H. unfold handleEdit, bind. rewrite H. reflexivity.
Qed.

Lemma hasImages_spec (o : option (list string)) :
  hasImages o = true <-> exists first rest, o = Some (first :: rest).
Proof.
  destruct o as [[|x l]|]; simpl; split; intros H; try discriminate;
    try reflexivity.
  - destruct H as [a [b H]]. discriminate.
  - now exists x, l.
  - destruct H as [a [b H]]. discriminate.
Qed.

Lemma truthy_opt_spec (o : option string) :
  Js.truthy_opt o = true <-> exists u, o = Some u /\ u <> EmptyString.
Proof.
  destruct o as [[|a u]|]; simpl; split; intros H; try discriminate;
    try reflexivity.
  - destruct H as [u [H Hne]]. injection H as <-. now contradiction Hne.
  - eexists. split; [reflexivity | discriminate].
  - destruct H as [u [H _]]. discriminate.
Qed.

Lemma tab_eqb_spec (a b : ActiveTab) : tab_eqb a b = true <-> a = b.
Proof. destruct a, b; simpl; split; intros H; try reflexivity; discriminate. Qed.

(** The condition under which a chat turn edits the displayed output. *)
Lemma edit_condition (s : AppState) :
  (tab_eqb (activeTab s) TabGenerator && hasImages (outputImages (generatorSt s)))
  || (tab_eqb (activeTab s) TabPattern && Js.truthy_opt (patternOutput (patternSt s)))
  = true
  <-> (activeTab s = TabGenerator
       /\ exists first rest, outputImages (generatorSt s) = Some (first :: rest))
      \/ (activeTab s = TabPattern
          /\ exists u, patternOutput (patternSt s) = Some u /\ u <> EmptyString).
Proof.
  rewrite orb_true_iff, !andb_true_iff, !tab_eqb_spec, hasImages_spec,
    truthy_opt_spec. reflexivity.
Qed.

Lemma not_appended {A} (l : list A) (x : A) : l <> l ++ [x].
Proof.
  intros H. apply (f_equal (@List.length A)) in H.
  rewrite length_app in H. simpl in H. lia.
Qed.



(** ** Base64: decoding the encoding *)

Section Base64RoundTrip.

Import Base64.

Ltac euclid := zify; Z.to_euclidean_division_equations; lia.

(** Lists by groups of three elements. *)
Lemma list_by_three {A} (P : list A -> Prop) :
  P [] ->
  (forall a, P [a]) ->
  (forall a b, P [a; b]) ->
  (forall a b c rest, P rest -> P (a :: b :: c :: rest)) ->
  forall l, P l.
Proof.
  intros H0 H1 H2 H3.
  refine (fix go (l : list A) : P l :=
            match l with
            | [] => H0
            | [a] => H1 a
            | [a; b] => H2 a b
            | a :: b :: c :: rest => H3 a b c rest (go rest)
            end).
Qed.

Lemma alphabet_checked :
  forallb
    (fun k =>
       let n := N.of_nat k in
       match index_of (char_of n) with
       | Some m => N.eqb m n
       | None => false
       end
       && negb (is_ascii_whitespace (char_of n))
       && negb (Ascii.eqb (char_of n) pad)
       && negb (Ascii.eqb (char_of n) ","%char))
    (seq 0 64) = true.
Proof. vm_compute. reflexivity. Qed.

Lemma char_of_facts (n : N) :
  (n < 64)%N ->
  index_of (char_of n) = Some n
  /\ is_ascii_whitespace (char_of n) = false
  /\ Ascii.eqb (char_of n) pad = false
  /\ Ascii.eqb (char_of n) ","%char = false.
Proof.
  intros Hn.
  pose proof (proj1 (forallb_forall _ _) alphabet_checked (N.to_nat n)) as H.
  cbv beta zeta in H. rewrite N2Nat.id in H.
  assert (Hin : In (N.to_nat n) (seq 0 64)) by (apply in_seq; lia).
  specialize (H Hin).
  repeat (apply andb_true_iff in H; destruct H as [H ?]).
  repeat match goal with
         | H : negb _ = true |- _ => apply negb_true_iff in H
         end.
  destruct (index_of (char_of n)) as [m|]; [|discriminate].
  apply N.eqb_eq in H. subst m. repeat split; assumption.
Qed.

Lemma sextets_bound (bs : list byte) : Forall (fun n => (n < 64)%N) (sextets bs).
Proof.
  induction bs as [|a|a b|a b c rest IH] using list_by_three; cbn [sextets].
  - constructor.
  - pose proof (Byte.to_N_bounded a).
    repeat constructor; euclid.
  - pose proof (Byte.to_N_bounded a). pose proof (Byte.to_N_bounded b).
    repeat constructor; euclid.
  - pose proof (Byte.to_N_bounded a). pose proof (Byte.to_N_bounded b).
    pose proof (Byte.to_N_bounded c).
    repeat (constructor; [euclid|]). exact IH.
Qed.

Lemma indices_chars (ss : list N) :
  Forall (fun n => (n < 64)%N) ss -> indices (map char_of ss) = Some ss.
Proof.
  induction 1 as [|n ss Hn _ IH]; simpl; [reflexivity|].
  destruct (char_of_facts n Hn) as [-> _]. now rewrite IH.
Qed.

Lemma filter_whitespace_chars (ss : list N) (k : nat) :
  Forall (fun n => (n < 64)%N) ss ->
  filter (fun c => negb (is_ascii_whitespace c)) (map char_of ss ++ repeat pad k)
  = map char_of ss ++ repeat pad k.
Proof.
  intros H. rewrite filter_app. f_equal.
  - induction H as [|n ss Hn _ IH]; simpl; [reflexivity|].
    destruct (char_of_facts n Hn) as [_ [-> _]]. simpl. now rewrite IH.
  - induction k as [|k IH]; simpl; [reflexivity|]. now rewrite IH.
Qed.

Lemma strip_padding_chars (ss : list N) (k : nat) :
  Forall (fun n => (n < 64)%N) ss -> k <= 2 ->
  strip_padding (map char_of ss ++ repeat pad k) = map char_of ss.
Proof.
  intros H Hk. set (body := map char_of ss).
  assert (Hlast : forall c, In c (rev body) -> Ascii.eqb c pad = false).
  { intros c Hin. apply in_rev in Hin.
    unfold body in Hin. apply in_map_iff in Hin. destruct Hin as [n [<- Hn]].
    rewrite Forall_forall in H.
    now destruct (char_of_facts n (H n Hn)) as [_ [_ [-> _]]]. }
  unfold strip_padding.
  destruct k as [|[|[|k]]]; [| | |lia]; simpl repeat; rewrite ?app_nil_r.
  - destruct (rev body) as [|p1 [|p2 r]]; [reflexivity| |];
      now rewrite (Hlast p1 (or_introl eq_refl)).
  - rewrite rev_app_distr. simpl.
    destruct (rev body) as [|p2 r] eqn:Er.
    + apply (f_equal (@rev ascii)) in Er. rewrite rev_involutive in Er.
      now rewrite Er.
    + rewrite (Hlast p2 (or_introl eq_refl)).
      change (rev r ++ [p2]) with (rev (p2 :: r)). rewrite <- Er.
      apply rev_involutive.
  - rewrite rev_app_distr. simpl. apply rev_involutive.
Qed.

Lemma encoding_shape (bs : list byte) :
  let k := (3 - List.length bs mod 3) mod 3 in
  k <= 2
  /\ (List.length (sextets bs) + k) mod 4 = 0
  /\ List.length (sextets bs) mod 4 <> 1.
Proof.
  induction bs as [|a|a b|a b c rest IH] using list_by_three.
  - cbn. repeat split; lia.
  - cbn. repeat split; lia.
  - cbn. repeat split; lia.
  - cbn [sextets List.length]. cbv zeta in IH |- *.
    replace (S (S (S (List.length rest))) mod 3) with (List.length rest mod 3)
      by euclid.
    destruct IH as [H1 [H2 H3]]. repeat split; [assumption| |].
    + revert H2. generalize ((3 - List.length rest mod 3) mod 3).
      generalize (List.length (sextets rest)). intros x y Hxy. euclid.
    + revert H3. generalize (List.length (sextets rest)). intros x Hx. euclid.
Qed.

Lemma recompose (n : N) :
  ((n / 262144) * 262144 + ((n / 4096) mod 64) * 4096
   + ((n / 64) mod 64) * 64 + n mod 64 = n)%N.
Proof.
  assert (H1 : (n / 4096 = n / 64 / 64)%N)
    by (rewrite N.Div0.div_div; reflexivity).
  assert (H2 : (n / 262144 = n / 64 / 64 / 64)%N)
    by (rewrite !N.Div0.div_div; reflexivity).
  rewrite H1, H2.
  generalize (N.div_mod n 64), (N.div_mod (n / 64) 64),
    (N.div_mod (n / 64 / 64) 64).
  generalize (n mod 64)%N ((n / 64) mod 64)%N (n / 64 / 64 / 64)%N
    ((n / 64 / 64) mod 64)%N.
  intros. lia.
Qed.

Lemma code_byte (n : N) (a : byte) :
  (n mod 256 = Byte.to_N a)%N -> code n = ascii_of_byte a.
Proof. intros H. unfold code. now rewrite H, ascii_of_byte_via_N. Qed.

Lemma bytes_of_sextets (bs : list byte) :
  bytes_of (sextets bs) = map ascii_of_byte bs.
Proof.
  induction bs as [|a|a b|a b c rest IH] using list_by_three.
  - reflexivity.
  - cbn [sextets bytes_of map]. pose proof (Byte.to_N_bounded a).
    f_equal. apply code_byte. euclid.
  - cbn [sextets bytes_of map].
    pose proof (Byte.to_N_bounded a). pose proof (Byte.to_N_bounded b).
    set (n := (Byte.to_N a * 65536 + Byte.to_N b * 256)%N).
    assert (Hn : ((n / 262144) * 4096 + ((n / 4096) mod 64) * 64
                  + (n / 64) mod 64 = n / 64)%N).
    { pose proof (recompose (n / 64 * 64)) as R.
      replace (n / 64 * 64 / 262144)%N with (n / 262144)%N in R by euclid.
      replace (n / 64 * 64 / 4096)%N with (n / 4096)%N in R by euclid.
      replace (n / 64 * 64 / 64)%N with (n / 64)%N in R by euclid.
      replace ((n / 64 * 64) mod 64)%N with 0%N in R by euclid.
      revert R. generalize (n / 262144)%N ((n / 4096) mod 64)%N
        ((n / 64) mod 64)%N (n / 64)%N. intros. lia. }
    rewrite Hn. subst n.
    f_equal; [|f_equal]; apply code_byte; euclid.
  - cbn [sextets bytes_of map]. rewrite IH.
    pose proof (Byte.to_N_bounded a). pose proof (Byte.to_N_bounded b).
    pose proof (Byte.to_N_bounded c).
    rewrite recompose.
    f_equal; [|f_equal; [|f_equal]]; apply code_byte; euclid.
Qed.

(** [atob] gives back the bytes that were encoded. *)
Lemma atob_encode (bs : list byte) :
  atob (encode bs) = Some (string_of_list_ascii (map ascii_of_byte bs)).
Proof.
  pose proof (sextets_bound bs) as Hb.
  destruct (encoding_shape bs) as [Hk [Hlen Hone]].
  unfold atob, encode, padding.
  rewrite list_ascii_of_string_of_list_ascii.
  rewrite filter_whitespace_chars by assumption.
  rewrite length_app, length_map, repeat_length.
  apply Nat.eqb_eq in Hlen. rewrite Hlen.
  rewrite strip_padding_chars by assumption.
  rewrite length_map. apply Nat.eqb_neq in Hone. rewrite Hone.
  rewrite indices_chars by assumption. simpl.
  now rewrite bytes_of_sextets.
Qed.

End Base64RoundTrip.

(** ** Data URLs: splitting and matching *)

Section DataUrls.

Lemma split_without (sep : ascii) (s : string) :
  Mime.every (fun c => negb (Ascii.eqb c sep)) s = true ->
  Js.split sep s = [s].
Proof.
  induction s as [|c r IH]; simpl; [reflexivity|].
  intros H. apply andb_true_iff in H. destruct H as [Hc Hr].
  apply negb_true_iff in Hc. rewrite Hc, (IH Hr). reflexivity.
Qed.

Lemma split_at_first (sep : ascii) (a b : string) :
  Mime.every (fun c => negb (Ascii.eqb c sep)) a = true ->
  Js.split sep (a +++ String sep b) = a :: Js.split sep b.
Proof.
  induction a as [|c r IH]; simpl.
  - intros _. now rewrite Ascii.eqb_refl.
  - intros H. apply andb_true_iff in H. destruct H as [Hc Hr].
    apply negb_true_iff in Hc. rewrite Hc, (IH Hr). reflexivity.
Qed.

Lemma lazy_until_semicolon_plain (m rest : string) :
  Mime.plain m = true ->
  Js.lazy_until_semicolon (m +++ String ";"%char rest) = Some m.
Proof.
  induction m as [|c r IH]; simpl; [reflexivity|].
  intros H. apply andb_true_iff in H. destruct H as [Hc Hr].
  unfold Mime.plainChar in Hc.
  apply andb_true_iff in Hc. destruct Hc as [Hc Hl].
  apply andb_true_iff in Hc. destruct Hc as [_ Hs].
  apply negb_true_iff in Hs, Hl. rewrite Hs, Hl, (IH Hr). reflexivity.
Qed.

Lemma every_weaken (f g : ascii -> bool) (s : string) :
  (forall c, f c = true -> g c = true) ->
  Mime.every f s = true -> Mime.every g s = true.
Proof.
  intros Hfg. induction s as [|c r IH]; simpl; [reflexivity|].
  intros H. apply andb_true_iff in H. destruct H as [Hc Hr].
  now rewrite (Hfg c Hc), (IH Hr).
Qed.

Lemma every_append (f : ascii -> bool) (a b : string) :
  Mime.every f (a +++ b) = Mime.every f a && Mime.every f b.
Proof.
  induction a as [|c r IH]; simpl; [reflexivity|].
  now rewrite IH, andb_assoc.
Qed.

Lemma every_of_list (f : ascii -> bool) (l : list ascii) :
  Mime.every f (string_of_list_ascii l) = forallb f l.
Proof. induction l as [|c r IH]; simpl; [reflexivity|]. now rewrite IH. Qed.

Lemma encode_without_comma (bs : list byte) :
  Mime.every (fun c => negb (Ascii.eqb c ","%char)) (Base64.encode bs) = true.
Proof.
  unfold Base64.encode. rewrite every_of_list, forallb_app.
  apply andb_true_iff. split.
  - apply forallb_forall. intros c Hc. apply in_map_iff in Hc.
    destruct Hc as [n [<- Hn]].
    pose proof (sextets_bound bs) as Hb. rewrite Forall_forall in Hb.
    destruct (char_of_facts n (Hb n Hn)) as [_ [_ [_ ->]]]. reflexivity.
  - apply forallb_forall. intros c Hc. apply repeat_spec in Hc. now subst c.
Qed.

Lemma append_associative (a b c : string) : (a +++ b) +++ c = a +++ b +++ c.
Proof. induction a as [|x r IH]; simpl; [reflexivity|]. now rewrite IH. Qed.

Lemma split_data_uri (m b : string) :
  Mime.plain m = true ->
  Mime.every (fun c => negb (Ascii.eqb c ","%char)) b = true ->
  Js.split ","%char ("data:" +++ m +++ ";base64," +++ b)
  = ["data:" +++ m +++ ";base64"; b].
Proof.
  intros Hm Hb.
  replace ("data:" +++ m +++ ";base64," +++ b)
    with (("data:" +++ m +++ ";base64") +++ String ","%char b)
    by (now rewrite !append_associative).
  rewrite split_at_first.
  - now rewrite split_without.
  - rewrite !every_append. simpl. rewrite andb_true_r.
    apply (every_weaken Mime.plainChar); [|exact Hm].
    intros c Hc. unfold Mime.plainChar in Hc.
    apply andb_true_iff in Hc. destruct Hc as [Hc _].
    apply andb_true_iff in Hc. now destruct Hc as [Hc _].
Qed.

Lemma mediaType_plain (f : File) :
  Mime.plain (type f) = true -> Mime.plain (mediaType f) = true.
Proof.
  unfold mediaType. destruct (type f); intros H; [reflexivity | exact H].
Qed.

(** The two pieces of the data URL of a file with a plain MIME type. *)
Lemma split_data_url_of (f : File) :
  Mime.plain (type f) = true ->
  Js.split ","%char (readAsDataURL f)
  = ["data:" +++ mediaType f +++ ";base64"; Base64.encode (bytes f)].
Proof.
  intros Hm. unfold readAsDataURL. apply split_data_uri.
  - now apply mediaType_plain.
  - apply encode_without_comma.
Qed.

Lemma match_mime_of (m : string) :
  Mime.plain m = true ->
  Js.match_colon_semicolon ("data:" +++ m +++ ";base64") = Some m.
Proof.
  intros Hm. simpl.
  change (m +++ ";base64") with (m +++ String ";"%char "base64").
  now rewrite lazy_until_semicolon_plain.
Qed.

(** Parsing a data URL written as [data:<m>;base64,<b>]. *)
Lemma parseDataUrl_data (m b : string) :
  Mime.plain m = true ->
  Mime.every (fun c => negb (Ascii.eqb c ","%char)) b = true ->
  parseDataUrl ("data:" +++ m +++ ";base64," +++ b) = inr (m, Some b).
Proof.
  intros Hm Hb. unfold parseDataUrl. rewrite (split_data_uri m b Hm Hb).
  cbn [hd nth_error]. now rewrite (match_mime_of m Hm).
Qed.

End DataUrls.

(** ** Filling the byte array *)

Section Fill.

Lemma assign_length (i : nat) (v : byte) (arr : list byte) :
  List.length (assign i v arr) = List.length arr.
Proof.
  revert i. induction arr as [|x r IH]; intros [|i]; simpl; try reflexivity.
  now rewrite IH.
Qed.

Lemma skipn_assign (i : nat) (v : byte) (arr : list byte) :
  i < List.length arr ->
  skipn i (assign i v arr) = v :: skipn (S i) arr.
Proof.
  revert i. induction arr as [|x r IH]; intros [|i] H; simpl in *; try lia.
  - reflexivity.
  - apply IH. lia.
Qed.

Lemma firstn_next {A} (i : nat) (l : list A) (d : A) :
  i < List.length l -> firstn (S i) l = firstn i l ++ [nth i l d].
Proof.
  revert i. induction l as [|x r IH]; intros [|i] H; simpl in *; try lia.
  - reflexivity.
  - f_equal. apply IH. lia.
Qed.

Lemma fillBytes_upto (n : nat) (chars : list ascii) (arr : list byte) :
  List.length arr = List.length chars ->
  n <= List.length chars ->
  fillBytes n chars arr = map byte_of_ascii (firstn n chars) ++ skipn n arr.
Proof.
  revert arr. induction n as [|m IH]; intros arr Hlen Hn; [reflexivity|].
  cbn [fillBytes]. rewrite IH by (rewrite ?assign_length; lia).
  rewrite skipn_assign by lia.
  rewrite (firstn_next m chars zero) by lia.
  rewrite map_app, <- app_assoc. reflexivity.
Qed.

Lemma fillBytes_all (chars : list ascii) :
  fillBytes (List.length chars) chars (repeat x00 (List.length chars))
  = map byte_of_ascii chars.
Proof.
  rewrite fillBytes_upto by (rewrite ?repeat_length; lia).
  rewrite firstn_all, skipn_all2 by (rewrite repeat_length; lia).
  apply app_nil_r.
Qed.

End Fill.

(** ** Encoding an asset and decoding it back *)

(** Decoding what [readAsDataURL] produced. *)
Lemma dataURLtoFile_readAsDataURL (f : File) (filename : string) :
  Mime.plain (type f) = true ->
  dataURLtoFile (readAsDataURL f) filename
  = inr {| name := filename; type := fileType (mediaType f); bytes := bytes f |}.
Proof.
  intros Hm. unfold dataURLtoFile. rewrite (split_data_url_of f Hm).
  cbn [hd nth_error Js.interp].
  rewrite (match_mime_of _ (mediaType_plain f Hm)), atob_encode.
  rewrite list_ascii_of_string_of_list_ascii, fillBytes_all, map_map.
  do 2 f_equal. rewrite <- (map_id (bytes f)) at 2.
  apply map_ext. apply byte_of_ascii_of_byte.
Qed.

Lemma fileType_typed (f : File) :
  type f <> EmptyString -> fileType (type f) = type f ->
  fileType (mediaType f) = type f.
Proof.
  unfold mediaType. destruct (type f); [intros H; now contradiction H | trivial].
Qed.

Lemma fileType_untyped (f : File) :
  type f = EmptyString -> fileType (mediaType f) = "application/octet-stream".
Proof. unfold mediaType. intros ->. reflexivity. Qed.

(** C5, as stated, fails: a MIME type with a parameter comes back cut at
    its first semicolon, and a file without a MIME type comes back as
    [application/octet-stream]. *)
Lemma data_url_round_trip_counterexample :
  let f := {| name := "tile.svg"; type := "image/svg+xml;charset=utf-8";
              bytes := [x3c; x73; x76; x67; x2f; x3e] |} in
  let g := {| name := "scan"; type := EmptyString; bytes := [x4d; x61; x6e] |} in
  dataURLtoFile (readAsDataURL f) "tile.svg"
  = inr {| name := "tile.svg"; type := "image/svg+xml";
           bytes := [x3c; x73; x76; x67; x2f; x3e] |}
  /\ "image/svg+xml" <> type f
  /\ readAsDataURL g = "data:application/octet-stream;base64,TWFu"
  /\ dataURLtoFile (readAsDataURL g) "scan"
     = inr {| name := "scan"; type := "application/octet-stream";
              bytes := [x4d; x61; x6e] |}
  /\ "application/octet-stream" <> type g.
Proof.
  repeat split; try (vm_compute; reflexivity); discriminate.
Qed.

(** C5, amended: for every image asset whose MIME type contains no comma,
    no semicolon and no line break, encoding it to its base64 data URL and
    decoding that text back to a file gives the same bytes; it gives the
    same MIME type when the asset has one and it is written as the File
    API keeps types (characters U+0020 to U+007E, no upper-case letter,
    which [fileType] leaves as they are); an asset without a MIME type
    comes back as [application/octet-stream]. *)
Theorem data_url_round_trip (f : File) (filename : string) (w : World) :
  Mime.plain (type f) = true ->
  exists dataUrl copy,
    fileToDataURL f w = (inr dataUrl, w)
    /\ dataURLtoFile dataUrl filename = inr copy
    /\ name copy = filename
    /\ bytes copy = bytes f
    /\ type copy = fileType (mediaType f)
    /\ (type f <> EmptyString -> fileType (type f) = type f ->
        type copy = type f)
    /\ (type f = EmptyString -> type copy = "application/octet-stream").
Proof.
  intros Hm. exists (readAsDataURL f). eexists. split; [reflexivity|].
  split; [apply (dataURLtoFile_readAsDataURL f filename Hm)|].
  cbn [name bytes type]. repeat split.
  - apply fileType_typed.
  - apply fileType_untyped.
Qed.

Lemma data_url_round_trip_witness :
  let f := {| name := "oak.png"; type := "image/png";
              bytes := [x89; x50; x4e; x47; x0d] |} in
  exists copy,
    dataURLtoFile "data:image/png;base64,iVBORw0=" "copy.png" = inr copy
    /\ bytes copy = [x89; x50; x4e; x47; x0d]
    /\ type copy = "image/png".
Proof.
  intro f.
  destruct (data_url_round_trip f "copy.png" (Outcome.scripted []) eq_refl)
    as [u [copy [Hu [Hd [_ [Hb [_ [Ht _]]]]]]]].
  injection Hu as <-. exists copy. split; [exact Hd|]. split; [exact Hb|].
  apply Ht; [discriminate | reflexivity].
Defined.

(** ** Chat turns on the displayed output *)

Section DisplayedOutput.

Variables (message : string) (s : AppState) (w : World).

Hypothesis configured : Js.truthy_opt (apiKeyError s) = false.

Let asked : AppState :=
  setIsBotTyping true
    (addMessage {| id := now w; text := message; sender := user |} s).

Lemma handleSendMessage_generator (first : string) (rest : list string) :
  activeTab s = TabGenerator ->
  outputImages (generatorSt s) = Some (first :: rest) ->
  handleSendMessage message s w
  = handleEdit message first (fun newUrl => setOutputImages (Some [newUrl]))
      "Of course. Here is the updated design." asked w.
Proof.
  intros Htab Hout. unfold handleSendMessage.
  rewrite configured, Htab, Hout. reflexivity.
Qed.

Lemma handleSendMessage_pattern (u : string) :
  activeTab s = TabPattern ->
  patternOutput (patternSt s) = Some u ->
  u <> EmptyString ->
  handleSendMessage message s w
  = handleEdit message u (fun newUrl => setPatternOutput (Some newUrl))
      "Of course. Here is the updated pattern." asked w.
Proof.
  intros Htab Hout Hu. unfold handleSendMessage.
  rewrite configured, Htab, Hout.
  destruct u; [now contradiction Hu | reflexivity].
Qed.

(** An edit attempt on an image that is no data URL: nothing is sent and
    the bot answers with the parser's message. *)
Lemma handleEdit_invalid
  (currentImage : string) (cb : string -> AppState -> AppState)
  (successMessage : string) (st : AppState) (e : Thrown) :
  parseDataUrl currentImage = inl e ->
  exists j w',
    handleEdit message currentImage cb successMessage st w
    = (setIsBotTyping false
         (addMessage {| id := j; text := "Invalid data URL format"; sender := bot |}
            st), w')
    /\ requests w' = requests w.
Proof.
  intros H.
  assert (He : e = ErrorObject "Invalid data URL format").
  { unfold parseDataUrl in H.
    destruct (Js.match_colon_semicolon _); [discriminate | now injection H]. }
  subst e. unfold handleEdit, bind. rewrite H.
  eexists _, _. split; reflexivity.
Qed.

Lemma asked_then_answered (reply : Message) :
  messages (chatSt (setIsBotTyping false (addMessage reply asked)))
  = messages (chatSt s)
    ++ [ {| id := now w; text := message; sender := user |}; reply ].
Proof.
  clear configured. unfold asked. destruct s as [tab key g e pt ch hi ex]. cbn.
  now rewrite <- app_assoc.
Qed.

End DisplayedOutput.

(** C2, as stated, fails for the Extractor: with the Extractor active and
    its output slot filled, the turn is not an edit turn; the text goes to
    the dialogue session and the output stays as it is. *)
Lemma extractor_turn_counterexample :
  let s := setProcessedImage (Some "data:image/png;base64,AAAA")
             (setActiveTab TabExtractor initialState) in
  let w := Outcome.scripted
             [Resolves {| candidates := None; responseText := "Certainly." |}] in
  let r := handleSendMessage "make it darker" s w in
  activeTab s = TabExtractor
  /\ processedImage (extractorSt s) = Some "data:image/png;base64,AAAA"
  /\ requests (snd r) = [SendMessage "make it darker"]
  /\ processedImage (extractorSt (fst r)) = processedImage (extractorSt s).
Proof. repeat split. Qed.

(** C2, amended: with no configuration error and the dialogue session
    present, a chat turn is handled as an image-edit turn if and only if the
    Generator is active with a non-empty output list or the Pattern Studio
    is active with a non-empty output; otherwise, and always when the
    Extractor is active, the raw text is forwarded to the dialogue
    session.  An edit turn on a displayed image [data:<m>;base64,<b>]
    sends one edit request that carries [b] and [m] with the user's text
    as instruction, the image being the first of the Generator's output
    list or the output of the Pattern Studio; an edit turn on an image
    that is no data URL sends nothing and answers "Invalid data URL
    format". *)
Theorem chat_turn_routing (message : string) (s : AppState) (w : World) :
  Js.truthy_opt (apiKeyError s) = false ->
  chatRef (chatSt s) = true ->
  let editable :=
    (activeTab s = TabGenerator
     /\ exists first rest, outputImages (generatorSt s) = Some (first :: rest))
    \/ (activeTab s = TabPattern
        /\ exists u, patternOutput (patternSt s) = Some u /\ u <> EmptyString) in
  let s' := fst (handleSendMessage message s w) in
  let sent := requests (snd (handleSendMessage message s w)) in
  let edit (b : option string) (m : string) :=
    GenerateContent image_model
      [inlinePart b (Some m); textPart (editPrompt message)] in
  (forall m b rest,
      activeTab s = TabGenerator ->
      outputImages (generatorSt s)
      = Some (("data:" +++ m +++ ";base64," +++ b) :: rest) ->
      Mime.plain m = true ->
      Mime.every (fun c => negb (Ascii.eqb c ","%char)) b = true ->
      sent = requests w ++ [edit (Some b) m])
  /\ (forall m b,
         activeTab s = TabPattern ->
         patternOutput (patternSt s) = Some ("data:" +++ m +++ ";base64," +++ b) ->
         Mime.plain m = true ->
         Mime.every (fun c => negb (Ascii.eqb c ","%char)) b = true ->
         sent = requests w ++ [edit (Some b) m])
  /\ (editable ->
      (sent = requests w
       /\ exists i j,
           messages (chatSt s')
           = messages (chatSt s)
             ++ [ {| id := i; text := message; sender := user |};
                  {| id := j; text := "Invalid data URL format"; sender := bot |} ])
      \/ exists b m, sent = requests w ++ [edit b m])
  /\ (~ editable -> sent = requests w ++ [SendMessage message])
  /\ (editable <-> sent <> requests w ++ [SendMessage message])
  /\ (activeTab s = TabExtractor -> sent = requests w ++ [SendMessage message]).
Proof.
  intros Hkey Hchat editable s' sent edit.
  pose (asked := setIsBotTyping true
                   (addMessage {| id := now w; text := message; sender := user |} s)).
  assert (Hattempt : forall img cb sm,
            handleSendMessage message s w
            = handleEdit message img cb sm asked w ->
            (sent = requests w
             /\ exists i j,
                 messages (chatSt s')
                 = messages (chatSt s)
                   ++ [ {| id := i; text := message; sender := user |};
                        {| id := j; text := "Invalid data URL format";
                           sender := bot |} ])
            \/ exists b m, sent = requests w ++ [edit b m]).
  { intros img cb sm Hrun. subst sent s'. rewrite Hrun.
    destruct (parseDataUrl img) as [e|[m b]] eqn:Ep.
    - left.
      destruct (handleEdit_invalid message w img cb sm asked e Ep) as [j [w' [-> Hq]]].
      cbn [fst snd]. split; [exact Hq|].
      eexists _, j. apply asked_then_answered.
    - right. exists b, m. apply (handleEdit_requests _ _ _ _ _ _ _ _ Ep). }
  assert (Hedit : editable ->
            (sent = requests w
             /\ exists i j,
                 messages (chatSt s')
                 = messages (chatSt s)
                   ++ [ {| id := i; text := message; sender := user |};
                        {| id := j; text := "Invalid data URL format";
                           sender := bot |} ])
            \/ exists b m, sent = requests w ++ [edit b m]).
  { intros [[Htab [first [rest Hout]]]|[Htab [u [Hout Hu]]]].
    - apply (Hattempt _ _ _
               (handleSendMessage_generator message s w Hkey first rest Htab Hout)).
    - apply (Hattempt _ _ _
               (handleSendMessage_pattern message s w Hkey u Htab Hout Hu)). }
  assert (Hchatturn : ~ editable -> sent = requests w ++ [SendMessage message]).
  { intros Hn. unfold editable in Hn. rewrite <- edit_condition in Hn.
    apply not_true_is_false in Hn.
    apply orb_false_iff in Hn. destruct Hn as [Hg Hp]. subst sent.
    unfold handleSendMessage. rewrite Hkey, Hg, Hp, Hchat.
    unfold send. destruct (backend w (List.length (requests w))); reflexivity. }
  split; [|split; [|split; [exact Hedit|]]].
  - intros m b rest Htab Hout Hm Hb. subst sent.
    rewrite (handleSendMessage_generator message s w Hkey _ rest Htab Hout).
    apply handleEdit_requests. now apply parseDataUrl_data.
  - intros m b Htab Hout Hm Hb. subst sent.
    rewrite (handleSendMessage_pattern message s w Hkey _ Htab Hout)
      by discriminate.
    apply handleEdit_requests. now apply parseDataUrl_data.
  - split; [exact Hchatturn|]. split.
    + split.
      * intros He Heq. destruct (Hedit He) as [[H _]|[b [m H]]]; rewrite H in Heq.
        -- now apply not_appended in Heq.
        -- apply app_inv_head in Heq. discriminate.
      * intros Hne.
        destruct ((tab_eqb (activeTab s) TabGenerator
                   && hasImages (outputImages (generatorSt s)))
                  || (tab_eqb (activeTab s) TabPattern
                      && Js.truthy_opt (patternOutput (patternSt s)))) eqn:E.
        -- now apply edit_condition.
        -- exfalso. apply Hne, Hchatturn. unfold editable.
           rewrite <- edit_condition, E. discriminate.
    + intros Hx. apply Hchatturn. intros [[Hg _]|[Hp _]]; congruence.
Qed.

Lemma chat_turn_routing_witness :
  let edited := setOutputImages
                  (Some ["data:image/png;base64,AAAA"; "data:image/png;base64,BBBB"])
                  initialState in
  let idle := setProcessedImage (Some "data:image/png;base64,AAAA")
                (setActiveTab TabExtractor initialState) in
  let w := Outcome.scripted
             [Resolves {| candidates := None; responseText := "Certainly." |}] in
  requests (snd (handleSendMessage "make it darker" edited w))
  = [GenerateContent image_model
       [inlinePart (Some "AAAA") (Some "image/png");
        textPart (editPrompt "make it darker")]]
  /\ requests (snd (handleSendMessage "make it darker" idle w))
     = [SendMessage "make it darker"].
Proof.
  intros edited idle w. split.
  - destruct (chat_turn_routing "make it darker" edited w eq_refl eq_refl)
      as [H _].
    apply (H "image/png" "AAAA" ["data:image/png;base64,BBBB"]); reflexivity.
  - destruct (chat_turn_routing "make it darker" idle w eq_refl eq_refl)
      as [_ [_ [_ [_ [_ H]]]]].
    apply H. reflexivity.
Defined.

(** C10: when the Generator is active with a batch of one or more output
    images, the first of them being the data URL [data:<m>;base64,<b>],
    and the chat edit call succeeds, the image sent for editing is that
    first image, payload [b] under type [m], and the output list becomes
    the one-element list of the edited image: the other results are
    gone. *)
Theorem generator_edit_replaces_batch
  (message m b : string) (rest : list string) (s : AppState) (w : World)
  (imageUrl : string) (text : option string) :
  Js.truthy_opt (apiKeyError s) = false ->
  activeTab s = TabGenerator ->
  outputImages (generatorSt s)
  = Some (("data:" +++ m +++ ";base64," +++ b) :: rest) ->
  Mime.plain m = true ->
  Mime.every (fun c => negb (Ascii.eqb c ","%char)) b = true ->
  fst (editImageWithPrompt (Some b) m message w) = inr (Some imageUrl, text) ->
  let r := handleSendMessage message s w in
  requests (snd r)
  = requests w
    ++ [GenerateContent image_model
          [inlinePart (Some b) (Some m); textPart (editPrompt message)]]
  /\ outputImages (generatorSt (fst r)) = Some [imageUrl]
  /\ exists i j,
      messages (chatSt (fst r))
      = messages (chatSt s)
        ++ [ {| id := i; text := message; sender := user |};
             {| id := j;
                text := Js.or_else text "Of course. Here is the updated design.";
                sender := bot |} ].
Proof.
  intros Hkey Htab Hout Hm Hb Hok r. subst r.
  pose proof (parseDataUrl_data m b Hm Hb) as Hparse.
  rewrite (handleSendMessage_generator message s w Hkey _ rest Htab Hout).
  split.
  - now apply handleEdit_requests.
  - match goal with
    | |- context [handleEdit message ?img ?cb ?sm ?s1 w] =>
        destruct (handleEdit_success message img cb sm s1 w m (Some b)
                    Hparse _ _ Hok) as [j ->]
    end.
    destruct s as [tab key g e pt ch hi ex]. cbn.
    split; [reflexivity|]. eexists _, j. rewrite <- app_assoc. reflexivity.
Qed.

Lemma generator_edit_replaces_batch_witness :
  let s := setOutputImages
             (Some ["data:image/png;base64,AAAA"; "data:image/png;base64,BBBB"])
             initialState in
  let w := Outcome.scripted
             [Resolves (Outcome.responseOf
                          [inlinePart (Some "CCCC") (Some "image/png")])] in
  let r := handleSendMessage "make the floor darker" s w in
  requests (snd r)
  = [GenerateContent image_model
       [inlinePart (Some "AAAA") (Some "image/png");
        textPart (editPrompt "make the floor darker")]]
  /\ outputImages (generatorSt (fst r)) = Some ["data:image/png;base64,CCCC"].
Proof.
  intros s w r.
  destruct (generator_edit_replaces_batch "make the floor darker"
              "image/png" "AAAA" ["data:image/png;base64,BBBB"]
              s w "data:image/png;base64,CCCC" None
              eq_refl eq_refl eq_refl eq_refl eq_refl eq_refl) as [Hq [Ho _]].
  split; [exact Hq | exact Ho].
Defined.

(** * Further properties of the code *)

(** ** Requests of the generation client *)

Section Requests.

Lemma inline_parts_plain (images : list File) :
  Forall (fun f => Mime.plain (type f) = true) images ->
  map (fun image =>
         inlinePart (nth_error (Js.split ","%char (readAsDataURL image)) 1)
           (Some (type image))) images
  = map Shape.inlineOf images.
Proof.
  induction 1 as [|f fs Hf _ IH]; cbn [map]; [reflexivity|].
  rewrite IH. f_equal. unfold Shape.inlineOf.
  now rewrite (split_data_url_of f Hf).
Qed.

Lemma generateSurfaceDesign_requests (prompt : string) (images : list File) (w : World) :
  Forall (fun f => Mime.plain (type f) = true) images ->
  requests (snd (generateSurfaceDesign prompt images w))
  = requests w ++ [Shape.surfaceRequest prompt images].
Proof.
  intros H. destruct (generateSurfaceDesign_run prompt images w) as [_ [Hq _]].
  rewrite Hq. unfold Shape.surfaceRequest. now rewrite inline_parts_plain.
Qed.

(** X1: a generation call sends exactly one request, whatever the backend
    answers: the images in the order given, each with the base64 text of
    its bytes and its MIME type, and the instruction as the last part. *)
Theorem surface_request_shape (prompt : string) (images : list File) (w : World) :
  Forall (fun f => Mime.plain (type f) = true) images ->
  requests (snd (generateSurfaceDesign prompt images w))
  = requests w ++ [Shape.surfaceRequest prompt images].
Proof.
  exact (generateSurfaceDesign_requests prompt images w).
Qed.

Lemma surface_request_shape_witness :
  let f := {| name := "oak.png"; type := "image/png"; bytes := [x4d; x61; x6e] |} in
  requests (snd (generateSurfaceDesign "lay it" [f] (Outcome.scripted [])))
  = [GenerateContent image_model
       [inlinePart (Some "TWFu") (Some "image/png"); textPart "lay it"]].
Proof.
  intro f.
  apply (surface_request_shape "lay it" [f] (Outcome.scripted [])).
  repeat constructor.
Defined.

Lemma settle_batch_world (prompt : string) (images : list File) (n : nat) (w : World) :
  Forall (fun f => Mime.plain (type f) = true) images ->
  let w' := snd (settle (repeat (generateSurfaceDesign prompt images) n) w) in
  requests w' = requests w ++ repeat (Shape.surfaceRequest prompt images) n.
Proof.
  intros H. revert w. induction n as [|n IH]; intros w; cbn [repeat settle].
  - simpl. now rewrite app_nil_r.
  - pose proof (generateSurfaceDesign_requests prompt images w H) as Hq.
    destruct (generateSurfaceDesign prompt images w) as [r w1]. cbn [snd] in Hq.
    specialize (IH w1).
    destruct (settle (repeat (generateSurfaceDesign prompt images) n) w1) as [rs w2].
    cbn [snd] in IH |- *. rewrite IH, Hq, <- app_assoc. reflexivity.
Qed.

Lemma runBatchGeneration_requests
  (prompt : string) (images : list File) (n : nat) (w : World) :
  Forall (fun f => Mime.plain (type f) = true) images ->
  requests (snd (runBatchGeneration prompt images n w))
  = requests w ++ repeat (Shape.surfaceRequest prompt images) n.
Proof.
  intros H. pose proof (settle_batch_world prompt images n w H) as Hs.
  unfold runBatchGeneration, bind, promise_all.
  destruct (settle (repeat (generateSurfaceDesign prompt images) n) w) as [rs w1].
  cbn [snd] in Hs. destruct (join rs) as [e|results]; cbn [snd]; [exact Hs|].
  match goal with
  | |- context [if ?b then _ else _] => destruct b
  end; exact Hs.
Qed.

(** X2: a batch sends exactly [count] requests, all the same, whether the
    members succeed, return no image or throw: no member is skipped or
    cancelled when another fails. *)
Theorem batch_request_count (prompt : string) (images : list File) (n : nat) (w : World) :
  Forall (fun f => Mime.plain (type f) = true) images ->
  requests (snd (runBatchGeneration prompt images n w))
  = requests w ++ repeat (Shape.surfaceRequest prompt images) n.
Proof.
  exact (runBatchGeneration_requests prompt images n w).
Qed.

Lemma batch_request_count_witness :
  let f := {| name := "oak.png"; type := "image/png"; bytes := [x4d; x61; x6e] |} in
  let w := Outcome.scripted [Rejects (ErrorObject "503")] in
  List.length (requests (snd (runBatchGeneration "lay it" [f] 3 w))) = 3.
Proof.
  intros f w.
  rewrite (batch_request_count "lay it" [f] 3 w) by (repeat constructor).
  reflexivity.
Defined.

End Requests.

(** ** Results of the generation client *)

Section Results.

Lemma join_values {A} (rs : list (Result A)) (l : list A) :
  join rs = inr l -> rs = map inr l.
Proof.
  revert l. induction rs as [|[e|a] rs IH]; intros l; simpl.
  - intros H. now injection H as <-.
  - discriminate.
  - destruct (join rs) as [e|l']; [discriminate|].
    intros H. injection H as <-. simpl. f_equal. now apply IH.
Qed.

Lemma images_length (results : list (option string)) :
  List.length (Outcome.images results) <= List.length results.
Proof.
  induction results as [|[u|] r IH]; simpl; lia.
Qed.

Lemma images_In (results : list (option string)) (u : string) :
  In u (Outcome.images results) -> In (Some u) results.
Proof.
  induction results as [|[v|] r IH]; simpl; intros H.
  - destruct H.
  - destruct H as [->|H]; [now left | right; now apply IH].
  - right. now apply IH.
Qed.

Lemma runBatchGeneration_bounds
  (prompt : string) (images : list File) (n : nat) (w : World) (urls : list string) :
  fst (runBatchGeneration prompt images n w) = inr urls ->
  urls <> [] /\ List.length urls <= n.
Proof.
  rewrite runBatchGeneration_run, settle_batch.
  set (rs := map _ (seq 0 n)).
  assert (Hlen : List.length rs = n) by (unfold rs; now rewrite length_map, length_seq).
  destruct (join rs) as [e|results] eqn:J; [discriminate|].
  apply join_values in J.
  destruct (List.length (Outcome.images results) =? 0)%nat eqn:E; [discriminate|].
  intros H. injection H as <-. apply Nat.eqb_neq in E. split.
  - intros H0. rewrite H0 in E. now apply E.
  - rewrite <- Hlen, J, length_map. apply images_length.
Qed.

(** The generation loop stops at the first part that carries an image. *)
Lemma firstInline_image (ps : list Part) (u : string) :
  firstInline ps = Some u ->
  exists d, Shape.firstImage ps d /\ u = dataUri d.
Proof.
  induction ps as [|p r IH]; simpl; [discriminate|].
  destruct (inlineData p) as [d|] eqn:Ep.
  - intros H. injection H as <-. exists d. split; [|reflexivity].
    exists [], p, r. repeat split; [constructor | exact Ep].
  - intros H. destruct (IH H) as [d [[pre [q [post [-> [Hpre Hq]]]]] ->]].
    exists d. split; [|reflexivity].
    exists (p :: pre), q, post. repeat split; [now constructor | exact Hq].
Qed.

Lemma surfaceResponse_image (r : GenerateContentResponse) (u : string) :
  surfaceResponse r = Some u ->
  exists ps d,
    Shape.firstParts r = Some ps /\ Shape.firstImage ps d /\ u = dataUri d.
Proof.
  unfold surfaceResponse, Shape.firstParts.
  destruct (candidates r) as [[|c cs]|]; try discriminate.
  destruct (content c) as [ct|]; try discriminate.
  destruct (parts ct) as [ps|]; try discriminate.
  intros H. destruct (firstInline_image ps u H) as [d [Hd ->]].
  now exists ps, d.
Qed.

(** X3: a batch that returns never returns an empty list nor more images
    than calls were made, and every image it returns is the data URI of an
    inline part that the backend sent: the first part with inline data of
    the first candidate of the response to one of the batch's requests.
    With a count of zero it always fails. *)
Theorem batch_result_bounds
  (prompt : string) (images : list File) (n : nat) (w : World) (urls : list string) :
  fst (runBatchGeneration prompt images n w) = inr urls ->
  urls <> []
  /\ List.length urls <= n
  /\ Forall (fun u =>
               exists i r ps d,
                 i < n
                 /\ backend w (List.length (requests w) + i) = Resolves r
                 /\ Shape.firstParts r = Some ps
                 /\ Shape.firstImage ps d
                 /\ u = dataUri d) urls.
Proof.
  intros Hrun.
  destruct (runBatchGeneration_bounds prompt images n w urls Hrun) as [Hne Hle].
  split; [exact Hne | split; [exact Hle|]].
  revert Hrun. rewrite runBatchGeneration_run, settle_batch.
  set (rs := map _ (seq 0 n)).
  destruct (join rs) as [e|results] eqn:J; [discriminate|].
  apply join_values in J.
  destruct (List.length (Outcome.images results) =? 0)%nat eqn:E; [discriminate|].
  intros H. injection H as <-.
  apply Forall_forall. intros u Hu. apply images_In in Hu.
  assert (Hin : In (inr (Some u)) rs) by (rewrite J; now apply in_map).
  unfold rs in Hin. apply in_map_iff in Hin. destruct Hin as [i [Hi Hseq]].
  apply in_seq in Hseq.
  destruct (backend w (List.length (requests w) + i)) as [e|r] eqn:Eb;
    simpl in Hi; [discriminate|].
  injection Hi as Hi.
  destruct (surfaceResponse_image r u Hi) as [ps [d [Hps [Hd ->]]]].
  exists i, r, ps, d. repeat split; try assumption. lia.
Qed.

Lemma batch_result_bounds_witness :
  let image :=
    Outcome.responseOf
      [textPart "here it is"; inlinePart (Some "AAAA") (Some "image/png")] in
  let w := Outcome.scripted [Resolves image; Resolves (Outcome.responseOf [])] in
  fst (runBatchGeneration "a prompt" [] 2 w) = inr ["data:image/png;base64,AAAA"]
  /\ Forall (fun u =>
               exists i r ps d,
                 i < 2
                 /\ backend w (List.length (requests w) + i) = Resolves r
                 /\ Shape.firstParts r = Some ps
                 /\ Shape.firstImage ps d
                 /\ u = dataUri d) ["data:image/png;base64,AAAA"].
Proof.
  intros image w.
  assert (Hrun : fst (runBatchGeneration "a prompt" [] 2 w)
                 = inr ["data:image/png;base64,AAAA"]) by reflexivity.
  split; [exact Hrun|].
  apply (batch_result_bounds "a prompt" [] 2 w ["data:image/png;base64,AAAA"] Hrun).
Defined.

(** The edit loop ends on the last part that carries an image. *)
Lemma editParts_image (ps : list Part) (u : string) :
  fst (editParts ps) = Some u ->
  exists d, Shape.lastImage ps d /\ u = dataUri d.
Proof.
  induction ps as [|p qs IH] using rev_ind; [discriminate|].
  rewrite editParts_app. cbn [fold_left]. unfold editStep at 1.
  destruct (inlineData p) as [d|] eqn:Ep.
  - intros H. injection H as <-. exists d. split; [|reflexivity].
    exists qs, p, []. repeat split; [exact Ep | constructor].
  - intros H.
    assert (Hq : fst (editParts qs) = Some u)
      by (now destruct (Js.truthy_opt (GeminiService.text p))).
    destruct (IH Hq) as [d [[pre [q [post [-> [Hd Hpost]]]]] ->]].
    exists d. split; [|reflexivity].
    exists pre, q, (post ++ [p]). repeat split.
    + now rewrite <- app_assoc.
    + exact Hd.
    + apply Forall_app. split; [exact Hpost | now constructor].
Qed.

(** Where the image of a successful edit comes from. *)
Lemma editImageWithPrompt_source
  (base64Image : option string) (mimeType prompt : string) (w : World)
  (imageUrl text : option string) :
  fst (editImageWithPrompt base64Image mimeType prompt w) = inr (imageUrl, text) ->
  exists r ps d,
    backend w (List.length (requests w)) = Resolves r
    /\ Shape.firstParts r = Some ps
    /\ Shape.lastImage ps d
    /\ imageUrl = Some (dataUri d).
Proof.
  unfold editImageWithPrompt, try_catch, bind, send.
  destruct (backend w (List.length (requests w))) as [[m|v]|resp]; simpl;
    try discriminate.
  unfold editResponse.
  destruct (candidates resp) as [[|c cs]|] eqn:Ec; simpl; try discriminate.
  destruct (content c) as [ct|] eqn:Ect; simpl; try discriminate.
  destruct (parts ct) as [ps|] eqn:Eps; simpl; try discriminate.
  assert (Hparts : Shape.firstParts resp = Some ps)
    by (unfold Shape.firstParts; now rewrite Ec, Ect).
  pose proof (editParts_image ps) as Hd.
  destruct (editParts ps) as [[u|] [t|]]; simpl;
    repeat match goal with
           | |- context [Js.truthy ?x] => destruct (Js.truthy x) eqn:?; simpl
           end; try discriminate;
    intros H; injection H as <- <-;
    destruct (Hd u eq_refl) as [d [Hl ->]];
    exists resp, ps, d; (split; [reflexivity|]);
    (split; [exact Hparts|]); (split; [exact Hl | reflexivity]).
Qed.

(** X4: whatever the backend does, the edit call either returns with an
    image that is the data URI of an inline part of the response (the last
    part with inline data of its first candidate; never a text-only
    success), or throws an [Error] object: a rejection with an [Error]
    passes through with its message, a rejection with any other value is
    replaced by a fixed message. *)
Theorem edit_outcomes
  (base64Image : option string) (mimeType prompt : string) (w : World) :
  let reply := backend w (List.length (requests w)) in
  let outcome := fst (editImageWithPrompt base64Image mimeType prompt w) in
  (forall imageUrl text,
      outcome = inr (imageUrl, text) ->
      exists r ps d,
        reply = Resolves r
        /\ Shape.firstParts r = Some ps
        /\ Shape.lastImage ps d
        /\ imageUrl = Some (dataUri d))
  /\ (forall e, outcome = inl e -> exists message, e = ErrorObject message)
  /\ (forall message,
         reply = Rejects (ErrorObject message) ->
         outcome = inl (ErrorObject message))
  /\ (forall value,
         reply = Rejects (NonError value) ->
         outcome = inl (ErrorObject
                          "An unknown error occurred while editing the image.")).
Proof.
  cbv zeta. split; [apply editImageWithPrompt_source|].
  unfold editImageWithPrompt, try_catch, bind, send.
  destruct (backend w (List.length (requests w))) as [[m|v]|resp]; simpl.
  - repeat split; intros; try discriminate.
    + eexists. match goal with H : inl _ = inl _ |- _ => injection H as <- end.
      reflexivity.
    + match goal with H : Rejects _ = Rejects _ |- _ => injection H as <- end.
      reflexivity.
  - repeat split; intros; try discriminate.
    eexists. match goal with H : inl _ = inl _ |- _ => injection H as <- end.
    reflexivity.
  - unfold editResponse.
    destruct (candidates resp) as [[|c cs]|]; simpl;
      try (repeat split; intros; try discriminate; eexists;
           match goal with H : inl _ = inl _ |- _ => injection H as <- end;
           reflexivity).
    destruct (content c) as [ct|]; simpl;
      try (repeat split; intros; try discriminate; eexists;
           match goal with H : inl _ = inl _ |- _ => injection H as <- end;
           reflexivity).
    destruct (parts ct) as [ps|]; simpl;
      try (repeat split; intros; try discriminate; eexists;
           match goal with H : inl _ = inl _ |- _ => injection H as <- end;
           reflexivity).
    destruct (editParts ps) as [[u|] [t|]]; simpl;
      repeat match goal with
             | |- context [Js.truthy ?x] => destruct (Js.truthy x) eqn:?; simpl
             end;
      repeat split; intros; try discriminate;
      eexists;
      match goal with H : inl _ = inl _ |- _ => injection H as <- end;
      reflexivity.
Qed.

Lemma edit_outcomes_witness :
  let response :=
    Outcome.responseOf
      [ inlinePart (Some "AAAA") (Some "image/png"); textPart "two versions";
        inlinePart (Some "BBBB") (Some "image/png") ] in
  let w := Outcome.scripted [Resolves response] in
  let refused := Outcome.scripted [Rejects (NonError "quota")] in
  (exists r ps d,
      backend w (List.length (requests w)) = Resolves r
      /\ Shape.firstParts r = Some ps
      /\ Shape.lastImage ps d
      /\ Some "data:image/png;base64,BBBB" = Some (dataUri d))
  /\ fst (editImageWithPrompt (Some "QUJD") "image/png" "make it darker" refused)
     = inl (ErrorObject "An unknown error occurred while editing the image.").
Proof.
  intros response w refused. split.
  - destruct (edit_outcomes (Some "QUJD") "image/png" "make it darker" w)
      as [H _].
    apply (H (Some "data:image/png;base64,BBBB") (Some "two versions")).
    reflexivity.
  - destruct (edit_outcomes (Some "QUJD") "image/png" "make it darker" refused)
      as [_ [_ [_ H]]].
    apply (H "quota"). reflexivity.
Defined.

(** X5: a response to an edit request with no candidate at all, or whose
    parts hold neither inline data nor a non-empty text, makes the edit
    call throw "The AI did not return an image for your edit request.". *)
Theorem edit_without_output
  (base64Image : option string) (mimeType prompt : string) (w : World)
  (response : GenerateContentResponse) :
  backend w (List.length (requests w)) = Resolves response ->
  candidates response = None
  \/ candidates response = Some []
  \/ (exists c cs ct ps,
        candidates response = Some (c :: cs)
        /\ content c = Some ct /\ parts ct = Some ps
        /\ Forall (fun q => inlineData q = None
                            /\ Js.truthy_opt (GeminiService.text q) = false) ps) ->
  fst (editImageWithPrompt base64Image mimeType prompt w)
  = inl (ErrorObject "The AI did not return an image for your edit request.").
Proof.
  intros Hb Hshape.
  unfold editImageWithPrompt, try_catch, bind, send. rewrite Hb.
  unfold editResponse.
  destruct Hshape as [->|[->|[c [cs [ct [ps [-> [Hc [Hp Hall]]]]]]]]];
    try reflexivity.
  rewrite Hc, Hp. simpl. unfold editParts.
  rewrite (edit_fold_no_text ps _ Hall). reflexivity.
Qed.

Lemma edit_without_output_witness :
  let w := Outcome.scripted
             [Resolves {| candidates := Some []; responseText := "nothing" |}] in
  fst (editImageWithPrompt (Some "AAAA") "image/png" "make it darker" w)
  = inl (ErrorObject "The AI did not return an image for your edit request.").
Proof.
  intro w.
  apply (edit_without_output (Some "AAAA") "image/png" "make it darker" w
           {| candidates := Some []; responseText := "nothing" |} eq_refl).
  right. left. reflexivity.
Defined.

End Results.

(** ** Instructions built from templates *)

Section Templates.

Lemma contains_here (part after : string) : Shape.contains (part +++ after) part.
Proof. exists EmptyString, after. reflexivity. Qed.

Lemma contains_whole (part : string) : Shape.contains part part.
Proof.
  exists EmptyString, EmptyString. simpl.
  induction part as [|c r IH]; simpl; [reflexivity|]. now rewrite <- IH.
Qed.

Lemma contains_later (a b part : string) :
  Shape.contains b part -> Shape.contains (a +++ b) part.
Proof.
  intros [before [after ->]]. exists (a +++ before), after.
  now rewrite append_associative.
Qed.

Lemma contains_sooner (a b part : string) :
  Shape.contains a part -> Shape.contains (a +++ b) part.
Proof.
  intros [before [after ->]]. exists before, (after +++ b).
  now rewrite !append_associative.
Qed.

End Templates.

Ltac find_part :=
  first
    [ apply contains_whole
    | apply contains_here
    | match goal with
      | |- Shape.contains (_ +++ _) _ =>
          first [ apply contains_sooner; find_part
                | apply contains_later; find_part ]
      end ].

(** X6: creating from an outline sends one request whose images are the
    outline first, then the materials in their order, then the reference
    when there is one, followed by an instruction that quotes the user's
    prompt verbatim. *)
Theorem outline_request_order
  (outline : File) (materials : list File) (reference : option File)
  (prompt : string) (w : World) :
  let images :=
    [outline] ++ materials
    ++ match reference with Some r => [r] | None => [] end in
  Forall (fun f => Mime.plain (type f) = true) images ->
  exists fullPrompt,
    requests (snd (createFromOutline outline materials reference prompt w))
    = requests w ++ [Shape.surfaceRequest fullPrompt images]
    /\ Shape.contains fullPrompt (quoted prompt).
Proof.
  intros images H. unfold createFromOutline. eexists. split.
  - apply generateSurfaceDesign_requests. exact H.
  - unfold template. cbn [String.concat]. find_part.
Qed.

Lemma outline_request_order_witness :
  let f := {| name := "o.png"; type := "image/png"; bytes := [x4d] |} in
  let g := {| name := "m.png"; type := "image/png"; bytes := [x61] |} in
  exists fullPrompt,
    requests (snd (createFromOutline f [g] None "gold edges" (Outcome.scripted [])))
    = [Shape.surfaceRequest fullPrompt [f; g]]
    /\ Shape.contains fullPrompt (quoted "gold edges").
Proof.
  intros f g.
  apply (outline_request_order f [g] None "gold edges" (Outcome.scripted [])).
  repeat constructor.
Defined.

(** ** Chat turns, in general *)

Section ChatTurns.

(** X7: parsing the data URI that the client built from an inline part
    gives back the MIME type and the payload of that part, when the MIME
    type has no comma, semicolon or line break and the payload no comma:
    an edit turn sends back what the backend had sent. *)
Theorem parse_generated_uri (d : InlineData) (m b : string) :
  GeminiService.mimeType d = Some m ->
  data d = Some b ->
  Mime.plain m = true ->
  Mime.every (fun c => negb (Ascii.eqb c ","%char)) b = true ->
  parseDataUrl (dataUri d) = inr (m, Some b).
Proof.
  intros Hm Hd Hp Hb. unfold parseDataUrl, dataUri. rewrite Hm, Hd.
  cbn [Js.interp]. rewrite (split_data_uri m b Hp Hb).
  cbn [hd nth_error]. now rewrite (match_mime_of m Hp).
Qed.

Lemma parse_generated_uri_witness :
  parseDataUrl "data:image/png;base64,AAAA" = inr ("image/png", Some "AAAA").
Proof.
  apply (parse_generated_uri
           {| data := Some "AAAA"; GeminiService.mimeType := Some "image/png" |}
           "image/png" "AAAA"); reflexivity.
Defined.

(** An edit attempt always ends with one more bot message and the typing
    indicator off; the image callback runs at most once. *)
Lemma handleEdit_shape
  (message currentImage : string) (cb : string -> AppState -> AppState)
  (successMessage : string) (s : AppState) (w : World) :
  exists i t,
    (fst (handleEdit message currentImage cb successMessage s w)
     = setIsBotTyping false
         (addMessage {| id := i; text := t; sender := bot |} s))
    \/ (exists u,
          fst (handleEdit message currentImage cb successMessage s w)
          = setIsBotTyping false
              (addMessage {| id := i; text := t; sender := bot |} (cb u s))).
Proof.
  unfold handleEdit, bind.
  destruct (parseDataUrl currentImage) as [e|[m b]]; cbn [fst snd].
  - eexists _, _. left. reflexivity.
  - destruct (editImageWithPrompt b m message w) as [[e|r] w1]; cbn [fst snd].
    + eexists _, _. left. reflexivity.
    + destruct (Js.truthy_opt (fst r)); cbn [fst snd].
      * eexists _, _. right. eexists. reflexivity.
      * eexists _, _. left. reflexivity.
Qed.

(** X8: with no configuration error and the dialogue session present,
    every chat turn, edit or not, appends exactly two messages, the user's
    text and then one bot turn, and ends with the typing indicator off; it
    never changes the active tab, the Extractor, the history caches or the
    export gallery. *)
Theorem chat_turn_appends_two (message : string) (s : AppState) (w : World) :
  Js.truthy_opt (apiKeyError s) = false ->
  chatRef (chatSt s) = true ->
  let s' := fst (handleSendMessage message s w) in
  (exists i j reply,
      messages (chatSt s')
      = messages (chatSt s)
        ++ [ {| id := i; text := message; sender := user |};
             {| id := j; text := reply; sender := bot |} ])
  /\ isBotTyping (chatSt s') = false
  /\ activeTab s' = activeTab s
  /\ extractorSt s' = extractorSt s
  /\ historySt s' = historySt s
  /\ exportSt s' = exportSt s.
Proof.
  intros Hkey Hchat s'. subst s'. unfold handleSendMessage. rewrite Hkey.
  destruct (tab_eqb (activeTab s) TabGenerator
            && hasImages (outputImages (generatorSt s))).
  - match goal with
    | |- context [handleEdit message ?img ?cb ?sm ?s1 w] =>
        destruct (handleEdit_shape message img cb sm s1 w) as [j [t [->|[u ->]]]]
    end; destruct s as [tab key g e pt ch hi ex]; cbn;
      (split; [eexists _, j, t; rewrite <- app_assoc; reflexivity
              | repeat split]).
  - destruct (tab_eqb (activeTab s) TabPattern
              && Js.truthy_opt (patternOutput (patternSt s))).
    + match goal with
      | |- context [handleEdit message ?img ?cb ?sm ?s1 w] =>
          destruct (handleEdit_shape message img cb sm s1 w) as [j [t [->|[u ->]]]]
      end; destruct s as [tab key g e pt ch hi ex]; cbn;
        (split; [eexists _, j, t; rewrite <- app_assoc; reflexivity
                | repeat split]).
    + rewrite Hchat. unfold send.
      destruct (backend w (List.length (requests w))) as [e|r];
        destruct s as [tab key g ex pt ch hi xp]; cbn;
        (split; [eexists _, _, _; rewrite <- app_assoc; reflexivity
                | repeat split]).
Qed.

Lemma chat_turn_appends_two_witness :
  let w := Outcome.scripted [Rejects (ErrorObject "503")] in
  let s' := fst (handleSendMessage "hello" initialState w) in
  isBotTyping (chatSt s') = false /\ exportSt s' = exportSt initialState.
Proof.
  intro w.
  destruct (chat_turn_appends_two "hello" initialState w eq_refl eq_refl)
    as [_ [Ht [_ [_ [_ Hx]]]]].
  split; [exact Ht | exact Hx].
Defined.

(** X9: a chat edit turn whose displayed image is not a data URL that
    [parseDataUrl] accepts sends nothing to the backend, leaves the three
    workflows as they were and answers "Invalid data URL format". *)
Theorem edit_turn_unparsable
  (message first : string) (rest : list string) (s : AppState) (w : World) :
  Js.truthy_opt (apiKeyError s) = false ->
  activeTab s = TabGenerator ->
  outputImages (generatorSt s) = Some (first :: rest) ->
  Js.match_colon_semicolon (hd EmptyString (Js.split ","%char first)) = None ->
  let r := handleSendMessage message s w in
  requests (snd r) = requests w
  /\ generatorSt (fst r) = generatorSt s
  /\ extractorSt (fst r) = extractorSt s
  /\ patternSt (fst r) = patternSt s
  /\ exists i j,
      messages (chatSt (fst r))
      = messages (chatSt s)
        ++ [ {| id := i; text := message; sender := user |};
             {| id := j; text := "Invalid data URL format"; sender := bot |} ].
Proof.
  intros Hkey Htab Hout Hno r. subst r.
  unfold handleSendMessage. rewrite Hkey, Htab, Hout.
  cbn [tab_eqb hasImages List.length Nat.ltb Nat.leb andb nth_error Js.interp].
  unfold handleEdit, bind, parseDataUrl. rewrite Hno. cbn [fst snd].
  destruct s as [tab key g e pt ch hi ex]. cbn.
  repeat split. eexists _, _. rewrite <- app_assoc. reflexivity.
Qed.

Lemma edit_turn_unparsable_witness :
  let s := setOutputImages (Some ["not a data url"]) initialState in
  requests (snd (handleSendMessage "darker" s (Outcome.scripted []))) = [].
Proof.
  intro s.
  apply (edit_turn_unparsable "darker" "not a data url" [] s (Outcome.scripted [])
           eq_refl eq_refl eq_refl eq_refl).
Defined.

End ChatTurns.

(** ** Submitting a workflow *)

Section Submit.

Lemma fold_set_add_prefix (l acc : list string) :
  exists t, fold_left Js.set_add l acc = acc ++ t.
Proof.
  revert acc. induction l as [|y r IH]; intros acc; simpl.
  - exists []. now rewrite app_nil_r.
  - unfold Js.set_add at 2. destruct (Js.includes acc y).
    + apply IH.
    + destruct (IH (acc ++ [y])) as [t ->]. exists (y :: t).
      now rewrite <- app_assoc.
Qed.

(** Whatever the cache held, the inserted value is at the front. *)
Lemma historyInsert_head (x : string) (h : list string) :
  hd_error (historyInsert x h) = Some x.
Proof.
  unfold historyInsert, Js.set_of. simpl. change (Js.set_add [] x) with [x].
  destruct (fold_set_add_prefix h [x]) as [t ->]. reflexivity.
Qed.

(** What [generatorRequest] awaits when it passes the validation. *)
Lemma generatorRequest_batch (s : AppState) (w : World) (urls : list string) :
  fst (generatorRequest s w) = inr urls ->
  exists prompt images,
    fst (runBatchGeneration prompt images (numberOfVariations (generatorSt s)) w)
    = inr urls.
Proof.
  unfold generatorRequest.
  destruct (generationMode (generatorSt s));
    destruct (file (renderShot (generatorSt s))) as [r|];
    try destruct (file (pattern (generatorSt s))) as [p|];
    try destruct (filesOf (materials (generatorSt s))) as [|m ms];
    try discriminate;
    unfold applyPatternAndMaterial, applyPatternOnly, applyMaterialOnly;
    intros H; eexists _, _; exact H.
Qed.

(** X10: with no configuration error, a Generator submit always ends with
    the loading flag off and with either a non-empty list of at most
    [numberOfVariations] output images and no error, or no output and an
    error message; the upload slots and the other workflows stay as they
    were. *)
Theorem generator_submit_outcome (s : AppState) (w : World) :
  Js.truthy_opt (apiKeyError s) = false ->
  let s' := fst (handleGeneratorSubmit s w) in
  let g' := generatorSt s' in
  loading g' = false
  /\ ((exists urls,
          urls <> []
          /\ List.length urls <= numberOfVariations (generatorSt s)
          /\ outputImages g' = Some urls /\ error g' = None)
      \/ (outputImages g' = None /\ exists m, error g' = Some m))
  /\ renderShot g' = renderShot (generatorSt s)
  /\ pattern g' = pattern (generatorSt s)
  /\ materials g' = materials (generatorSt s)
  /\ extractorSt s' = extractorSt s
  /\ patternSt s' = patternSt s
  /\ historySt s' = historySt s.
Proof.
  intros Hkey s' g'. subst g' s'. unfold handleGeneratorSubmit. rewrite Hkey.
  pose proof (generatorRequest_batch s w) as Hbatch.
  destruct (generatorRequest s w) as [[[m|d]|urls] w1]; cbn [fst] in Hbatch.
  - destruct s as [tab key g e pt ch hi ex]. cbn.
    repeat split. right. split; [reflexivity | now exists m].
  - destruct s as [tab key g e pt ch hi ex]. cbn.
    repeat split. right. split; [reflexivity | eexists; reflexivity].
  - destruct (Hbatch urls eq_refl) as [prompt [images Hrun]].
    destruct (runBatchGeneration_bounds _ _ _ _ _ Hrun) as [Hne Hle].
    destruct urls as [|u us]; [now contradiction Hne|].
    destruct s as [tab key g e pt ch hi ex]. cbn in Hle |- *.
    repeat split. left. exists (u :: us). repeat split; [discriminate | exact Hle].
Qed.

Lemma generator_submit_outcome_witness :
  loading (generatorSt (fst (handleGeneratorSubmit initialState
                               (Outcome.scripted [])))) = false.
Proof.
  apply (generator_submit_outcome initialState (Outcome.scripted []) eq_refl).
Defined.

(** X11: with no configuration error and a source image, an Extractor
    submit sends exactly one request and ends with the processing flag off
    and with either the processed image, no error, and that image at the
    front of the history cache of the extraction type, or no processed
    image, an error message and the history caches unchanged. *)
Theorem extractor_submit_outcome (s : AppState) (w : World) (source : File) :
  Js.truthy_opt (apiKeyError s) = false ->
  file (sourceImage (extractorSt s)) = Some source ->
  let r := handleProcessImage s w in
  let e' := extractorSt (fst r) in
  List.length (requests (snd r)) = S (List.length (requests w))
  /\ isProcessing e' = false
  /\ ((exists url,
          processedImage e' = Some url /\ processingError e' = None
          /\ hd_error
               (getHistory
                  match extractionType (extractorSt s) with
                  | ExtractPattern => HistPattern
                  | ExtractMaterial => HistMaterial
                  end (fst r)) = Some url)
      \/ (processedImage e' = None
          /\ (exists m, processingError e' = Some m)
          /\ historySt (fst r) = historySt s)).
Proof.
  intros Hkey Hsrc r e'. subst e' r. unfold handleProcessImage.
  rewrite Hkey, Hsrc. unfold extractAndProcessImage.
  match goal with
  | |- context [generateSurfaceDesign ?p ?imgs w] =>
      destruct (generateSurfaceDesign_run p imgs w) as [_ [Hq _]];
      destruct (generateSurfaceDesign p imgs w) as [[[m|d]|u] w1]
  end; cbn [fst snd] in Hq.
  - destruct s as [tab key g e pt ch hi ex]. cbn.
    split; [rewrite Hq, length_app; simpl; lia|].
    split; [reflexivity|]. right. repeat split. now exists m.
  - destruct s as [tab key g e pt ch hi ex]. cbn.
    split; [rewrite Hq, length_app; simpl; lia|].
    split; [reflexivity|]. right. repeat split. eexists; reflexivity.
  - destruct (Js.truthy_opt u) eqn:Eu.
    + destruct (extractionType (extractorSt s)) eqn:Et;
        destruct s as [tab key g e pt ch hi ex]; cbn in Et |- *;
        (split; [rewrite Hq, length_app; simpl; lia|]);
        (split; [reflexivity|]); left; eexists; repeat split;
        apply historyInsert_head.
    + destruct s as [tab key g e pt ch hi ex]. cbn.
      split; [rewrite Hq, length_app; simpl; lia|].
      split; [reflexivity|]. right. repeat split. eexists; reflexivity.
Qed.

Lemma extractor_submit_outcome_witness :
  let f := {| name := "wall.png"; type := "image/png"; bytes := [x4d] |} in
  let s := setSourceImage {| file := Some f; previewUrl := None |} initialState in
  let image := Outcome.responseOf [inlinePart (Some "AAAA") (Some "image/png")] in
  let r := handleProcessImage s (Outcome.scripted [Resolves image]) in
  List.length (requests (snd r)) = 1 /\ isProcessing (extractorSt (fst r)) = false.
Proof.
  intros f s image r.
  destruct (extractor_submit_outcome s (Outcome.scripted [Resolves image]) f
              eq_refl eq_refl) as [Hq [Hp _]].
  split; [exact Hq | exact Hp].
Defined.

(** X12: with no configuration error, an outline and at least one material
    entry, a Pattern Studio submit sends exactly one request and ends with
    the generating flag off and with either the new pattern, no error, and
    that pattern at the front of the pattern history, or no output, an
    error message and the history caches unchanged. *)
Theorem pattern_submit_outcome
  (s : AppState) (w : World) (outline : File) (m : ImageState) (ms : list ImageState) :
  Js.truthy_opt (apiKeyError s) = false ->
  file (patternOutline (patternSt s)) = Some outline ->
  patternMaterials (patternSt s) = m :: ms ->
  let r := handlePatternSubmit s w in
  let p' := patternSt (fst r) in
  List.length (requests (snd r)) = S (List.length (requests w))
  /\ isPatternGenerating p' = false
  /\ ((exists url,
          patternOutput p' = Some url /\ patternError p' = None
          /\ hd_error (getHistory HistPattern (fst r)) = Some url)
      \/ (patternOutput p' = None
          /\ (exists e, patternError p' = Some e)
          /\ historySt (fst r) = historySt s)).
Proof.
  intros Hkey Hout Hmat r p'. subst p' r. unfold handlePatternSubmit.
  rewrite Hkey, Hout, Hmat. rewrite <- Hmat. unfold createFromOutline.
  match goal with
  | |- context [generateSurfaceDesign ?p ?imgs w] =>
      destruct (generateSurfaceDesign_run p imgs w) as [_ [Hq _]];
      destruct (generateSurfaceDesign p imgs w) as [[[e|d]|u] w1]
  end; cbn [fst snd] in Hq.
  - destruct s as [tab key g ex pt ch hi xp]. cbn.
    split; [rewrite Hq, length_app; simpl; lia|].
    split; [reflexivity|]. right. repeat split. now exists e.
  - destruct s as [tab key g ex pt ch hi xp]. cbn.
    split; [rewrite Hq, length_app; simpl; lia|].
    split; [reflexivity|]. right. repeat split. eexists; reflexivity.
  - destruct (Js.truthy_opt u) eqn:Eu;
      destruct s as [tab key g ex pt ch hi xp]; cbn;
      (split; [rewrite Hq, length_app; simpl; lia|]);
      (split; [reflexivity|]).
    + left. eexists. repeat split. apply historyInsert_head.
    + right. repeat split. eexists; reflexivity.
Qed.

Lemma pattern_submit_outcome_witness :
  let f := {| name := "o.png"; type := "image/png"; bytes := [x4d] |} in
  let i := {| file := Some f; previewUrl := None |} in
  let s := setPatternMaterials [i] (setPatternOutline i initialState) in
  let r := handlePatternSubmit s (Outcome.scripted []) in
  List.length (requests (snd r)) = 1
  /\ isPatternGenerating (patternSt (fst r)) = false.
Proof.
  intros f i s r.
  destruct (pattern_submit_outcome s (Outcome.scripted []) f i [] eq_refl
              eq_refl eq_refl) as [Hq [Hp _]].
  split; [exact Hq | exact Hp].
Defined.

End Submit.

(** ** What a Generator submit sends *)

Section GeneratorRequests.

Lemma handleGeneratorSubmit_world (s : AppState) (w : World) :
  Js.truthy_opt (apiKeyError s) = false ->
  snd (handleGeneratorSubmit s w) = snd (generatorRequest s w).
Proof.
  intros Hkey. unfold handleGeneratorSubmit. rewrite Hkey.
  destruct (generatorRequest s w) as [[[m|d]|urls] w1]; cbn [snd];
    try reflexivity.
  now destruct (0 <? List.length urls)%nat.
Qed.

Lemma dimensionsOf_truthy (width height : string) (unit : TileUnit) (d : string) :
  dimensionsOf width height unit = Some d ->
  Js.truthy d = true /\ d = width +++ " x " +++ height +++ " " +++ unitName unit.
Proof.
  unfold dimensionsOf. destruct (Js.truthy width) eqn:Ew; [|discriminate].
  destruct (Js.truthy height); [|discriminate]. simpl.
  intros H. injection H as <-. split; [|reflexivity].
  destruct width; [discriminate | reflexivity].
Qed.

Lemma tileInstruction_contains (o : option string) (d : string) :
  o = Some d -> Js.truthy d = true ->
  Shape.contains (tileInstruction o) d.
Proof.
  intros -> Hd. unfold tileInstruction. cbn [Js.truthy_opt Js.interp].
  rewrite Hd. find_part.
Qed.

(** X13: with no configuration error and the required slots filled, a
    Generator submit sends exactly [numberOfVariations] identical requests.
    Their images are, in this order, the render shot, then the pattern in
    the two pattern modes, then the materials in the two material modes;
    whatever else is uploaded is left out.  In the two pattern modes the
    instruction holds the text [width x height unit] when both sizes are
    given. *)
Theorem generator_submit_requests (s : AppState) (w : World) (r : File) :
  Js.truthy_opt (apiKeyError s) = false ->
  file (renderShot (generatorSt s)) = Some r ->
  let g := generatorSt s in
  let sent := requests (snd (handleGeneratorSubmit s w)) in
  let n := numberOfVariations g in
  let plain := Forall (fun f => Mime.plain (type f) = true) in
  let sized prompt :=
    forall d, dimensionsOf (tileWidth g) (tileHeight g) (tileUnit g) = Some d ->
              Shape.contains prompt d in
  match generationMode g with
  | PatternAndMaterial =>
      forall p, file (pattern g) = Some p ->
      filesOf (materials g) <> [] ->
      plain (r :: p :: filesOf (materials g)) ->
      exists prompt,
        sent = requests w
               ++ repeat (Shape.surfaceRequest prompt
                            (r :: p :: filesOf (materials g))) n
        /\ sized prompt
  | PatternOnly =>
      forall p, file (pattern g) = Some p ->
      plain [r; p] ->
      exists prompt,
        sent = requests w ++ repeat (Shape.surfaceRequest prompt [r; p]) n
        /\ sized prompt
  | MaterialOnly =>
      filesOf (materials g) <> [] ->
      plain (r :: filesOf (materials g)) ->
      exists prompt,
        sent = requests w
               ++ repeat (Shape.surfaceRequest prompt
                            (r :: filesOf (materials g))) n
  end.
Proof.
  intros Hkey Hr. cbv zeta. rewrite (handleGeneratorSubmit_world s w Hkey).
  unfold generatorRequest. rewrite Hr.
  destruct (generationMode (generatorSt s)).
  - intros p Hp Hm Hplain. rewrite Hp.
    destruct (filesOf (materials (generatorSt s))) as [|m ms] eqn:Em;
      [now contradiction Hm|].
    unfold applyPatternAndMaterial. eexists. split.
    + apply (runBatchGeneration_requests _ (r :: p :: m :: ms)). exact Hplain.
    + intros d Hd. destruct (dimensionsOf_truthy _ _ _ _ Hd) as [Ht _].
      pose proof (tileInstruction_contains _ d Hd Ht) as Hc.
      unfold template. cbn [String.concat].
      do 12 apply contains_later. apply contains_sooner.
      apply contains_later. exact Hc.
  - intros p Hp Hplain. rewrite Hp.
    unfold applyPatternOnly. eexists. split.
    + apply (runBatchGeneration_requests _ [r; p]). exact Hplain.
    + intros d Hd. destruct (dimensionsOf_truthy _ _ _ _ Hd) as [Ht _].
      pose proof (tileInstruction_contains _ d Hd Ht) as Hc.
      unfold template. cbn [String.concat].
      do 10 apply contains_later. apply contains_sooner.
      apply contains_later. exact Hc.
  - intros Hm Hplain.
    destruct (filesOf (materials (generatorSt s))) as [|m ms] eqn:Em;
      [now contradiction Hm|].
    unfold applyMaterialOnly. eexists.
    apply (runBatchGeneration_requests _ (r :: m :: ms)). exact Hplain.
Qed.

End GeneratorRequests.

Lemma generator_submit_requests_witness :
  let r := {| name := "room.png"; type := "image/png"; bytes := [x4d] |} in
  let p := {| name := "tile.png"; type := "image/png"; bytes := [x61] |} in
  let s :=
    setTileHeight "30" (setTileWidth "60"
      (setGenerationMode PatternOnly
         (setPattern {| file := Some p; previewUrl := None |}
            (setRenderShot {| file := Some r; previewUrl := None |}
               initialState)))) in
  exists prompt,
    requests (snd (handleGeneratorSubmit s (Outcome.scripted [])))
    = [Shape.surfaceRequest prompt [r; p]]
    /\ Shape.contains prompt "60 x 30 cm".
Proof.
  intros r p s.
  destruct (generator_submit_requests s (Outcome.scripted []) r eq_refl eq_refl
              p eq_refl) as [prompt [Hq Hd]].
  - repeat constructor.
  - exists prompt. split; [exact Hq | apply Hd; reflexivity].
Defined.

(** ** Buttons and slots *)

Section Slots.

(** X14: with no configuration error and nothing in flight, whenever the
    submit button of a workflow is disabled, the submit handler of that
    workflow would send nothing and set a validation message: the handlers
    refuse at least what the buttons refuse. *)
Theorem disabled_button_refuses (s : AppState) (w : World) :
  Js.truthy_opt (apiKeyError s) = false ->
  (loading (generatorSt s) = false ->
   getIsGeneratorButtonDisabled s = true ->
   snd (handleGeneratorSubmit s w) = w
   /\ exists m, error (generatorSt (fst (handleGeneratorSubmit s w))) = Some m)
  /\ (isProcessing (extractorSt s) = false ->
      getIsExtractorButtonDisabled s = true ->
      snd (handleProcessImage s w) = w
      /\ exists m,
          processingError (extractorSt (fst (handleProcessImage s w))) = Some m)
  /\ (isPatternGenerating (patternSt s) = false ->
      getIsPatternButtonDisabled s = true ->
      snd (handlePatternSubmit s w) = w
      /\ exists m,
          patternError (patternSt (fst (handlePatternSubmit s w))) = Some m).
Proof.
  intros Hkey. split; [|split].
  - intros Hload. unfold getIsGeneratorButtonDisabled, handleGeneratorSubmit,
      generatorRequest.
    rewrite Hkey, Hload. cbn [orb].
    destruct (generationMode (generatorSt s));
      destruct (file (renderShot (generatorSt s))) as [r|];
      try destruct (file (pattern (generatorSt s))) as [p|];
      try destruct (materials (generatorSt s)) as [|m ms];
      cbn; intros H; try discriminate;
      (split; [reflexivity | eexists; reflexivity]).
  - intros Hproc. unfold getIsExtractorButtonDisabled, handleProcessImage.
    rewrite Hkey, Hproc.
    destruct (file (sourceImage (extractorSt s))) as [f|]; cbn;
      intros H; try discriminate.
    split; [reflexivity | eexists; reflexivity].
  - intros Hgen. unfold getIsPatternButtonDisabled, handlePatternSubmit.
    rewrite Hkey, Hgen.
    destruct (file (patternOutline (patternSt s))) as [f|];
      destruct (patternMaterials (patternSt s)) as [|m ms]; cbn;
      intros H; try discriminate;
      (split; [reflexivity | eexists; reflexivity]).
Qed.

Lemma disabled_button_refuses_witness :
  snd (handleProcessImage initialState (Outcome.scripted []))
  = Outcome.scripted [].
Proof.
  destruct (disabled_button_refuses initialState (Outcome.scripted []) eq_refl)
    as [_ [H _]].
  apply (H eq_refl eq_refl).
Defined.

Lemma blob_prefix (x : string) : String.prefix "blob:" ("blob:" +++ x) = true.
Proof. apply String.prefix_correct. simpl. now destruct x. Qed.

(** X15: selecting an image into a slot fills that slot with the file and
    a [blob:] preview, leaves the four other slots as they were, and
    clears the output and the error of all three workflows, not only of
    the workflow the slot belongs to. *)
Theorem image_select_resets (f : File) (slot : ImageSlot)
  (o : option HistoryType) (s : AppState) (w : World) :
  let s' := fst (handleImageSelect f slot o s w) in
  file (getSlot slot s') = Some f
  /\ (exists url, previewUrl (getSlot slot s') = Some url
                  /\ String.prefix "blob:" url = true)
  /\ (forall other, slot_eqb other slot = false ->
                    getSlot other s' = getSlot other s)
  /\ outputImages (generatorSt s') = None
  /\ error (generatorSt s') = None
  /\ processedImage (extractorSt s') = None
  /\ processingError (extractorSt s') = None
  /\ patternOutput (patternSt s') = None
  /\ patternError (patternSt s') = None.
Proof.
  cbv zeta. destruct s as [tab key g e pt ch hi ex].
  destruct slot, o as [[]|];
    (split; [reflexivity|]);
    (split; [eexists; split; [reflexivity | apply blob_prefix]|]);
    (split; [intros [] H; simpl in H; try discriminate H; reflexivity|]);
    repeat split.
Qed.

(** X16: removing the image of a slot empties that slot, leaves the other
    slots as they were, and clears the output and the error of all three
    workflows. *)
Theorem image_remove_resets (slot : ImageSlot) (s : AppState) (w : World) :
  let s' := fst (handleImageRemove slot s w) in
  getSlot slot s' = noImage
  /\ (forall other, slot_eqb other slot = false ->
                    getSlot other s' = getSlot other s)
  /\ outputImages (generatorSt s') = None
  /\ error (generatorSt s') = None
  /\ processedImage (extractorSt s') = None
  /\ processingError (extractorSt s') = None
  /\ patternOutput (patternSt s') = None
  /\ patternError (patternSt s') = None
  /\ historySt s' = historySt s.
Proof.
  cbv zeta. destruct s as [tab key g e pt ch hi ex].
  destruct slot;
    (split; [reflexivity|]);
    (split; [intros [] H; simpl in H; try discriminate H; reflexivity|]);
    repeat split.
Qed.

End Slots.

(** ** Object URLs *)

Section ObjectUrls.

Lemma to_uint_nonnil (n : nat) : Nat.to_uint n <> Decimal.Nil.
Proof.
  intros H. pose proof (DecimalNat.Unsigned.of_to n) as Hn.
  rewrite H in Hn. simpl in Hn. subst n. discriminate H.
Qed.

Lemma decimal_injective (a b : nat) : decimal a = decimal b -> a = b.
Proof.
  unfold decimal. intros H.
  apply (f_equal DecimalString.NilZero.uint_of_string) in H.
  rewrite !DecimalString.NilZero.usu in H by apply to_uint_nonnil.
  injection H as H. now apply DecimalNat.Unsigned.to_uint_inj.
Qed.

Lemma fresh_url_not_live (w : World) :
  Shape.urlsMinted w -> ~ In ("blob:" +++ decimal (minted w)) (objectUrls w).
Proof.
  intros Hm Hin. unfold Shape.urlsMinted in Hm. rewrite Forall_forall in Hm.
  destruct (Hm _ Hin) as [k [Hk He]]. simpl in He.
  injection He as He. apply decimal_injective in He. lia.
Qed.

Lemma filter_out_absent (url : string) (l : list string) :
  ~ In url l -> filter (fun u => negb (String.eqb u url)) l = l.
Proof. apply filter_other_absent. Qed.

Lemma releasePreview_minted (i : ImageState) (w : World) :
  minted (releasePreview i w) = minted w
  /\ (forall u, In u (objectUrls (releasePreview i w)) -> In u (objectUrls w)).
Proof.
  unfold releasePreview. destruct (previewUrl i) as [url|]; [|now split].
  destruct (Js.truthy url && String.prefix "blob:" url); [|now split].
  split; [reflexivity|]. simpl. intros u Hu.
  apply filter_In in Hu. now destruct Hu.
Qed.

Lemma releasePreview_keeps_minted (i : ImageState) (w : World) :
  Shape.urlsMinted w -> Shape.urlsMinted (releasePreview i w).
Proof.
  intros H. destruct (releasePreview_minted i w) as [Hn Hsub].
  unfold Shape.urlsMinted in *. rewrite Hn. rewrite Forall_forall in *.
  intros u Hu. apply H, Hsub, Hu.
Qed.

Lemma handleImageSelect_world
  (f : File) (slot : ImageSlot) (o : option HistoryType) (s : AppState) (w : World) :
  snd (handleImageSelect f slot o s w)
  = snd (createObjectURL (releasePreview (getSlot slot s) w)).
Proof. destruct o; reflexivity. Qed.

Lemma handleImageSelect_slot
  (f : File) (slot : ImageSlot) (o : option HistoryType) (s : AppState) (w : World) :
  getSlot slot (fst (handleImageSelect f slot o s w))
  = {| file := Some f;
       previewUrl :=
         Some ("blob:" +++ decimal (minted (releasePreview (getSlot slot s) w))) |}.
Proof. destruct s, slot, o as [[]|]; reflexivity. Qed.

(** X17: when every live object URL was handed out by [createObjectURL],
    the URL made for a selected image is live while the image is in its
    slot, and removing the image revokes it: after select and remove, the
    live URLs are those left by releasing the preview that the slot held
    before.  A live [blob:] preview that the slot held before the selection
    is no longer live after it. *)
Theorem select_then_remove_releases
  (f : File) (slot : ImageSlot) (o : option HistoryType) (s : AppState) (w : World) :
  Shape.urlsMinted w ->
  let selected := handleImageSelect f slot o s w in
  let removed := handleImageRemove slot (fst selected) (snd selected) in
  (exists url,
      previewUrl (getSlot slot (fst selected)) = Some url
      /\ In url (objectUrls (snd selected)))
  /\ objectUrls (snd removed)
     = objectUrls (releasePreview (getSlot slot s) w)
  /\ Shape.urlsMinted (snd removed)
  /\ (forall old,
         previewUrl (getSlot slot s) = Some old ->
         String.prefix "blob:" old = true ->
         In old (objectUrls w) ->
         ~ In old (objectUrls (snd selected))).
Proof.
  intros Hm. cbv zeta.
  pose proof (releasePreview_keeps_minted (getSlot slot s) w Hm) as Hm1.
  pose proof (fresh_url_not_live _ Hm1) as Hfresh.
  unfold handleImageRemove. cbn [snd].
  rewrite handleImageSelect_slot, handleImageSelect_world.
  set (w1 := releasePreview (getSlot slot s) w) in *.
  set (url := "blob:" +++ decimal (minted w1)) in *.
  assert (Hrel : releasePreview {| file := Some f; previewUrl := Some url |}
                   (snd (createObjectURL w1))
                 = revokeObjectURL url (snd (createObjectURL w1))).
  { unfold releasePreview. cbn [previewUrl]. unfold url at 2.
    now rewrite blob_prefix. }
  rewrite Hrel. clear Hrel.
  assert (Hlist : objectUrls (revokeObjectURL url (snd (createObjectURL w1)))
                  = objectUrls w1).
  { cbn [createObjectURL snd revokeObjectURL withObjectUrls objectUrls filter].
    fold url. rewrite String.eqb_refl. cbn [negb].
    now apply filter_out_absent. }
  split; [|split; [|split]].
  - exists url. split; [reflexivity|]. cbn. now left.
  - exact Hlist.
  - unfold Shape.urlsMinted in *. rewrite Hlist. cbn [minted revokeObjectURL
      createObjectURL snd withObjectUrls]. rewrite Forall_forall in *.
    intros u Hu. destruct (Hm1 u Hu) as [k [Hk He]]. exists k. split; [lia|exact He].
  - intros old Hold Hblob Hlive Hin.
    cbn [createObjectURL snd withObjectUrls objectUrls] in Hin.
    destruct Hin as [Heq|Hin].
    + unfold Shape.urlsMinted in Hm. rewrite Forall_forall in Hm.
      destruct (Hm old Hlive) as [k [Hk He]]. rewrite He in Heq.
      unfold url in Heq. simpl in Heq. injection Heq as Heq.
      apply decimal_injective in Heq.
      destruct (releasePreview_minted (getSlot slot s) w) as [Hn _].
      fold w1 in Hn. lia.
    + unfold w1, releasePreview in Hin. rewrite Hold in Hin.
      assert (Ht : Js.truthy old = true).
      { destruct old; [discriminate Hblob | reflexivity]. }
      rewrite Ht, Hblob in Hin. cbn in Hin.
      apply filter_In in Hin. destruct Hin as [_ Hne].
      rewrite String.eqb_refl in Hne. discriminate.
Qed.

Lemma select_then_remove_releases_witness :
  let f := {| name := "oak.png"; type := "image/png"; bytes := [x4d] |} in
  let w := Outcome.scripted [] in
  let selected := handleImageSelect f SlotRenderShot None initialState w in
  objectUrls (snd selected) = ["blob:0"]
  /\ objectUrls (snd (handleImageRemove SlotRenderShot (fst selected) (snd selected)))
     = [].
Proof.
  intros f w selected.
  assert (Hm : Shape.urlsMinted w) by constructor.
  destruct (select_then_remove_releases f SlotRenderShot None initialState w Hm)
    as [_ [H _]].
  split; [reflexivity | exact H].
Defined.

End ObjectUrls.

(** ** Removing by position *)

Section Removal.

Lemma splice1_removed {A} (i : nat) (l : list A) :
  nth_error (fst (Js.splice1 i l)) 0 = nth_error l i.
Proof.
  unfold Js.splice1. cbn [fst].
  revert l. induction i as [|i IH]; intros [|x l]; try reflexivity.
  cbn [skipn nth_error]. apply IH.
Qed.

Lemma length_without {A} (i : nat) (l : list A) :
  i < List.length l ->
  S (List.length (firstn i l ++ skipn (S i) l)) = List.length l.
Proof.
  intros H. rewrite length_app, length_firstn, length_skipn. lia.
Qed.

(** X18: removing the material at a position of the Generator's list gives
    the list without that one entry, the others in their order, and
    releases the preview of the removed entry; the render shot, the
    pattern and, unlike the removal of a slot image, the output images
    stay.  A position outside the list makes the handler throw. *)
Theorem material_remove (index : nat) (s : AppState) (w : World) :
  let ms := materials (generatorSt s) in
  (forall m, nth_error ms index = Some m ->
     exists s',
       handleGeneratorMaterialRemove index s w = inr (s', releasePreview m w)
       /\ materials (generatorSt s') = firstn index ms ++ skipn (S index) ms
       /\ S (List.length (materials (generatorSt s'))) = List.length ms
       /\ outputImages (generatorSt s') = outputImages (generatorSt s)
       /\ renderShot (generatorSt s') = renderShot (generatorSt s)
       /\ pattern (generatorSt s') = pattern (generatorSt s))
  /\ (List.length ms <= index ->
      handleGeneratorMaterialRemove index s w = inl noPreviewError).
Proof.
  cbv zeta. unfold handleGeneratorMaterialRemove.
  pose proof (splice1_removed index (materials (generatorSt s))) as Hr.
  destruct (Js.splice1 index (materials (generatorSt s))) as [removed rest] eqn:E.
  cbn [fst] in Hr. unfold Js.splice1 in E. injection E as _ Hrest.
  split.
  - intros m Hm. rewrite Hr, Hm. eexists. split; [reflexivity|].
    assert (Hlt : index < List.length (materials (generatorSt s)))
      by (apply nth_error_Some; congruence).
    subst rest. destruct s as [tab key g e pt ch hi ex]. cbn in *.
    repeat split. now apply length_without.
  - intros Hle. apply nth_error_None in Hle. now rewrite Hr, Hle.
Qed.

Lemma material_remove_witness :
  let a := {| file := None; previewUrl := Some "blob:0" |} in
  let b := {| file := None; previewUrl := Some "blob:1" |} in
  let s := setMaterials [a; b] initialState in
  exists s',
    handleGeneratorMaterialRemove 0 s (Outcome.scripted [])
    = inr (s', releasePreview a (Outcome.scripted []))
    /\ materials (generatorSt s') = [b].
Proof.
  intros a b s.
  destruct (material_remove 0 s (Outcome.scripted [])) as [H _].
  destruct (H a eq_refl) as [s' [Hr [Hm _]]].
  exists s'. split; [exact Hr | exact Hm].
Defined.

Lemma removeAt_parts (i : nat) (l : list string) :
  removeAt i l = firstn i l ++ skipn (S i) l.
Proof.
  revert i. induction l as [|x l IH]; intros [|i]; try reflexivity.
  cbn [removeAt firstn skipn app]. f_equal. apply IH.
Qed.

Lemma In_first {A} (i : nat) (l : list A) (x : A) :
  In x (firstn i l) -> In x l.
Proof.
  intros H. rewrite <- (firstn_skipn i l). apply in_or_app. now left.
Qed.

Lemma In_rest {A} (i : nat) (l : list A) (x : A) :
  In x (skipn i l) -> In x l.
Proof.
  intros H. rewrite <- (firstn_skipn i l). apply in_or_app. now right.
Qed.

Lemma NoDup_without {A} (i : nat) (l : list A) :
  NoDup l -> NoDup (firstn i l ++ skipn (S i) l).
Proof.
  revert i. induction l as [|x l IH]; intros i H.
  - now destruct i.
  - inversion H as [|x' l' Hx Hl]; subst. destruct i as [|i]; [exact Hl|].
    cbn [firstn skipn app]. constructor; [|now apply IH].
    intros Hin. apply Hx. apply in_app_or in Hin.
    destruct Hin as [Hin|Hin].
    + eapply In_first. exact Hin.
    + apply (In_rest (S i)). exact Hin.
Qed.

(** X19: deleting an exported image by position removes exactly the entry
    at that position: the entries before and after it stay, in their
    order; a position outside the gallery changes nothing; a gallery
    without duplicates stays without duplicates. *)
Theorem delete_exported (index : nat) (s : AppState) :
  let prev := exportedImages (exportSt s) in
  let next := exportedImages (exportSt (handleDeleteExportedImage index s)) in
  next = firstn index prev ++ skipn (S index) prev
  /\ (index < List.length prev -> S (List.length next) = List.length prev)
  /\ (List.length prev <= index -> next = prev)
  /\ (NoDup prev -> NoDup next).
Proof.
  cbv zeta. destruct s as [tab key g e pt ch hi ex]. cbn.
  rewrite removeAt_parts. repeat split.
  - apply length_without.
  - intros Hle. rewrite firstn_all2 by exact Hle.
    rewrite skipn_all2 by lia. apply app_nil_r.
  - apply NoDup_without.
Qed.

Lemma NoDup_exportInsert (x : string) (prev : list string) :
  NoDup prev -> NoDup (exportInsert x prev).
Proof.
  intros H. unfold exportInsert. destruct (Js.includes prev x) eqn:E.
  - exact H.
  - constructor; [now apply includes_not_In | exact H].
Qed.

(** X20: exporting keeps a gallery without duplicates without duplicates
    and leaves the exported image in the gallery; exporting an image that
    is new and then deleting position 0 gives the gallery back. *)
Theorem export_keeps_distinct (x : string) (s : AppState) :
  let prev := exportedImages (exportSt s) in
  let next := exportedImages (exportSt (handleExportImage x s)) in
  In x next
  /\ (NoDup prev -> NoDup next)
  /\ (~ In x prev ->
      exportedImages
        (exportSt (handleDeleteExportedImage 0 (handleExportImage x s))) = prev).
Proof.
  cbv zeta. destruct s as [tab key g e pt ch hi ex]. cbn.
  split; [|split].
  - unfold exportInsert. destruct (Js.includes _ x) eqn:E.
    + now apply includes_In.
    + now left.
  - apply NoDup_exportInsert.
  - intros Hn. apply includes_not_In in Hn. unfold exportInsert.
    now rewrite Hn.
Qed.

End Removal.

(** ** Sending a result to the Generator *)

Section SendToGenerator.

(** X21: "Send to Generator" from the Extractor switches to the Generator
    in the mode of the extraction type and clears the Extractor.  Because
    the effect on [generationMode] resets the Generator's upload slots
    whenever the mode has changed, the image sent is in its slot afterwards
    only when the Generator was in that mode already; otherwise the render
    shot, the pattern and the materials are all empty. *)
Theorem send_to_generator
  (url : string) (type : ExtractionType) (s : AppState) (w : World)
  (imageFile : File) :
  activeTab s = TabExtractor ->
  url <> EmptyString ->
  dataURLtoFile url
    ("processed_" +++ Js.toLowerCase (extractionName type) +++ "_"
     +++ Js.of_Z (now w) +++ ".png") = inr imageFile ->
  let target :=
    match type with
    | ExtractPattern => PatternOnly
    | ExtractMaterial => MaterialOnly
    end in
  let sent := {| file := Some imageFile; previewUrl := Some url |} in
  exists after,
    handleSendToGenerator (Some url) type s w = inr (after, w)
    /\ let final := generatorSt (runEffects s after) in
       activeTab (runEffects s after) = TabGenerator
       /\ generationMode final = target
       /\ processedImage (extractorSt (runEffects s after)) = None
       /\ (generationMode (generatorSt s) = target ->
           match type with
           | ExtractPattern => pattern final = sent /\ materials final = []
           | ExtractMaterial => materials final = [sent] /\ pattern final = noImage
           end)
       /\ (generationMode (generatorSt s) <> target ->
           renderShot final = noImage /\ pattern final = noImage
           /\ materials final = []).
Proof.
  intros Htab Hurl Hfile. cbv zeta. unfold handleSendToGenerator.
  assert (Ht : Js.truthy url = true) by (destruct url; [contradiction | reflexivity]).
  cbn [Js.truthy_opt Js.interp]. rewrite Ht. cbn [negb]. rewrite Hfile.
  destruct s as [tab key g e pt ch hi ex]. cbn in Htab. subst tab.
  destruct g as [st mode rs pat mats out ld err tw th tu nv].
  destruct type; eexists; (split; [reflexivity|]);
    destruct mode; cbn; repeat split; intros; try reflexivity; congruence.
Qed.

Lemma send_to_generator_witness :
  let s := setProcessedImage (Some "data:image/png;base64,TWFu")
             (setActiveTab TabExtractor initialState) in
  let w := Outcome.scripted [] in
  exists after,
    handleSendToGenerator (Some "data:image/png;base64,TWFu") ExtractPattern s w
    = inr (after, w)
    /\ pattern (generatorSt after) <> noImage
    /\ pattern (generatorSt (runEffects s after)) = noImage.
Proof.
  intros s w.
  assert (Hne : "data:image/png;base64,TWFu" <> EmptyString) by discriminate.
  destruct (send_to_generator "data:image/png;base64,TWFu" ExtractPattern s w
              {| name := "processed_pattern_1000.png"; type := "image/png";
                 bytes := [x4d; x61; x6e] |} eq_refl Hne eq_refl)
    as [after [Hr [_ [_ [_ [_ Hlost]]]]]].
  exists after. split; [exact Hr|]. split.
  - injection Hr as <-. discriminate.
  - apply Hlost. discriminate.
Defined.

(** X22: "Send to Generator" from the Pattern Studio switches to the
    Generator in pattern-only mode and puts the pattern at the front of
    the pattern history; the pattern is in the Generator's pattern slot
    afterwards only when the Generator was in pattern-only mode already,
    otherwise the slot is empty. *)
Theorem send_pattern_to_generator
  (url : string) (s : AppState) (w : World) (imageFile : File) :
  activeTab s = TabPattern ->
  url <> EmptyString ->
  dataURLtoFile url ("pattern_studio_" +++ Js.of_Z (now w) +++ ".png")
  = inr imageFile ->
  exists after w',
    handleSendPatternToGenerator (Some url) s w = inr (after, w')
    /\ let final := runEffects s after in
       activeTab final = TabGenerator
       /\ generationMode (generatorSt final) = PatternOnly
       /\ patternOutput (patternSt final) = None
       /\ hd_error (patternHistory (historySt final))
          = Some (readAsDataURL imageFile)
       /\ (generationMode (generatorSt s) = PatternOnly ->
           file (pattern (generatorSt final)) = Some imageFile)
       /\ (generationMode (generatorSt s) <> PatternOnly ->
           pattern (generatorSt final) = noImage).
Proof.
  intros Htab Hurl Hfile. unfold handleSendPatternToGenerator.
  assert (Ht : Js.truthy url = true) by (destruct url; [contradiction | reflexivity]).
  cbn [Js.truthy_opt Js.interp]. rewrite Ht. cbn [negb]. rewrite Hfile.
  pose proof (handleImageSelect_history imageFile SlotPattern HistPattern s w) as Hh.
  destruct s as [tab key g e pt ch hi ex]. cbn in Htab. subst tab.
  destruct g as [st mode rs pat mats out ld err tw th tu nv].
  unfold handleImageSelect in *. cbn [createObjectURL fileToDataURL ret] in *.
  cbv zeta in *. cbn [fst snd] in Hh.
  eexists _, _. split; [reflexivity|].
  destruct mode; unfold runEffects; cbn -[historyInsert readAsDataURL];
    repeat split; intros; try reflexivity; try apply historyInsert_head;
    congruence.
Qed.

Lemma send_pattern_to_generator_witness :
  let s := setPatternOutput (Some "data:image/png;base64,TWFu")
             (setActiveTab TabPattern initialState) in
  let w := Outcome.scripted [] in
  exists after w',
    handleSendPatternToGenerator (Some "data:image/png;base64,TWFu") s w
    = inr (after, w')
    /\ pattern (generatorSt (runEffects s after)) = noImage.
Proof.
  intros s w.
  assert (Hne : "data:image/png;base64,TWFu" <> EmptyString) by discriminate.
  destruct (send_pattern_to_generator "data:image/png;base64,TWFu" s w
              {| name := "pattern_studio_1000.png"; type := "image/png";
                 bytes := [x4d; x61; x6e] |} eq_refl Hne eq_refl)
    as [after [w' [Hr [_ [_ [_ [_ [_ Hlost]]]]]]]].
  exists after, w'. split; [exact Hr|]. apply Hlost. discriminate.
Defined.

End SendToGenerator.

(** ** Picking from a history cache *)

Section HistorySelect.

(** X23: picking from the open history modal an entry that an upload of
    file [f] left there, the MIME type of [f] holding no comma, semicolon
    or line break, gives a copy of [f] under a new name with the same
    bytes; the copy has the MIME type of [f] when [f] has one and it is
    written as the File API keeps types, and [application/octet-stream]
    when [f] has none.  The data URL itself is the preview.  The copy goes
    to the render-shot slot or the pattern slot of the Generator, or is
    appended to the materials of the Pattern Studio when that tab is
    active, or is appended to the Generator's materials with a [blob:]
    preview and moved to the front of the material history.  The modal
    closes and the Generator's output and error are cleared. *)
Theorem history_select_restores (f : File) (t : HistoryType) (s : AppState) (w : World) :
  Mime.plain (type f) = true ->
  activeHistoryType (historySt s) = Some t ->
  let copy :=
    {| name := historyTypeName t +++ "_from_history_" +++ Js.of_Z (now w) +++ ".png";
       type := fileType (mediaType f); bytes := bytes f |} in
  let picked := {| file := Some copy; previewUrl := Some (readAsDataURL f) |} in
  (type f <> EmptyString -> fileType (type f) = type f -> type copy = type f)
  /\ (type f = EmptyString -> type copy = "application/octet-stream")
  /\ exists s' w',
    handleHistorySelect (readAsDataURL f) s w = inr (s', w')
    /\ isHistoryModalOpen (historySt s') = false
    /\ activeHistoryType (historySt s') = None
    /\ outputImages (generatorSt s') = None
    /\ error (generatorSt s') = None
    /\ match t, tab_eqb (activeTab s) TabPattern with
       | HistRenderShot, _ => renderShot (generatorSt s') = picked
       | _, true =>
           patternMaterials (patternSt s')
           = patternMaterials (patternSt s) ++ [picked]
       | HistPattern, false => pattern (generatorSt s') = picked
       | HistMaterial, false =>
           (exists url,
               materials (generatorSt s')
               = materials (generatorSt s)
                 ++ [{| file := Some copy; previewUrl := Some url |}]
               /\ String.prefix "blob:" url = true)
           /\ hd_error (materialHistory (historySt s'))
              = Some (readAsDataURL copy)
       end.
Proof.
  intros Hm Ht. cbv zeta.
  split; [apply fileType_typed|]. split; [apply fileType_untyped|].
  unfold handleHistorySelect. rewrite Ht.
  rewrite (dataURLtoFile_readAsDataURL f _ Hm).
  destruct s as [tab key g e pt ch hi ex]. cbn [activeTab].
  destruct t; destruct (tab_eqb tab TabPattern) eqn:Etab;
    try solve [eexists _, _; split; [reflexivity|]; repeat split].
  unfold handleGeneratorMaterialSelect.
  cbn [createObjectURL fileToDataURL ret]. cbv zeta.
  eexists _, _. split; [reflexivity|].
  cbn -[historyInsert readAsDataURL Js.of_Z fileType mediaType]. repeat split.
  - eexists. split; [reflexivity | apply blob_prefix].
  - apply historyInsert_head.
Qed.

Lemma history_select_restores_witness :
  let f := {| name := "room.png"; type := "image/png"; bytes := [x4d; x61; x6e] |} in
  let g := {| name := "scan"; type := EmptyString; bytes := [x4d; x61; x6e] |} in
  let s := openHistoryModal HistRenderShot initialState in
  let w := Outcome.scripted [] in
  (exists s' w',
      handleHistorySelect "data:image/png;base64,TWFu" s w = inr (s', w')
      /\ renderShot (generatorSt s')
         = {| file := Some {| name := "renderShot_from_history_1000.png";
                              type := "image/png"; bytes := [x4d; x61; x6e] |};
              previewUrl := Some "data:image/png;base64,TWFu" |})
  /\ (exists s' w',
        handleHistorySelect "data:application/octet-stream;base64,TWFu" s w
        = inr (s', w')
        /\ renderShot (generatorSt s')
           = {| file := Some {| name := "renderShot_from_history_1000.png";
                                type := "application/octet-stream";
                                bytes := [x4d; x61; x6e] |};
                previewUrl := Some "data:application/octet-stream;base64,TWFu" |}).
Proof.
  intros f g s w. split.
  - destruct (history_select_restores f HistRenderShot s w eq_refl eq_refl)
      as [_ [_ [s' [w' [Hr [_ [_ [_ [_ Hslot]]]]]]]]].
    exists s', w'. split; [exact Hr | exact Hslot].
  - destruct (history_select_restores g HistRenderShot s w eq_refl eq_refl)
      as [_ [_ [s' [w' [Hr [_ [_ [_ [_ Hslot]]]]]]]]].
    exists s', w'. split; [exact Hr | exact Hslot].
Defined.

End HistorySelect.

(** ** Trimming the chat input *)

Section Trim.

Lemma trimStart_parts (l : list ascii) :
  exists pre,
    l = pre ++ Js.trimStartChars l
    /\ forallb Js.is_whitespace pre = true
    /\ match Js.trimStartChars l with
       | [] => True
       | c :: _ => Js.is_whitespace c = false
       end.
Proof.
  induction l as [|c r [pre [Hl [Hpre Hhd]]]].
  - exists []. repeat split.
  - simpl. destruct (Js.is_whitespace c) eqn:E.
    + exists (c :: pre). simpl. rewrite E, Hpre. repeat split; [|exact Hhd].
      now f_equal.
    + exists []. repeat split. exact E.
Qed.

Lemma trimStart_blank (l : list ascii) :
  forallb Js.is_whitespace l = true -> Js.trimStartChars l = [].
Proof.
  induction l as [|c r IH]; simpl; [reflexivity|].
  intros H. apply andb_true_iff in H. destruct H as [-> H]. now apply IH.
Qed.

Lemma trimStart_kept (l : list ascii) (c : ascii) (r : list ascii) :
  l = c :: r -> Js.is_whitespace c = false -> Js.trimStartChars l = l.
Proof. intros -> H. simpl. now rewrite H. Qed.

(** The parts of an input around its trimmed text. *)
Lemma trim_parts (input : string) :
  exists pre post,
    list_ascii_of_string input
    = pre ++ list_ascii_of_string (Js.trim input) ++ post
    /\ forallb Js.is_whitespace pre = true
    /\ forallb Js.is_whitespace post = true
    /\ match list_ascii_of_string (Js.trim input) with
       | [] => True
       | c :: _ =>
           Js.is_whitespace c = false
           /\ Js.is_whitespace
                (last (list_ascii_of_string (Js.trim input)) c) = false
       end.
Proof.
  unfold Js.trim. rewrite list_ascii_of_string_of_list_ascii.
  set (l := list_ascii_of_string input).
  destruct (trimStart_parts l) as [pre [Hl [Hpre Hhd]]].
  set (m := Js.trimStartChars l) in *.
  destruct (trimStart_parts (rev m)) as [post [Hm [Hpost Hlast]]].
  set (k := Js.trimStartChars (rev m)) in *.
  exists pre, (rev post). split; [|split; [|split]].
  - rewrite Hl at 1. f_equal. rewrite <- (rev_involutive m), Hm.
    now rewrite rev_app_distr.
  - exact Hpre.
  - rewrite forallb_forall in *. intros c Hc. apply Hpost. now apply in_rev.
  - destruct (rev k) as [|c r] eqn:Ek; [exact I|].
    assert (Hk : k = rev (c :: r)) by (rewrite <- Ek; now rewrite rev_involutive).
    split.
    + destruct post as [|p post].
      * simpl in Hm. assert (Hmk : m = c :: r).
        { rewrite <- (rev_involutive m), Hm, <- Ek. reflexivity. }
        rewrite Hmk in Hhd. exact Hhd.
      * assert (Hmk : m = (c :: r) ++ rev (p :: post)).
        { rewrite <- (rev_involutive m), Hm, rev_app_distr, Ek. reflexivity. }
        rewrite Hmk in Hhd. exact Hhd.
    + rewrite Hk in Hlast. simpl in Hlast.
      destruct (rev r ++ [c]) as [|x xs] eqn:Ex.
      * destruct (rev r); discriminate.
      * assert (Hx : x :: xs = rev (c :: r)) by (simpl; now rewrite Ex).
        apply (f_equal (@rev ascii)) in Hx. rewrite rev_involutive in Hx.
        simpl in Hx.
        assert (Hl2 : last (c :: r) c = x).
        { rewrite <- Hx. rewrite last_last. reflexivity. }
        rewrite Hl2. exact Hlast.
Qed.

(** X24: the chat box hands a message to the send handler only when the
    input holds something other than white space; the message is then the
    input without the white space before and after it, so it is not empty
    and neither starts nor ends with white space, and the box is emptied.
    A blank input sends nothing and stays in the box. *)
Theorem chatbot_submit_trims (input : string) :
  (forallb Js.is_whitespace (list_ascii_of_string input) = true ->
   chatbotSubmit input = (None, input))
  /\ (forall message rest,
         chatbotSubmit input = (Some message, rest) ->
         rest = EmptyString
         /\ message <> EmptyString
         /\ exists pre post c,
             list_ascii_of_string input
             = pre ++ list_ascii_of_string message ++ post
             /\ forallb Js.is_whitespace pre = true
             /\ forallb Js.is_whitespace post = true
             /\ hd_error (list_ascii_of_string message) = Some c
             /\ Js.is_whitespace c = false
             /\ Js.is_whitespace (last (list_ascii_of_string message) c) = false).
Proof.
  unfold chatbotSubmit. split.
  - intros Hblank. unfold Js.trim.
    rewrite (trimStart_blank _ Hblank). reflexivity.
  - intros message rest.
    destruct (trim_parts input) as [pre [post [Hin [Hpre [Hpost Hends]]]]].
    destruct (Js.truthy (Js.trim input)) eqn:E; [|discriminate].
    intros H. injection H as <- <-. split; [reflexivity|].
    split; [intros H0; rewrite H0 in E; discriminate|].
    destruct (list_ascii_of_string (Js.trim input)) as [|c r] eqn:El.
    + destruct (Js.trim input); discriminate.
    + exists pre, post, c. destruct Hends as [Hc Hl]. repeat split; assumption.
Qed.

End Trim.

(** ** The catalogue browser *)

Section CatalogueNavigation.

Import Catalogue.

Lemma click_keeps_root (c : Click) (m : ModalState) (rest : list DriveFolder) :
  folderStack m = rootFolder :: rest ->
  exists rest', folderStack (click c m) = rootFolder :: rest'.
Proof.
  intros H. destruct c as [folder|index]; simpl; rewrite H.
  - now exists (rest ++ [folder]).
  - rewrite Nat.add_1_r. simpl. now exists (firstn index rest).
Qed.

(** X25: from the moment the modal opens, whatever folders and breadcrumb
    positions are clicked, in range or not, the folder stack is never empty
    and its first entry is the root folder, so there is always a current
    folder to load. *)
Theorem navigation_keeps_root (clicks : list Click) (m : ModalState) :
  let opened := navigate clicks (openEffect true m) in
  (exists rest, folderStack opened = rootFolder :: rest)
  /\ exists folder, currentFolder opened = Some folder.
Proof.
  cbv zeta.
  assert (H : exists rest, folderStack (navigate clicks (openEffect true m))
                           = rootFolder :: rest).
  { unfold navigate.
    assert (H0 : exists rest, folderStack (openEffect true m) = rootFolder :: rest)
      by (now exists []).
    revert H0. generalize (openEffect true m).
    induction clicks as [|c cs IH]; intros st [rest Hst]; simpl.
    - now exists rest.
    - apply IH. now apply (click_keeps_root c st rest). }
  split; [exact H|]. destruct H as [rest H]. unfold currentFolder. rewrite H.
  destruct (nth_error (rootFolder :: rest) (List.length (rootFolder :: rest) - 1))
    as [folder|] eqn:E; [now exists folder|].
  apply nth_error_None in E. simpl in E. lia.
Qed.

(** X26: clicking the breadcrumb at a position of the stack keeps the
    entries up to that position and makes the entry at that position the
    current folder; a position at or beyond the last entry leaves the stack
    as it is; and entering a folder and then clicking the breadcrumb of the
    folder one came from gives the stack back. *)
Theorem breadcrumb_click (index : nat) (m : ModalState) :
  let stack := folderStack m in
  let m' := handleBreadcrumbClick index m in
  folderStack m' = firstn (S index) stack
  /\ (index < List.length stack ->
      List.length (folderStack m') = S index
      /\ currentFolder m' = nth_error stack index)
  /\ (List.length stack <= S index -> folderStack m' = stack)
  /\ (forall folder,
         stack <> [] ->
         folderStack (handleBreadcrumbClick (List.length stack - 1)
                        (handleFolderClick folder m)) = stack).
Proof.
  cbv zeta. unfold handleBreadcrumbClick, handleFolderClick, currentFolder.
  cbn [folderStack setFolderStack]. rewrite Nat.add_1_r.
  split; [reflexivity|]. split; [|split].
  - intros Hlt.
    assert (Hlen : List.length (firstn (S index) (folderStack m)) = S index)
      by (rewrite length_firstn; lia).
    split; [exact Hlen|]. rewrite Hlen. cbn [Nat.sub]. rewrite Nat.sub_0_r.
    rewrite nth_error_firstn.
    destruct (Nat.ltb_spec index (S index)) as [_|Hge]; [reflexivity | lia].
  - intros Hle. now apply firstn_all2.
  - intros folder Hne. rewrite Nat.add_1_r.
    destruct (folderStack m) as [|x l] eqn:E; [now contradiction Hne|].
    cbn [List.length Nat.sub]. rewrite Nat.sub_0_r.
    change (S (List.length l)) with (List.length (x :: l)).
    rewrite firstn_app, Nat.sub_diag, firstn_all. simpl. now rewrite app_nil_r.
Qed.

End CatalogueNavigation.

(** ** Answers of the Drive service *)

Section DriveAnswers.

Import Drive.

(** X27: a Drive response that is not [ok] never yields data: the helper
    throws an [Error] whose message is never empty.  The message is "An
    unknown error occurred." when the body is not JSON, and the hint to
    enable the Drive API when the message of the body says that the API is
    disabled or has not been used.  An [ok] response with a JSON body
    yields that body. *)
Theorem drive_response_errors (response : Response) (w : World) :
  (ok response = false ->
   exists m,
     fst (handleDriveApiResponse response w) = inl (ErrorObject m)
     /\ m <> EmptyString
     /\ (json response = None -> m = "An unknown error occurred.")
     /\ (forall info text,
            json response = Some info ->
            match error info with Some e => message e | None => None end
            = Some text ->
            Js.str_includes "is disabled" text = true
            \/ Js.str_includes "API has not been used" text = true ->
            m = apiDisabledMessage))
  /\ (forall body,
         ok response = true -> json response = Some body ->
         handleDriveApiResponse response w = (inr body, w)).
Proof.
  unfold handleDriveApiResponse. split.
  - intros Hok. rewrite Hok. cbn [negb].
    match goal with
    | |- context [Js.or_else ?o ?d] => set (errorMessage := Js.or_else o d)
    end.
    assert (Hne : errorMessage <> EmptyString).
    { unfold errorMessage, Js.or_else.
      match goal with
      | |- context [Js.truthy_opt ?o] => destruct o as [[|c t]|]
      end; simpl; discriminate. }
    destruct (Js.str_includes "API has not been used" errorMessage
              || Js.str_includes "is disabled" errorMessage) eqn:E.
    + exists apiDisabledMessage. split; [reflexivity|].
      split; [discriminate|]. split.
      * intros Hj. unfold errorMessage in E. rewrite Hj in E.
        vm_compute in E. discriminate.
      * reflexivity.
    + exists errorMessage. split; [reflexivity|]. split; [exact Hne|]. split.
      * intros Hj. unfold errorMessage. now rewrite Hj.
      * intros info text Hj Ht Hinc. exfalso.
        unfold errorMessage in E. rewrite Hj, Ht in E.
        apply orb_false_iff in E. destruct E as [E1 E2].
        unfold Js.or_else in E1, E2. cbn [Js.truthy_opt Js.interp] in E1, E2.
        destruct (Js.truthy text) eqn:Et.
        -- destruct Hinc as [H|H]; congruence.
        -- destruct text; [|discriminate].
           destruct Hinc as [H|H]; vm_compute in H; discriminate.
  - intros body Hok Hj. now rewrite Hok, Hj.
Qed.

Lemma drive_response_errors_witness :
  let response :=
    {| ok := false; status := 403; statusText := "Forbidden"; json := None |} in
  fst (handleDriveApiResponse response (Outcome.scripted []))
  = inl (GeminiService.ErrorObject "An unknown error occurred.").
Proof.
  intro response.
  destruct (drive_response_errors response (Outcome.scripted [])) as [H _].
  destruct (H eq_refl) as [m [Hr [_ [Hm _]]]].
  rewrite Hr, (Hm eq_refl). reflexivity.
Defined.

End DriveAnswers.

(** ** The service worker *)

Section Activation.

Import ServiceWorker.

Lemma filter_twice {A} (f g : A -> bool) (l : list A) :
  filter f (filter g l) = filter (fun x => g x && f x) l.
Proof.
  induction l as [|x l IH]; simpl; [reflexivity|].
  destruct (g x); simpl; [destruct (f x)|]; now rewrite IH.
Qed.

Lemma activate_fold (names : list string) (storage : CacheStorage) :
  fold_left
    (fun st cacheName =>
       if absent [CACHE_NAME] cacheName then delete cacheName st else st)
    names storage
  = filter
      (fun entry =>
         negb (existsb
                 (fun n => negb (String.eqb n CACHE_NAME)
                           && String.eqb (fst entry) n) names))
      storage.
Proof.
  revert storage. induction names as [|n names IH]; intros storage.
  - simpl. induction storage as [|e st IHs]; simpl; [reflexivity|].
    now rewrite <- IHs.
  - cbn [fold_left]. rewrite IH. unfold absent. cbn [existsb].
    rewrite orb_false_r.
    destruct (String.eqb n CACHE_NAME) eqn:E; cbn [negb andb orb].
    + reflexivity.
    + unfold delete. rewrite filter_twice. apply filter_ext. intros entry.
      destruct (String.eqb (fst entry) n); cbn [negb andb orb]; reflexivity.
Qed.

(** X28: activating the service worker deletes every cache whose name is
    not the current cache name and nothing else: the caches left are
    exactly those named [bovali-studio-cache-v1], with their entries, and
    activating again changes nothing. *)
Theorem activate_keeps_current (storage : CacheStorage) :
  activate storage
  = filter (fun entry => String.eqb (fst entry) CACHE_NAME) storage
  /\ Forall (fun name => name = CACHE_NAME) (keys (activate storage))
  /\ activate (activate storage) = activate storage.
Proof.
  assert (H : forall st,
             activate st = filter (fun entry => String.eqb (fst entry) CACHE_NAME) st).
  { intros st. unfold activate. rewrite activate_fold.
    apply filter_ext_in. intros entry Hin.
    destruct (String.eqb (fst entry) CACHE_NAME) eqn:E.
    - apply String.eqb_eq in E. apply negb_true_iff.
      apply not_true_is_false. intros Hex. apply existsb_exists in Hex.
      destruct Hex as [n [_ Hn]]. apply andb_true_iff in Hn.
      destruct Hn as [Hn1 Hn2]. apply String.eqb_eq in Hn2.
      rewrite <- Hn2, E, String.eqb_refl in Hn1. discriminate.
    - apply negb_false_iff. apply existsb_exists. exists (fst entry). split.
      + unfold keys. now apply in_map.
      + now rewrite E, String.eqb_refl. }
  split; [apply H|]. split.
  - rewrite H. unfold keys. apply Forall_forall. intros name Hn.
    apply in_map_iff in Hn. destruct Hn as [entry [<- He]].
    apply filter_In in He. destruct He as [_ He]. now apply String.eqb_eq.
  - rewrite !H. rewrite filter_twice. apply filter_ext. intros entry.
    now rewrite andb_diag.
Qed.

End Activation.

(** ** Adding materials, and what the Extractor sends *)

Section Materials.

Lemma filesOf_app (a b : list ImageState) : filesOf (a ++ b) = filesOf a ++ filesOf b.
Proof. unfold filesOf. apply flat_map_app. Qed.

(** X29: adding a material to the Generator or to the Pattern Studio
    appends it after the materials already there, so that materials are
    sent in the order they were added; it gets a fresh [blob:] preview,
    its data URL goes to the front of the material history, and, unlike
    selecting a slot image, the outputs and errors on display stay. *)
Theorem material_select_appends (f : File) (s : AppState) (w : World) :
  let g := handleGeneratorMaterialSelect f s w in
  let p := handlePatternMaterialSelect f s w in
  (exists url,
      materials (generatorSt (fst g))
      = materials (generatorSt s) ++ [{| file := Some f; previewUrl := Some url |}]
      /\ patternMaterials (patternSt (fst p))
         = patternMaterials (patternSt s)
           ++ [{| file := Some f; previewUrl := Some url |}]
      /\ String.prefix "blob:" url = true
      /\ objectUrls (snd g) = url :: objectUrls w
      /\ objectUrls (snd p) = url :: objectUrls w)
  /\ filesOf (materials (generatorSt (fst g)))
     = filesOf (materials (generatorSt s)) ++ [f]
  /\ filesOf (patternMaterials (patternSt (fst p)))
     = filesOf (patternMaterials (patternSt s)) ++ [f]
  /\ hd_error (materialHistory (historySt (fst g))) = Some (readAsDataURL f)
  /\ hd_error (materialHistory (historySt (fst p))) = Some (readAsDataURL f)
  /\ outputImages (generatorSt (fst g)) = outputImages (generatorSt s)
  /\ error (generatorSt (fst g)) = error (generatorSt s)
  /\ patternOutput (patternSt (fst p)) = patternOutput (patternSt s)
  /\ patternError (patternSt (fst p)) = patternError (patternSt s).
Proof.
  cbv zeta. unfold handleGeneratorMaterialSelect, handlePatternMaterialSelect.
  cbn [createObjectURL fileToDataURL ret]. cbv zeta.
  destruct s as [tab key g e pt ch hi ex].
  cbn -[historyInsert readAsDataURL decimal].
  split; [|repeat split].
  - eexists. repeat split. apply blob_prefix.
  - now rewrite filesOf_app.
  - now rewrite filesOf_app.
  - apply historyInsert_head.
  - apply historyInsert_head.
Qed.

Lemma handleProcessImage_world (s : AppState) (w : World) (source : File) :
  Js.truthy_opt (apiKeyError s) = false ->
  file (sourceImage (extractorSt s)) = Some source ->
  snd (handleProcessImage s w)
  = snd (extractAndProcessImage source (extractionType (extractorSt s))
           (dimensionsOf (sourceWidth (extractorSt s))
              (sourceHeight (extractorSt s)) (sourceUnit (extractorSt s))) w).
Proof.
  intros Hkey Hsrc. unfold handleProcessImage. rewrite Hkey, Hsrc.
  match goal with
  | |- context [extractAndProcessImage ?a ?b ?c w] =>
      destruct (extractAndProcessImage a b c w) as [[[m|d]|u] w1]
  end; cbn [snd]; try reflexivity.
  destruct (Js.truthy_opt u); [|reflexivity].
  now destruct (extractionType (extractorSt s)).
Qed.

(** X30: with no configuration error, an Extractor submit with a source
    image sends one request that carries that image alone and an
    instruction that names the extraction type and, when both sizes are
    given, holds the text [width x height unit]. *)
Theorem extractor_request (s : AppState) (w : World) (source : File) :
  Js.truthy_opt (apiKeyError s) = false ->
  file (sourceImage (extractorSt s)) = Some source ->
  Mime.plain (type source) = true ->
  let e := extractorSt s in
  exists prompt,
    requests (snd (handleProcessImage s w))
    = requests w ++ [Shape.surfaceRequest prompt [source]]
    /\ Shape.contains prompt
         ("Extract the " +++ extractionName (extractionType e) +++ ".")
    /\ (forall d,
           dimensionsOf (sourceWidth e) (sourceHeight e) (sourceUnit e) = Some d ->
           Shape.contains prompt d).
Proof.
  intros Hkey Hsrc Hplain. cbv zeta.
  rewrite (handleProcessImage_world s w source Hkey Hsrc).
  unfold extractAndProcessImage. eexists. split; [|split].
  - apply generateSurfaceDesign_requests. now constructor.
  - unfold template. cbn [String.concat].
    do 12 apply contains_later. apply contains_sooner.
    match goal with
    | |- Shape.contains _ ?part =>
        change (Shape.contains ("        Extraction Type: " +++ part) part)
    end.
    apply contains_later. apply contains_whole.
  - intros d Hd. destruct (dimensionsOf_truthy _ _ _ _ Hd) as [Ht _].
    rewrite Hd. cbn [Js.truthy_opt Js.interp]. rewrite Ht.
    unfold template. cbn [String.concat].
    do 20 apply contains_later. apply contains_sooner.
    apply contains_later. find_part.
Qed.

Lemma extractor_request_witness :
  let f := {| name := "wall.png"; type := "image/png"; bytes := [x4d] |} in
  let s :=
    setSourceHeight "20" (setSourceWidth "10"
      (setSourceImage {| file := Some f; previewUrl := None |} initialState)) in
  exists prompt,
    requests (snd (handleProcessImage s (Outcome.scripted [])))
    = [Shape.surfaceRequest prompt [f]]
    /\ Shape.contains prompt "10 x 20 cm".
Proof.
  intros f s.
  destruct (extractor_request s (Outcome.scripted []) f eq_refl eq_refl eq_refl)
    as [prompt [Hq [_ Hd]]].
  exists prompt. split; [exact Hq | apply Hd; reflexivity].
Defined.

End Materials.
